(** * OTRadioLink secureable frames: header codec, CRC trailer, secure
      frame codec and message-counter guard

    A shallow embedding of [OTRadioLink_SecureableFrameType.{h,cpp}]
    (namespace [OTRadioLink]) and the properties established for it.

    Conventions of the embedding.
    - A [uint8_t] is a [Z]; where the C++ assigns an [int] expression to a
      [uint8_t] the wrap-around is written [wrap8] (reduction modulo 256).
    - A byte buffer is a [list Z]; a pointer that the code compares with
      [NULL] is an [option (list Z)].  [buf[i]] is [rd buf i], [buf[i] = v]
      is [wr buf i v] and [memcpy(buf + i, src, n)] is [memcpy_at buf i src n].
      A store outside the list changes nothing and a load outside the list
      gives 0: the C++ has undefined behaviour there, and every lemma that
      depends on such an access carries the length hypothesis that rules it
      out.  Where the C++ goes through a pointer without testing it, a NULL
      pointer stands for the empty buffer.
    - A member function that mutates [*this] or a buffer passed by pointer
      returns the new value next to its result. *)

From Stdlib Require Import ZArith Lia Bool.
From stdpp Require Import base list.

Local Open Scope Z_scope.

(** ** Bytes and buffers *)

Definition wrap8 (x : Z) : Z := x mod 256.

Definition is_u8 (x : Z) : Prop := 0 <= x < 256.

Definition rd (b : list Z) (i : Z) : Z := default 0 (b !! Z.to_nat i).

Definition wr (b : list Z) (i : Z) (v : Z) : list Z := <[Z.to_nat i := v]> b.

Definition memcpy_at (b : list Z) (i : Z) (src : list Z) (n : Z) : list Z :=
  list_inserts (Z.to_nat i) (take (Z.to_nat n) src) b.

Definition memset_at (b : list Z) (i : Z) (v : Z) (n : Z) : list Z :=
  list_inserts (Z.to_nat i) (replicate (Z.to_nat n) v) b.

(** [OTBuf_t]: a pointer and the size the caller claims for it. *)
Record OTBuf_t := mkOTBuf { buf : option (list Z); bufsize : Z }.

(** ** Frame types (enum [FrameType_Secureable]) *)

Definition FTS_NONE : Z := 0.
Definition FTS_INVALID_HIGH : Z := 0x7f.
Definition FTS_MAX_LOCAL_TYPE : Z := 31.
Definition FTS_MAN_PUBLIC_TYPE : Z := 32.
Definition FTS_ALIVE : Z := 33.               (* '!' *)
Definition FTS_BasicSensorOrValve : Z := 79.  (* 'O', 0x4f *)

Definition SECUREABLE_FRAME_TYPE_SEC_FLAG : Z := 0x80.

(** ** struct SecurableFrameHeader *)

Record SecurableFrameHeader := mkSFH {
  fl : Z;          (* frame length after the fl byte; 0 means invalid *)
  fType : Z;       (* frame type, top bit is the secure flag *)
  seqIl : Z;       (* sequence number (bits 4-7) and ID length (bits 0-3) *)
  id : list Z;     (* uint8_t id[maxIDLength] *)
  bl : Z           (* body length *)
}.

Definition maxSmallFrameSize : Z := 63.
Definition maxIDLength : Z := 8.

Definition set_fl (h : SecurableFrameHeader) (v : Z) :=
  mkSFH v (fType h) (seqIl h) (id h) (bl h).
Definition set_fType (h : SecurableFrameHeader) (v : Z) :=
  mkSFH (fl h) v (seqIl h) (id h) (bl h).
Definition set_seqIl (h : SecurableFrameHeader) (v : Z) :=
  mkSFH (fl h) (fType h) v (id h) (bl h).
Definition set_id (h : SecurableFrameHeader) (v : list Z) :=
  mkSFH (fl h) (fType h) (seqIl h) v (bl h).
Definition set_bl (h : SecurableFrameHeader) (v : Z) :=
  mkSFH (fl h) (fType h) (seqIl h) (id h) v.

(** The constructor [SecurableFrameHeader() : fl(0) { id[0] = 0xff; }].
    The other members are left uninitialised; [raw] stands for whatever the
    storage held. *)
Definition SecurableFrameHeader_new (raw : SecurableFrameHeader) : SecurableFrameHeader :=
  set_id (set_fl raw 0) (wr (id raw) 0 0xff).

Definition isInvalid (h : SecurableFrameHeader) : bool := 0 =? fl h.
Definition isSecure (h : SecurableFrameHeader) : bool :=
  negb (0 =? Z.land 0x80 (fType h)).
Definition getSeq (h : SecurableFrameHeader) : Z :=
  Z.land (Z.shiftr (seqIl h) 4) 0xf.
Definition getIl (h : SecurableFrameHeader) : Z := Z.land (seqIl h) 0xf.
Definition getBodyOffset (h : SecurableFrameHeader) : Z := wrap8 (3 + getIl h).
Definition getTl (h : SecurableFrameHeader) : Z :=
  wrap8 (fl h - 3 - getIl h - bl h).
Definition getTrailerOffset (h : SecurableFrameHeader) : Z :=
  wrap8 (3 + getIl h + bl h).

(** Modelled from the spec: [getHl()] is called by [decodeRaw] but its
    declaration is not part of the available header; it is the header length
    including the leading frame-length byte, the value [4 + il] that
    [encodeHeader] and [decodeHeader] return. *)
Definition getHl (h : SecurableFrameHeader) : Z := wrap8 (4 + getIl h).

(** *** encodeHeader *)

Definition encodeHeader (h : SecurableFrameHeader) (b : OTBuf_t)
    (secure_ : bool) (fType_ seqNum_ : Z) (id_ : option (list Z))
    (il_ bl_ tl_ : Z) : Z * SecurableFrameHeader * OTBuf_t :=
  let buflen := bufsize b in
  (* Make frame 'invalid' until everything is finished and checks out. *)
  let h := set_fl h 0 in
  if (FTS_NONE =? fType_) || (fType_ >=? FTS_INVALID_HIGH) then (0, h, b) else
  let h := set_fType h (if secure_ then Z.lor 0x80 (wrap8 fType_)
                        else Z.land 0x7f (wrap8 fType_)) in
  if il_ >? maxIDLength then (0, h, b) else
  let h := set_seqIl h (wrap8 (Z.lor il_ (Z.shiftl seqNum_ 4))) in
  (* Copy in ID if not zero length; a NULL source is an error off AVR. *)
  let copied :=
    if il_ >? 0 then
      match id_ with
      | Some src => Some (set_id h (memcpy_at (id h) 0 src il_))
      | None => None
      end
    else Some h in
  match copied with
  | None => (0, h, b)
  | Some h =>
    let hlifl := wrap8 (4 + il_) in
    if hlifl >? buflen then (0, h, b) else
    if bl_ >? maxSmallFrameSize - hlifl then (0, h, b) else
    let h := set_bl h bl_ in
    if (if negb secure_ then negb (1 =? tl_)
        else (0 =? tl_) || (tl_ >? maxSmallFrameSize + 1 - hlifl - bl_))
    then (0, h, b) else
    let fl_ := wrap8 (hlifl - 1 + bl_ + tl_) in
    (* Write encoded header to buf starting with fl if buf is non-NULL. *)
    let b' :=
      match buf b with
      | Some buffer =>
          let buffer := wr buffer 0 fl_ in
          let buffer := wr buffer 1 (fType h) in
          let buffer := wr buffer 2 (seqIl h) in
          let buffer := memcpy_at buffer 3 (id h) il_ in
          let buffer := wr buffer (3 + il_) bl_ in
          mkOTBuf (Some buffer) (bufsize b)
      | None => b
      end in
    (* Set fl field to valid value as last action / side-effect. *)
    (hlifl, set_fl h fl_, b')
  end.

(** *** decodeHeader *)

Definition decodeHeader (h : SecurableFrameHeader) (buf : option (list Z))
    (buflen : Z) : Z * SecurableFrameHeader :=
  let h := set_fl h 0 in
  match buf with
  | None => (0, h)
  | Some buf =>
    if buflen <? 5 then (0, h) else
    let fl_ := rd buf 0 in
    if fl_ <? 4 then (0, h) else
    if fl_ >? maxSmallFrameSize then (0, h) else
    let h := set_fType h (rd buf 1) in
    let secure_ := isSecure h in
    let fType_ := Z.land (fType h) 0x7f in
    if (FTS_NONE =? fType_) || (fType_ >=? FTS_INVALID_HIGH) then (0, h) else
    let h := set_seqIl h (rd buf 2) in
    let il_ := getIl h in
    if il_ >? maxIDLength then (0, h) else
    if il_ >? fl_ - 4 then (0, h) else
    let hlifl := wrap8 (4 + il_) in
    if hlifl >? buflen then (0, h) else
    let h := if il_ >? 0 then set_id h (memcpy_at (id h) 0 (drop 3 buf) il_)
             else h in
    let bl_ := rd buf (hlifl - 1) in
    if bl_ >? fl_ - hlifl then (0, h) else
    let h := set_bl h bl_ in
    if (buflen >? fl_) &&
       ((0x00 =? rd buf fl_) || (0xff =? rd buf fl_)) then (0, h) else
    let tl_ := wrap8 (fl_ - 3 - il_ - bl h) in
    if (if negb secure_ then negb (1 =? tl_) else (0 =? tl_)) then (0, h) else
    (hlifl, set_fl h fl_)
  end.

(** ** CRC-7/5B *)

(** Modelled from the spec: [OTV0P2BASE::crc7_5B_update] lives in
    [OTV0P2BASE_CRC], which is not part of the available sources.  The spec
    names the code: CRC-7 with the polynomial written 0x5B in Koopman's
    notation, which is 0x37 in the usual one, fed most significant bit first,
    the result kept to 7 bits.  The model reproduces the four CRC values that
    [SecureFrameTest.cpp] expects ([crc_vector_1], [crc_vector_2] and
    [beacon_crc_vectors] below). *)
Fixpoint crc7_5B_bits (n : nat) (crc datum : Z) : Z :=
  match n with
  | O => crc
  | S k =>
      let i := Z.shiftl 1 (Z.of_nat k) in
      let bit := xorb (negb (0 =? Z.land crc 0x40)) (negb (0 =? Z.land datum i)) in
      let crc := wrap8 (Z.shiftl crc 1) in
      crc7_5B_bits k (if bit then Z.lxor crc 0x37 else crc) datum
  end.

Definition crc7_5B_update (crc datum : Z) : Z :=
  Z.land (crc7_5B_bits 8 crc datum) 0x7f.

(** *** computeNonSecureCRC *)

Definition computeNonSecureCRC (h : SecurableFrameHeader) (buf : list Z)
    (buflen : Z) : Z :=
  if isInvalid h then 0 else
  if buflen <? fl h then 0 else
  let crc := fold_left crc7_5B_update (take (Z.to_nat (fl h)) buf) 0x7f in
  if 0 =? crc then 0x80 else crc.

(** Storage as the constructor may find it. *)
Definition junk_header : SecurableFrameHeader := mkSFH 0 0 0 (replicate 8 0) 0.

(** ** Frame data carried through the codec *)

(** [OTEncodeData_T] and [OTDecodeData_T]; the members are prefixed because
    the two structs and the header share member names. *)
Record OTEncodeData_T := mkEnc {
  e_ptext : option (list Z);     (* plaintext body, padded in situ *)
  e_ptextbufSize : Z;
  e_ptextLen : Z;
  e_outbuf : option (list Z);    (* the frame buffer, byte 0 is fl *)
  e_outbufSize : Z;
  e_fType : Z;
  e_sfh : SecurableFrameHeader
}.

Record OTDecodeData_T := mkDec {
  d_ctext : option (list Z);     (* the received frame, byte 0 is fl *)
  d_ctextLen : Z;
  d_ptext : option (list Z);     (* where the body is decoded to, or NULL *)
  d_ptextLenMax : Z;
  d_ptextLen : Z;
  d_sfh : SecurableFrameHeader;
  d_id : list Z                  (* full sender ID, set by decode() *)
}.

Definition orempty (p : option (list Z)) : list Z := default [] p.

(** ** Non-secure frames *)

Definition encodeNonsecure (fd : OTEncodeData_T) (seqNum : Z)
    (id_ : option (list Z)) (il : Z) : Z * OTEncodeData_T :=
  let '(hl, sfh, b) :=
    encodeHeader (e_sfh fd) (mkOTBuf (e_outbuf fd) (e_outbufSize fd))
      false (e_fType fd) seqNum id_ il (e_ptextbufSize fd) 1 in
  let upd out := mkEnc (e_ptext fd) (e_ptextbufSize fd) (e_ptextLen fd) out
                   (e_outbufSize fd) (e_fType fd) sfh in
  (* Fail if header encoding fails. *)
  if 0 =? hl then (0, upd (buf b)) else
  (* Fail if buffer is not large enough to accommodate full frame. *)
  let fl_ := fl sfh in
  if fl_ >=? e_outbufSize fd then (0, upd (buf b)) else
  let out := orempty (buf b) in
  (* Copy in body, if any. *)
  let out := if e_ptextbufSize fd >? 0
             then memcpy_at out (getBodyOffset sfh) (orempty (e_ptext fd))
                    (e_ptextbufSize fd)
             else out in
  (* Compute and write in the CRC trailer... *)
  let crc := computeNonSecureCRC sfh out (e_outbufSize fd) in
  let out := wr out fl_ crc in
  (wrap8 (fl_ + 1), upd (Some out)).

Definition decodeNonsecure (fd : OTDecodeData_T) : Z :=
  match d_ctext fd with
  | None => 0
  | Some ctext =>
    if isInvalid (d_sfh fd) then 0 else
    let fl_ := fl (d_sfh fd) in
    if negb (1 =? getTl (d_sfh fd)) then 0 else
    let crc := computeNonSecureCRC (d_sfh fd) ctext (d_ctextLen fd) in
    if 0 =? crc then 0 else
    if negb (rd ctext fl_ =? crc) then 0 else
    wrap8 (fl_ + 1)
  end.

Definition generateNonsecureBeacon (b : OTBuf_t) (raw : SecurableFrameHeader)
    (seqNum : Z) (id_ : option (list Z)) (il : Z) : Z * OTEncodeData_T :=
  encodeNonsecure (mkEnc None 0 0 (buf b) (bufsize b) FTS_ALIVE
                     (SecurableFrameHeader_new raw)) seqNum id_ il.

(** ** Message counters *)

(** Modelled from the spec: [fullMsgCtrBytes] is a constant of
    [SimpleSecureFrame32or0BodyBase], whose declaration is not part of the
    available sources; the message counter is "a 6-byte big-endian unsigned
    counter". *)
Definition fullMsgCtrBytes : Z := 6.

(** The loop [for(uint8_t i = 0; i < fullMsgCtrBytes-1; ++i)
    { if(0xff != counter[i]) { allFF = false; break; } }]. *)
Fixpoint allFF_loop (fuel : nat) (i : Z) (counter : list Z) : bool :=
  match fuel with
  | O => true
  | S f =>
      if i <? fullMsgCtrBytes - 1
      then if negb (0xff =? rd counter i) then false
           else allFF_loop f (i + 1) counter
      else true
  end.

(** The loop [for(int8_t i = fullMsgCtrBytes-1; --i > 0; )
    { if(0 != ++counter[i]) { break; } }]: [i] is decremented, then tested,
    then used. *)
Fixpoint ripple_loop (fuel : nat) (i : Z) (counter : list Z) : list Z :=
  match fuel with
  | O => counter
  | S f =>
      let i := i - 1 in
      if i >? 0
      then let v := wrap8 (rd counter i + 1) in
           let counter := wr counter i v in
           if negb (0 =? v) then counter else ripple_loop f i counter
      else counter
  end.

Definition msgcounteradd (counter : list Z) (delta : Z) : bool * list Z :=
  if 0 =? delta then (true, counter) else
  let lsbyte := rd counter (fullMsgCtrBytes - 1) in
  let bumped := wrap8 (lsbyte + delta) in
  if bumped >? lsbyte then (true, wr counter (fullMsgCtrBytes - 1) bumped) else
  let allFF := allFF_loop 6 0 counter in
  if allFF then (false, counter) else
  let counter := wr counter (fullMsgCtrBytes - 1) bumped in
  (true, ripple_loop 6 (fullMsgCtrBytes - 1) counter).

(** Modelled from the spec: [msgcountercmp] is declared in the part of the
    header that is not available; the spec gives it as the lexicographic
    big-endian comparison of two 6-byte counters, with a negative, zero or
    positive result (the difference of the first pair of bytes that differ,
    as [memcmp] returns it). *)
Fixpoint bytescmp (n : nat) (a b : list Z) : Z :=
  match n with
  | O => 0
  | S k =>
      let x := rd a 0 in
      let y := rd b 0 in
      if x =? y then bytescmp k (drop 1 a) (drop 1 b) else x - y
  end.

Definition msgcountercmp (counter1 counter2 : list Z) : Z :=
  bytescmp (Z.to_nat fullMsgCtrBytes) counter1 counter2.

(** The numeric value of a big-endian byte string. *)
Definition be_value (c : list Z) : Z := fold_left (fun acc x => acc * 256 + x) c 0.

(** ** Padding of the fixed-size encrypted body *)

(** Modelled from the spec: the two constants are declared in the part of
    the header that is not available; the spec pads bodies "to exactly 32
    bytes" and refuses "dataLen > 31", and the comment of [pad32BBuffer] reads
    "Padded size is (ENC_BODY_SMALL_FIXED_CTEXT_SIZE) 32, maximum unpadded
    size is 31". *)
Definition ENC_BODY_SMALL_FIXED_CTEXT_SIZE : Z := 32.
Definition ENC_BODY_SMALL_FIXED_PTEXT_MAX_SIZE : Z := 31.

Definition pad32BBuffer (b : option (list Z)) (datalen : Z)
    : Z * option (list Z) :=
  match b with
  | None => (0, b)
  | Some buf =>
    if datalen >? ENC_BODY_SMALL_FIXED_PTEXT_MAX_SIZE then (0, b) else
    let paddingZeros := wrap8 (ENC_BODY_SMALL_FIXED_CTEXT_SIZE - 1 - datalen) in
    let buf := wr buf (ENC_BODY_SMALL_FIXED_CTEXT_SIZE - 1) paddingZeros in
    let buf := memset_at buf datalen 0 paddingZeros in
    (ENC_BODY_SMALL_FIXED_CTEXT_SIZE, Some buf)
  end.

Definition unpad32BBuffer (buf : list Z) : Z :=
  let paddingZeros := rd buf (ENC_BODY_SMALL_FIXED_CTEXT_SIZE - 1) in
  if paddingZeros >? 31 then 0 else
  let datalen := wrap8 (ENC_BODY_SMALL_FIXED_CTEXT_SIZE - 1 - paddingZeros) in
  datalen.

(** ** Scratch space and the pluggable crypto functions *)

(** [OTV0P2BASE::ScratchSpaceL]: only whether the pointer is null and the
    size matter to the codec. *)
Record ScratchSpaceL := mkScratch { s_isnull : bool; s_bufsize : Z }.

(** Modelled from the spec: the constructor [ScratchSpaceL(parent, reserveN)]
    belongs to [OTV0P2BASE], which is not part of the available sources; a
    call "reserves a prefix of its scratch buffer for its own use and passes
    the remainder to a nested call". *)
Definition subScratchSpace (parent : ScratchSpaceL) (reserveN : Z) : ScratchSpaceL :=
  mkScratch (s_isnull parent) (s_bufsize parent - reserveN).

(** [fixed32BTextSize12BNonce16BTagSimpleEnc_fn_t]: workspace, key, iv,
    authenticated text, plaintext (or NULL); on success the bytes stored at
    [ciphertextOut] and the 16 bytes stored at [tagOut]. *)
Definition Enc_fn : Type :=
  ScratchSpaceL -> list Z -> list Z -> list Z -> option (list Z) ->
  option (list Z * list Z).

(** [fixed32BTextSize12BNonce16BTagSimpleDec_fn_t]: workspace, key, iv,
    authenticated text, ciphertext (or NULL), tag; on success the content of
    [plaintextOut] after the call. *)
Definition Dec_fn : Type :=
  ScratchSpaceL -> list Z -> list Z -> list Z -> option (list Z) -> list Z ->
  option (list Z).

Definition fixed32BTextSize12BNonce16BTagSimpleEnc_NULL_IMPL : Enc_fn :=
  fun workspace key iv authtext plaintext =>
    if s_isnull workspace then None else
    Some (match plaintext with Some p => take 32 p | None => [] end,
          take 12 iv ++ replicate 4 0).

(** [plaintextOut] is left as it was ([old]) when there is no ciphertext. *)
Definition fixed32BTextSize12BNonce16BTagSimpleDec_NULL_IMPL (old : list Z) : Dec_fn :=
  fun workspace key iv authtext ciphertext tag =>
    if s_isnull workspace then None else
    if negb (rd tag 0 =? rd iv 0) || negb (0 =? rd tag 15) then None else
    Some (match ciphertext with Some c => take 32 c | None => old end).

(** What a run of the receive path did, in order. *)
Inductive Event :=
  | EvValidate (nodeID counter : list Z) (ok : bool)  (* validateRXMsgCtr *)
  | EvDecrypt (iv : list Z) (ok : bool)               (* the call of d *)
  | EvCommit (nodeID counter : list Z) (ok : bool).   (* authAndUpdateRXMsgCtr *)

(** ** Secure frames: encodeRaw *)

Definition encodeRaw (fd : OTEncodeData_T) (id_ : option (list Z)) (il_ : Z)
    (iv : list Z) (e : Enc_fn) (scratch : ScratchSpaceL)
    (key : option (list Z)) : Z * OTEncodeData_T :=
  match key with
  | None => (0, fd)
  | Some k =>
    let bodylen := e_ptextLen fd in
    (* Stop if unencrypted body is too big for this scheme. *)
    if bodylen >? ENC_BODY_SMALL_FIXED_PTEXT_MAX_SIZE then (0, fd) else
    let encryptedBodyLength :=
      if 0 =? bodylen then 0 else ENC_BODY_SMALL_FIXED_CTEXT_SIZE in
    let seqNum_ := Z.land (rd iv 11) 0xf in
    let '(hl, sfh, b) :=
      encodeHeader (e_sfh fd) (mkOTBuf (e_outbuf fd) (e_outbufSize fd))
        true (e_fType fd) seqNum_ id_ il_ encryptedBodyLength 23 in
    let upd pt out := mkEnc pt (e_ptextbufSize fd) (e_ptextLen fd) out
                        (e_outbufSize fd) (e_fType fd) sfh in
    if 0 =? hl then (0, upd (e_ptext fd) (buf b)) else
    let fl_ := fl sfh in
    if fl_ >=? e_outbufSize fd then (0, upd (e_ptext fd) (buf b)) else
    (* Pad body, if any, IN SITU. *)
    let padded := if negb (0 =? bodylen) then pad32BBuffer (e_ptext fd) bodylen
                  else (ENC_BODY_SMALL_FIXED_CTEXT_SIZE, e_ptext fd) in
    if 0 =? padded.1 then (0, upd padded.2 (buf b)) else
    let buffer := orempty (buf b) in
    match e scratch k iv (take (Z.to_nat hl) buffer)
            (if 0 =? bodylen then None else padded.2) with
    | None => (0, upd padded.2 (buf b))
    | Some (ciphertextOut, tagOut) =>
        let buffer := memcpy_at buffer hl ciphertextOut
                        (Z.of_nat (length ciphertextOut)) in
        let buffer := memcpy_at buffer (fl_ - 16) tagOut 16 in
        (* Copy the counters part (last 6 bytes of) the nonce/IV into the trailer... *)
        let buffer := memcpy_at buffer (fl_ - 22) (drop 6 iv) 6 in
        (* Set final trailer byte to indicate encryption type and format. *)
        let buffer := wr buffer fl_ 0x80 in
        (wrap8 (fl_ + 1), upd padded.2 (Some buffer))
    end
  end.

(** ** Secure frames: the receive path *)

(** The RX association store.  [_getNextMatchingNodeID], [getLastRXMsgCtr]
    and [authAndUpdateRXMsgCtr] are pure virtual in
    [SimpleSecureFrame32or0BodyRXBase]; the store they work on is external
    (non-volatile memory), so the receive path is written over any
    implementation [S] of them.
    - [_getNextMatchingNodeID s index sfh]: the index of the next association
      from [index] on whose ID starts with the header's ID bytes, negative
      when there is none, and the full node ID found.
    - [getLastRXMsgCtr s ID]: the last accepted counter of the node, if
      it can be fetched.
    - [authAndUpdateRXMsgCtr s ID counter]: whether the store took the new
      counter, and the store afterwards. *)
Class RXStore (S : Type) := {
  _getNextMatchingNodeID : S -> Z -> SecurableFrameHeader -> Z * list Z;
  getLastRXMsgCtr : S -> list Z -> option (list Z);
  authAndUpdateRXMsgCtr : S -> list Z -> list Z -> bool * S
}.


(** Modelled from the spec: [OTV0P2BASE::OpenTRV_Node_ID_Bytes] is not part
    of the available sources; a full node identity is 8 bytes. *)
Definition OpenTRV_Node_ID_Bytes : Z := 8.

Section RX.

(** The self-use scratch sizes are constants of the class declaration, which
    is not part of the available sources; they are parameters here. *)
Variables decodeRaw_scratch_usage _decodeFromID_scratch_usage
          decode_scratch_usage : Z.

Definition decodeRaw (fd : OTDecodeData_T) (d : Dec_fn)
    (scratch : ScratchSpaceL) (key iv : option (list Z))
    : Z * OTDecodeData_T * list Event :=
  let scratchSpaceNeededHere := decodeRaw_scratch_usage in
  if scratchSpaceNeededHere >? s_bufsize scratch then (0, fd, []) else
  let subScratch := subScratchSpace scratch scratchSpaceNeededHere in
  match d_ctext fd, key, iv with
  | Some buf, Some key, Some iv =>
    let buflen := wrap8 (rd buf 0 + 1) in
    let sfh := d_sfh fd in
    (* Abort if header was not decoded properly. *)
    if isInvalid sfh then (0, fd, []) else
    let fl_ := fl sfh in
    if fl_ >=? buflen then (0, fd, []) else
    if negb (23 =? getTl sfh) then (0, fd, []) else
    if negb (0x80 =? rd buf fl_) then (0, fd, []) else
    let bl_ := bl sfh in
    if negb (0 =? bl_) && negb (ENC_BODY_SMALL_FIXED_CTEXT_SIZE =? bl_)
    then (0, fd, []) else
    (* Check that header sequence number lsbs match nonce counter 4 lsbs. *)
    if negb (getSeq sfh =? Z.land (rd iv 11) 0xf) then (0, fd, []) else
    let plaintextWanted := match d_ptext fd with Some _ => true | None => false end in
    (* Attempt to authenticate and decrypt. *)
    match d subScratch key iv (take (Z.to_nat (getHl sfh)) buf)
            (if 0 =? bl_ then None
             else Some (take 32 (drop (Z.to_nat (getBodyOffset sfh)) buf)))
            (take 16 (drop (Z.to_nat (fl_ - 16)) buf)) with
    | None => (0, fd, [EvDecrypt iv false])
    | Some decryptBuf =>
      if plaintextWanted && negb (0 =? bl_) then
        (* Unpad the decrypted text in place. *)
        let upbl := unpad32BBuffer decryptBuf in
        if upbl >? ENC_BODY_SMALL_FIXED_PTEXT_MAX_SIZE
        then (0, fd, [EvDecrypt iv true]) else
        if upbl >? d_ptextLenMax fd then (0, fd, [EvDecrypt iv true]) else
        (wrap8 (fl_ + 1),
         mkDec (d_ctext fd) (d_ctextLen fd)
           (Some (memcpy_at (orempty (d_ptext fd)) 0 decryptBuf upbl))
           (d_ptextLenMax fd) upbl (d_sfh fd) (d_id fd),
         [EvDecrypt iv true])
      else
        (wrap8 (fl_ + 1),
         mkDec (d_ctext fd) (d_ctextLen fd) (d_ptext fd) (d_ptextLenMax fd)
           0 (d_sfh fd) (d_id fd),
         [EvDecrypt iv true])
    end
  | _, _, _ => (0, fd, [])
  end.

Definition _decodeFromID (fd : OTDecodeData_T) (d : Dec_fn) (adjID : OTBuf_t)
    (scratch : ScratchSpaceL) (key : option (list Z))
    : Z * OTDecodeData_T * list Event :=
  let scratchSpaceNeededHere := _decodeFromID_scratch_usage in
  if scratchSpaceNeededHere >? s_bufsize scratch then (0, fd, []) else
  let subScratch := subScratchSpace scratch scratchSpaceNeededHere in
  if bufsize adjID <? 6 then (0, fd, []) else
  let ctext := orempty (d_ctext fd) in
  let buflen := wrap8 (rd ctext 0 + 1) in
  if getTrailerOffset (d_sfh fd) + 6 >? buflen then (0, fd, []) else
  (* Construct IV from supplied (possibly adjusted) ID
     + counters from (start of) trailer. *)
  let iv := take 6 (orempty (buf adjID)) ++
            take (Z.to_nat fullMsgCtrBytes)
              (drop (Z.to_nat (getTrailerOffset (d_sfh fd))) ctext) in
  decodeRaw fd d subScratch key (Some iv).

Context {S : Type} `{RXStore S}.

Definition validateRXMsgCtr (s : S) (ID : list Z) (counter : option (list Z))
    : bool :=
  match counter with
  | None => false
  | Some counter =>
    (* Fetch the current counter; instant fail if not possible. *)
    match getLastRXMsgCtr s ID with
    | None => false
    | Some currentCounter =>
        (* New counter must be larger to be acceptable. *)
        msgcountercmp counter currentCounter >? 0
    end
  end.

Definition decode (s : S) (fd : OTDecodeData_T) (d : Dec_fn)
    (scratch : ScratchSpaceL) (key : option (list Z))
    : Z * OTDecodeData_T * S * list Event :=
  let scratchSpaceNeededHere := decode_scratch_usage in
  if scratchSpaceNeededHere >? s_bufsize scratch then (0, fd, s, []) else
  let subScratch := subScratchSpace scratch scratchSpaceNeededHere in
  match d_ctext fd with
  | None => (0, fd, s, [])
  | Some ctext =>
    (* Abort if header was not decoded properly. *)
    if isInvalid (d_sfh fd) then (0, fd, s, []) else
    if negb (23 =? getTl (d_sfh fd)) then (0, fd, s, []) else
    (* Look up the full node ID of the sender in the associations table. *)
    let '(index, nodeID) := _getNextMatchingNodeID s 0 (d_sfh fd) in
    let senderNodeID := mkOTBuf (Some nodeID) OpenTRV_Node_ID_Bytes in
    if index <? 0 then (0, fd, s, []) else
    (* Extract the message counter and validate it
       (that it is higher than previously seen)... *)
    let messageCounter :=
      take (Z.to_nat fullMsgCtrBytes)
        (drop (Z.to_nat (getTrailerOffset (d_sfh fd))) ctext) in
    if negb (validateRXMsgCtr s nodeID (Some messageCounter))
    then (0, fd, s, [EvValidate nodeID messageCounter false]) else
    (* Now attempt to decrypt. *)
    let '(decodeResult, fd', tr) :=
      _decodeFromID fd d senderNodeID subScratch key in
    let tr := EvValidate nodeID messageCounter true :: tr in
    if 0 =? decodeResult then (0, fd', s, tr) else
    (* Successfully decoded: update the RX message counter to avoid
       duplicates/replays. *)
    let '(ok, s') := authAndUpdateRXMsgCtr s nodeID messageCounter in
    let tr := tr ++ [EvCommit nodeID messageCounter ok] in
    if negb ok then (0, fd', s', tr) else
    (* Success: copy sender ID to output buffer as last action. *)
    (decodeResult,
     mkDec (d_ctext fd') (d_ctextLen fd') (d_ptext fd') (d_ptextLenMax fd')
       (d_ptextLen fd') (d_sfh fd')
       (memcpy_at (d_id fd') 0 nodeID OpenTRV_Node_ID_Bytes),
     s', tr)
  end.

End RX.

(** ** Secure frames: the transmit wrappers *)

(** The TX identity and counter provider.  [getTXID] is pure virtual in
    [SimpleSecureFrame32or0BodyTXBase] and [computeIVForTX12B] is built on
    the virtual counter source; both belong to the external collaborator, so
    the wrappers are written over any implementation [T] of them.
    - [computeIVForTX12B t]: the 12-byte IV (6 bytes of ID, 6 bytes of
      counter) if it could be built, and the provider afterwards.
    - [getTXID t]: the full 8-byte ID of this node, if available. *)
Class TXBase (T : Type) := {
  computeIVForTX12B : T -> option (list Z) * T;
  getTXID : T -> option (list Z)
}.

(** Fixed by the [static_assert]s in [encode] and [encodeValveFrame]. *)
Definition encode_scratch_usage : Z := 12 + OpenTRV_Node_ID_Bytes.
Definition encodeValveFrame_scratch_usage : Z := 12.

(** [strlen] of the C string that starts at [b + i]. *)
Fixpoint strlen_from (b : list Z) : Z :=
  match b with
  | [] => 0
  | c :: r => if c =? 0 then 0 else 1 + strlen_from r
  end.

Definition strlen_at (b : list Z) (i : Z) : Z := strlen_from (drop (Z.to_nat i) b).

Section TX.

(** The total scratch budgets depend on the crypto library in use; their
    declarations are not part of the available sources. *)
Variables encode_total_scratch_usage_OTAESGCM_2p0
          encodeValveFrame_total_scratch_usage_OTAESGCM_2p0 : Z.

Context {T : Type} `{TXBase T}.

Definition encode (t : T) (fd : OTEncodeData_T) (il_ : Z) (e : Enc_fn)
    (scratch : ScratchSpaceL) (key : option (list Z))
    : Z * OTEncodeData_T * T :=
  if s_bufsize scratch <? encode_total_scratch_usage_OTAESGCM_2p0
  then (0, fd, t) else
  if (e_fType fd >=? FTS_INVALID_HIGH) || (e_fType fd =? FTS_NONE)
  then (0, fd, t) else
  (* iv at start of scratch space *)
  match computeIVForTX12B t with
  | (None, t) => (0, fd, t)
  | (Some iv, t) =>
    (* If ID is short then we can cheat by reusing start of IV, else fetch
       again explicitly... *)
    let longID := il_ >? 6 in
    let fetched := if longID then getTXID t else None in
    if longID && (match fetched with Some _ => false | None => true end)
    then (255, fd, t) else
    let subscratch := subScratchSpace scratch encode_scratch_usage in
    let actualID := if longID then orempty fetched else iv in
    let '(r, fd') := encodeRaw fd (Some actualID) il_ iv e subscratch key in
    (r, fd', t)
  end.

(** When [fd.ptext] is NULL the C++ stores through it all the same; the
    stores are dropped here and [encodeRaw] then refuses the frame. *)
Definition encodeValveFrame (t : T) (fd : OTEncodeData_T) (il_ valvePC : Z)
    (e : Enc_fn) (scratch : ScratchSpaceL) (key : option (list Z))
    : Z * OTEncodeData_T * T :=
  if s_bufsize scratch <? encodeValveFrame_total_scratch_usage_OTAESGCM_2p0
  then (0, fd, t) else
  let ptext := e_ptext fd in
  match computeIVForTX12B t with
  | (None, t) => (0, fd, t)
  | (Some iv, t) =>
    let hasStats := match ptext with
                    | Some p => 0x7b =? rd p 2      (* '{' *)
                    | None => false
                    end in
    let slp1 := if hasStats then strlen_at (orempty ptext) 2 else 1 in
    if slp1 >? ENC_BODY_SMALL_FIXED_PTEXT_MAX_SIZE - 1 then (0, fd, t) else
    let statslen := wrap8 (slp1 - 1) in
    let ptext := option_map
                   (fun p => wr (wr p 0 (if valvePC <=? 100 then valvePC else 0x7f))
                               1 (if hasStats then 0x10 else 0)) ptext in
    let fd := mkEnc ptext (e_ptextbufSize fd) (e_ptextLen fd) (e_outbuf fd)
                (e_outbufSize fd) (e_fType fd) (e_sfh fd) in
    let subscratch := subScratchSpace scratch encodeValveFrame_scratch_usage in
    if il_ >? 6 then (0, fd, t) else
    let fd := mkEnc ptext (e_ptextbufSize fd)
                (if hasStats then wrap8 (2 + statslen) else 2) (e_outbuf fd)
                (e_outbufSize fd) FTS_BasicSensorOrValve (e_sfh fd) in
    let '(r, fd') := encodeRaw fd (Some iv) il_ iv e subscratch key in
    (r, fd', t)
  end.

End TX.

(** ** A store and a provider to run the code on *)

(** Modelled from the spec: the association store of the V0p2 receiver is
    not part of the available sources.  The spec describes it as "keyed by
    full node ID; supports prefix-match lookup (given a partial ID of length
    0-8, find matching full IDs) and get/compare-and-set of the 6-byte
    last-seen counter".  Here it is a table of (full ID, last counter) rows
    in association order. *)
Definition AssocTable : Type := list (list Z * list Z).

Definition id_matches (sfh : SecurableFrameHeader) (full : list Z) : bool :=
  let n := Z.to_nat (Z.min (getIl sfh) maxIDLength) in
  bool_decide (take n full = take n (id sfh)).

Fixpoint find_from (tbl : AssocTable) (sfh : SecurableFrameHeader) (i : Z)
    : Z * list Z :=
  match tbl with
  | [] => (-1, [])
  | (full, _) :: r =>
      if id_matches sfh full then (i, full) else find_from r sfh (i + 1)
  end.

Fixpoint table_get (tbl : AssocTable) (ID : list Z) : option (list Z) :=
  match tbl with
  | [] => None
  | (full, c) :: r => if bool_decide (full = ID) then Some c else table_get r ID
  end.

Fixpoint table_set (tbl : AssocTable) (ID counter : list Z) : AssocTable :=
  match tbl with
  | [] => []
  | (full, c) :: r =>
      if bool_decide (full = ID) then (full, counter) :: r
      else (full, c) :: table_set r ID counter
  end.

#[export] Instance AssocTable_store : RXStore AssocTable := {
  _getNextMatchingNodeID tbl index sfh :=
    find_from (drop (Z.to_nat index) tbl) sfh index;
  getLastRXMsgCtr := table_get;
  authAndUpdateRXMsgCtr tbl ID counter :=
    match table_get tbl ID with
    | Some current =>
        if msgcountercmp counter current >? 0
        then (true, table_set tbl ID counter)
        else (false, tbl)
    | None => (false, tbl)
    end
}.

(** A provider in the manner of [TXBaseMock] of the unit tests, with the
    answers of its two operations given. *)
Record FixedTX := mkFixedTX { tx_iv : option (list Z); tx_id : option (list Z) }.

#[export] Instance FixedTX_base : TXBase FixedTX := {
  computeIVForTX12B t := (tx_iv t, t);
  getTXID t := tx_id t
}.

(** ** What the statements are written with *)

(** The type byte and the sequence/ID-length byte that [encodeHeader]
    builds. *)
Definition type_byte (secure_ : bool) (fType_ : Z) : Z :=
  if secure_ then Z.lor 0x80 (wrap8 fType_) else Z.land 0x7f (wrap8 fType_).

Definition seqIl_byte (il_ seqNum_ : Z) : Z := wrap8 (Z.lor il_ (Z.shiftl seqNum_ 4)).

(** The Quick Integrity Checks on a header (1-6 and 8 of the list in the
    source; 7 is about the frame buffer, not the header). *)
Definition QIC (h : SecurableFrameHeader) : Prop :=
  4 <= fl h <= maxSmallFrameSize /\
  Z.land (fType h) 0x7f <> FTS_NONE /\ Z.land (fType h) 0x7f < FTS_INVALID_HIGH /\
  0 <= getIl h <= maxIDLength /\
  getIl h <= fl h - 4 /\
  0 <= bl h <= fl h - 4 - getIl h /\
  (if isSecure h then 1 <= fl h - 3 - getIl h - bl h
   else fl h - 3 - getIl h - bl h = 1).

(** [P] holds of 0, ..., n - 1: used to check facts about the packed bytes
    over the whole range of their operands. *)
Fixpoint all_below (n : nat) (P : Z -> bool) : bool :=
  match n with
  | O => true
  | S k => P (Z.of_nat k) && all_below k P
  end.

(** The call of the decryption function that [decodeRaw] makes once the
    structural checks have passed: remaining scratch, key, IV, the header
    bytes as authenticated text, the 32 body bytes from the body offset (or
    NULL when the body is empty) and the 16 tag bytes before the final
    byte. *)
Definition decodeRaw_call (usage : Z) (fd : OTDecodeData_T) (d : Dec_fn)
    (scratch : ScratchSpaceL) (key iv buf : list Z) : option (list Z) :=
  d (subScratchSpace scratch usage) key iv
    (take (Z.to_nat (getHl (d_sfh fd))) buf)
    (if 0 =? bl (d_sfh fd) then None
     else Some (take 32 (drop (Z.to_nat (getBodyOffset (d_sfh fd))) buf)))
    (take 16 (drop (Z.to_nat (fl (d_sfh fd) - 16)) buf)).


(** ** The vectors of the unit tests *)

(** Frame data as in [GenericFrameEncodingValidity]. *)
Definition O_frame_data : OTEncodeData_T :=
  mkEnc (Some (0x7f :: replicate 33 0)) 34 2 (Some (replicate 64 0)) 64
    FTS_BasicSensorOrValve (SecurableFrameHeader_new junk_header).

(** Vector 1 of the defining examples, as in [FrameHeaderDecoding]. *)
Definition vector1_header : list Z := [0x08; 0x4f; 0x02; 0x80; 0x81; 0x02].
Definition vector1_frame : list Z := vector1_header ++ [0x00; 0x01; 0x23].

(** Frame data as in [NonsecureSmallFrameEncoding]: body 00 01, a buffer of
    [maxSmallFrameSize] bytes; the bytes the buffer held before are 0xAA here
    so that the ones the encoder did not write stay visible. *)
Definition vector1_encode_data : OTEncodeData_T :=
  mkEnc (Some [0x00; 0x01]) 2 0 (Some (replicate 63 0xAA)) 63
    FTS_BasicSensorOrValve (SecurableFrameHeader_new junk_header).

(** Frame data as in [SecureSmallFrameEncoding]: the 8-byte body of example
    3 in a 32-byte buffer, ID aa aa aa aa, counter 00 00 2a 00 03 19. *)
Definition vector3_iv : list Z :=
  [0xaa; 0xaa; 0xaa; 0xaa; 0x55; 0x55; 0x00; 0x00; 0x2a; 0x00; 0x03; 0x19].
Definition vector3_body : list Z := [0x7f; 0x11; 0x7b; 0x22; 0x62; 0x22; 0x3a; 0x31].
Definition vector3_encode_data : OTEncodeData_T :=
  mkEnc (Some (vector3_body ++ replicate 24 0)) 32 8 (Some (replicate 63 0)) 63
    FTS_BasicSensorOrValve (SecurableFrameHeader_new junk_header).

(** Receive-side frame data for a frame, its header decoded from it. *)
Definition decode_data_for (frame : option (list Z)) (len : Z) : OTDecodeData_T :=
  mkDec frame len (Some (replicate 31 0)) ENC_BODY_SMALL_FIXED_PTEXT_MAX_SIZE 0
    (decodeHeader (SecurableFrameHeader_new junk_header) frame len).2
    (replicate 8 0).

(** The header of vector 1, as in [FrameHeaderEncoding]. *)
Definition vector1_encodeHeader :=
  encodeHeader (SecurableFrameHeader_new junk_header)
    (mkOTBuf (Some (replicate 63 0)) 63) false FTS_BasicSensorOrValve 0
    (Some [0x80; 0x81]) 2 2 1.

(** A secure frame without body, as in [BeaconEncodingWithWorkspace]. *)
Definition beacon_encode_data : OTEncodeData_T :=
  mkEnc None 0 0 (Some (replicate 64 0)) 64 FTS_ALIVE
    (SecurableFrameHeader_new junk_header).

Definition beacon_frame :=
  encodeRaw beacon_encode_data (Some [0xaa; 0xaa]) 2 vector3_iv
    fixed32BTextSize12BNonce16BTagSimpleEnc_NULL_IMPL (mkScratch false 272)
    (Some (replicate 16 0)).

Definition beacon_decode_data : OTDecodeData_T :=
  mkDec (e_outbuf beacon_frame.2) beacon_frame.1 None
    ENC_BODY_SMALL_FIXED_PTEXT_MAX_SIZE 7
    (decodeHeader (SecurableFrameHeader_new junk_header)
       (e_outbuf beacon_frame.2) beacon_frame.1).2
    (replicate 8 0).

(** A body-less secure frame from node aa aa 55 55 55 55 00 01 whose counter
    is 00 00 00 00 03 13, and a table that knows the node with the counter
    zero. *)
Definition replay_iv : list Z :=
  [0xaa; 0xaa; 0x55; 0x55; 0x55; 0x55; 0x00; 0x00; 0x00; 0x00; 0x03; 0x13].

Definition replay_frame :=
  encodeRaw beacon_encode_data (Some [0xaa; 0xaa]) 2 replay_iv
    fixed32BTextSize12BNonce16BTagSimpleEnc_NULL_IMPL (mkScratch false 272)
    (Some (replicate 16 0)).

Definition replay_decode_data : OTDecodeData_T :=
  mkDec (e_outbuf replay_frame.2) replay_frame.1 None
    ENC_BODY_SMALL_FIXED_PTEXT_MAX_SIZE 0
    (decodeHeader (SecurableFrameHeader_new junk_header)
       (e_outbuf replay_frame.2) replay_frame.1).2
    (replicate 8 0).

Definition replay_table : AssocTable :=
  [([0x11; 0x22; 0x33; 0x44; 0x55; 0x66; 0x77; 0x88], [0; 0; 0; 0; 0; 9]);
   ([0xaa; 0xaa; 0x55; 0x55; 0x55; 0x55; 0x00; 0x01], [0; 0; 0; 0; 0; 0])].

Definition replay_first :=
  decode 32 12 14 replay_table replay_decode_data
    (fixed32BTextSize12BNonce16BTagSimpleDec_NULL_IMPL (replicate 32 0))
    (mkScratch false 400) (Some (replicate 16 0)).


(** ** What the further properties are written with *)

(** The calls of [encodeNonsecure] that succeed. *)
Definition encodeNonsecure_ok (fd : OTEncodeData_T) (id_ : option (list Z))
    (il : Z) : Prop :=
  e_fType fd <> FTS_NONE /\ e_fType fd < FTS_INVALID_HIGH /\
  il <= maxIDLength /\ (0 < il -> id_ <> None) /\
  e_ptextbufSize fd <= maxSmallFrameSize - (4 + il) /\
  5 + il + e_ptextbufSize fd <= e_outbufSize fd.


(** Frame data for a non-secure frame without body, as [generateNonsecureBeacon]
    builds it, over a 64-byte buffer that held 0xAA. *)
Definition alive_encode_data : OTEncodeData_T :=
  mkEnc None 0 0 (Some (replicate 64 0xAA)) 64 FTS_ALIVE
    (SecurableFrameHeader_new junk_header).

(** * Properties *)

(** ** The embedding on the CRC vectors of the unit tests *)

Example crc_vector_1 :
  computeNonSecureCRC (decodeHeader junk_header (Some [0x08; 0x4f; 0x02; 0x80; 0x81; 0x02; 0x00; 0x01; 0x23]) 6).2
    [0x08; 0x4f; 0x02; 0x80; 0x81; 0x02; 0x00; 0x01; 0x23] 8 = 0x23.
Proof. reflexivity. Qed.

Example crc_vector_2 :
  computeNonSecureCRC (decodeHeader junk_header (Some [0x0e; 0x4f; 0x02; 0x80; 0x81; 0x08; 0x7f; 0x11; 0x7b; 0x22; 0x62; 0x22; 0x3a; 0x31; 0x61]) 6).2
    [0x0e; 0x4f; 0x02; 0x80; 0x81; 0x08; 0x7f; 0x11; 0x7b; 0x22; 0x62; 0x22; 0x3a; 0x31; 0x61] 14 = 0x61.
Proof. reflexivity. Qed.

Example beacon_crc_vectors :
  computeNonSecureCRC (mkSFH 4 0x21 0 [] 0) [0x04; 0x21; 0x00; 0x00] 4 = 0x65 /\
  computeNonSecureCRC (mkSFH 12 0x21 0x48 [] 0)
    [0x0c; 0x21; 0x48; 0; 0; 0; 0; 0; 0; 0; 0; 0x00] 12 = 0x29.
Proof. split; reflexivity. Qed.

(** [BeaconEncodingWithWorkspace]: the two non-secure beacons byte for
    byte, and for every ID length the sizes that the secure beacon, its
    header and its decoding report (with the NULL encryption pair here). *)
Example beacon_unit_test :
  let b := mkOTBuf (Some (replicate 64 0xAA)) 64 in
  let bytes r := take (Z.to_nat r.1) (orempty (e_outbuf r.2)) in
  bytes (generateNonsecureBeacon b junk_header 0 None 0)
    = [0x04; 0x21; 0x00; 0x00; 0x65] /\
  bytes (generateNonsecureBeacon b junk_header 4 (Some (replicate 8 0)) 8)
    = [0x0c; 0x21; 0x48; 0; 0; 0; 0; 0; 0; 0; 0; 0x00; 0x29] /\
  forallb (fun idLen =>
      let enc := encodeRaw (mkEnc None 0 0 (Some (replicate 64 0)) 64 FTS_ALIVE
                              (SecurableFrameHeader_new junk_header))
                   (Some [0xaa; 0xaa; 0xaa; 0xaa; 0x55; 0x55; 0x55; 0x55]) idLen
                   [0xaa; 0xaa; 0xaa; 0xaa; 0x55; 0x55; 0x00; 0x00; 0x2a; 0x00; 0x03; 0x19]
                   fixed32BTextSize12BNonce16BTagSimpleEnc_NULL_IMPL
                   (mkScratch false 272) (Some (replicate 16 0)) in
      let hdr := decodeHeader (SecurableFrameHeader_new junk_header)
                   (e_outbuf enc.2) (enc.1 + 1) in
      let dec := decodeRaw 32
                   (mkDec (e_outbuf enc.2) enc.1 None 31 0 hdr.2 (replicate 8 0))
                   (fixed32BTextSize12BNonce16BTagSimpleDec_NULL_IMPL (replicate 32 0))
                   (mkScratch false 320) (Some (replicate 16 0))
                   (Some [0xaa; 0xaa; 0xaa; 0xaa; 0x55; 0x55; 0x00; 0x00; 0x2a; 0x00; 0x03; 0x19]) in
      (enc.1 =? 27 + idLen) && (hdr.1 =? 4 + idLen) && (dec.1.1 =? 27 + idLen))
    [0; 1; 2; 3; 4; 5; 6; 7; 8] = true.
Proof. repeat split; vm_compute; reflexivity. Qed.

(** ** Bytes and buffers *)

Lemma wrap8_small x : 0 <= x < 256 -> wrap8 x = x.
Proof. intros Hx. unfold wrap8. now apply Z.mod_small. Qed.

Lemma wrap8_range x : 0 <= wrap8 x < 256.
Proof. unfold wrap8. apply Z.mod_pos_bound. lia. Qed.

Lemma rd_app_last (body : list Z) (b : Z) :
  rd (body ++ [b]) (Z.of_nat (length body)) = b.
Proof.
  unfold rd. rewrite Nat2Z.id.
  rewrite lookup_app_r by lia. now rewrite Nat.sub_diag.
Qed.

Lemma length_wr (b : list Z) i v : length (wr b i v) = length b.
Proof. unfold wr. apply length_insert. Qed.

Lemma length_memcpy_at (b : list Z) i src n : length (memcpy_at b i src n) = length b.
Proof. unfold memcpy_at. apply length_inserts. Qed.

Lemma length_memset_at (b : list Z) i v n : length (memset_at b i v n) = length b.
Proof. unfold memset_at. apply length_inserts. Qed.

Lemma rd_wr_eq (b : list Z) i v :
  0 <= i < Z.of_nat (length b) -> rd (wr b i v) i = v.
Proof.
  intros Hi. unfold rd, wr.
  rewrite list_lookup_insert_eq by lia. reflexivity.
Qed.

Lemma rd_wr_ne (b : list Z) i j v :
  0 <= i -> 0 <= j -> i <> j -> rd (wr b i v) j = rd b j.
Proof.
  intros Hi Hj Hne. unfold rd, wr.
  rewrite list_lookup_insert_ne by lia. reflexivity.
Qed.

Lemma rd_memcpy_at_outside (b : list Z) i src n j :
  0 <= i -> 0 <= j -> (j < i \/ i + Z.of_nat (length (take (Z.to_nat n) src)) <= j) ->
  rd (memcpy_at b i src n) j = rd b j.
Proof.
  intros Hi Hj Hout. unfold rd, memcpy_at.
  destruct Hout as [Hlt | Hge].
  - rewrite list_lookup_inserts_lt by lia. reflexivity.
  - rewrite list_lookup_inserts_ge by lia. reflexivity.
Qed.

Lemma rd_memset_at_outside (b : list Z) i v n j :
  0 <= i -> 0 <= j -> 0 <= n -> (j < i \/ i + n <= j) ->
  rd (memset_at b i v n) j = rd b j.
Proof.
  intros Hi Hj Hn Hout. unfold rd, memset_at.
  destruct Hout as [Hlt | Hge].
  - rewrite list_lookup_inserts_lt by lia. reflexivity.
  - rewrite list_lookup_inserts_ge by (rewrite length_replicate; lia). reflexivity.
Qed.

Lemma take_wr_ge (b : list Z) i v n :
  (n <= Z.to_nat i)%nat -> take n (wr b i v) = take n b.
Proof. intros Hn. unfold wr. now apply take_insert_ge. Qed.

(** ** unpad32BBuffer *)

Lemma unpad32BBuffer_by_final_byte (buf : list Z) :
  0 <= rd buf 31 ->
  unpad32BBuffer buf = if rd buf 31 <=? 31 then 31 - rd buf 31 else 0.
Proof.
  intros Hb. unfold unpad32BBuffer, ENC_BODY_SMALL_FIXED_CTEXT_SIZE.
  change (32 - 1) with 31.
  destruct (Z.gtb_spec (rd buf 31) 31) as [Hgt | Hle];
    destruct (Z.leb_spec (rd buf 31) 31); try lia;
    first [reflexivity | apply wrap8_small; lia].
Qed.

(** C10.  The result of [unpad32BBuffer] is a function of the 32nd byte of
    the buffer alone: for a 32-byte buffer [body ++ [b]] with final byte
    [b <= 31] it is [31 - b] whatever the 31 bytes before it are (so the
    padding bytes are never checked to be zero), and for [b > 31] it is 0;
    a buffer that [pad32BBuffer] pads for a zero-length body ends in 31 and
    so unpads to 0, the value that is also returned for every buffer whose
    final byte is out of range. *)
Theorem unpad32BBuffer_determined_by_final_byte :
  forall (body : list Z) (b : Z),
    length body = 31%nat -> is_u8 b ->
    unpad32BBuffer (body ++ [b]) = (if b <=? 31 then 31 - b else 0) /\
    (forall body' : list Z, length body' = 31%nat ->
       unpad32BBuffer (body' ++ [b]) = unpad32BBuffer (body ++ [b])) /\
    (forall padded : list Z,
       pad32BBuffer (Some (body ++ [b])) 0 =
         (ENC_BODY_SMALL_FIXED_CTEXT_SIZE, Some padded) ->
       rd padded 31 = 31 /\
       unpad32BBuffer padded = 0 /\
       (31 < b -> unpad32BBuffer (body ++ [b]) = unpad32BBuffer padded)).
Proof.
  intros body b Hlen [Hb0 Hb1].
  assert (Hlast : forall l : list Z, length l = 31%nat -> rd (l ++ [b]) 31 = b).
  { intros l Hl. change 31 with (Z.of_nat 31). rewrite <- Hl. apply rd_app_last. }
  assert (Hun : forall l : list Z, length l = 31%nat ->
            unpad32BBuffer (l ++ [b]) = if b <=? 31 then 31 - b else 0).
  { intros l Hl. rewrite unpad32BBuffer_by_final_byte; rewrite Hlast by assumption;
      [reflexivity | assumption]. }
  split; [now apply Hun |].
  split; [intros body' Hlen'; now rewrite !Hun |].
  intros padded Hpad.
  unfold pad32BBuffer in Hpad. simpl in Hpad.
  injection Hpad as Hpadded.
  assert (Hp31 : rd padded 31 = 31).
  { rewrite <- Hpadded.
    change (wrap8 (ENC_BODY_SMALL_FIXED_CTEXT_SIZE - 1 - 0)) with 31.
    change (ENC_BODY_SMALL_FIXED_CTEXT_SIZE - 1) with 31.
    rewrite rd_memset_at_outside by lia.
    apply rd_wr_eq. rewrite length_app, Hlen. simpl. lia. }
  split; [assumption |].
  assert (Hp0 : unpad32BBuffer padded = 0).
  { rewrite unpad32BBuffer_by_final_byte by lia. now rewrite Hp31. }
  split; [assumption |].
  intros Hgt. rewrite Hp0, Hun by assumption.
  destruct (Z.leb_spec b 31); [lia | reflexivity].
Qed.

Lemma unpad32BBuffer_determined_by_final_byte_witness :
  unpad32BBuffer (replicate 31 0xAA ++ [30]) = 1 /\
  unpad32BBuffer (replicate 31 0 ++ [200]) = 0 /\
  unpad32BBuffer (orempty (pad32BBuffer (Some (replicate 31 0xAA ++ [200])) 0).2) = 0 /\
  unpad32BBuffer (replicate 31 0xAA ++ [200]) =
    unpad32BBuffer (orempty (pad32BBuffer (Some (replicate 31 0xAA ++ [200])) 0).2).
Proof.
  split; [| split; [| split]].
  - apply (proj1 (unpad32BBuffer_determined_by_final_byte (replicate 31 0xAA) 30
                    eq_refl ltac:(unfold is_u8; lia))).
  - apply (proj1 (unpad32BBuffer_determined_by_final_byte (replicate 31 0) 200
                    eq_refl ltac:(unfold is_u8; lia))).
  - apply (proj1 (proj2 (proj2 (proj2 (unpad32BBuffer_determined_by_final_byte
                                         (replicate 31 0xAA) 200 eq_refl
                                         ltac:(unfold is_u8; lia)))
             (orempty (pad32BBuffer (Some (replicate 31 0xAA ++ [200])) 0).2)
             eq_refl))).
  - apply (proj2 (proj2 (proj2 (proj2 (unpad32BBuffer_determined_by_final_byte
                                         (replicate 31 0xAA) 200 eq_refl
                                         ltac:(unfold is_u8; lia)))
             (orempty (pad32BBuffer (Some (replicate 31 0xAA ++ [200])) 0).2)
             eq_refl))).
    lia.
Defined.

(** ** msgcounteradd *)

Lemma be_value_6 c0 c1 c2 c3 c4 c5 :
  be_value [c0; c1; c2; c3; c4; c5] =
  ((((c0 * 256 + c1) * 256 + c2) * 256 + c3) * 256 + c4) * 256 + c5.
Proof. unfold be_value. simpl. lia. Qed.

(** Whenever the carry out of the last byte has to travel through bytes 4
    to 1 into byte 0, the ripple loop stops before byte 0: the counter wraps
    to a smaller value and the call reports success. *)
Lemma msgcounteradd_ripple_stops_before_byte_0 (c0 c5 delta : Z) :
  0 <= c0 < 255 -> 0 <= c5 < 256 -> 0 < delta < 256 -> 256 <= c5 + delta ->
  msgcounteradd [c0; 0xff; 0xff; 0xff; 0xff; c5] delta =
    (true, [c0; 0; 0; 0; 0; c5 + delta - 256]).
Proof.
  intros H0 H5 Hd Hc.
  unfold msgcounteradd.
  destruct (Z.eqb_spec 0 delta); [lia |].
  change (rd [c0; 255; 255; 255; 255; c5] (fullMsgCtrBytes - 1)) with c5.
  assert (Hb : wrap8 (c5 + delta) = c5 + delta - 256).
  { unfold wrap8. symmetry. apply Z.mod_unique with (q := 1); lia. }
  rewrite Hb.
  destruct (Z.gtb_spec (c5 + delta - 256) c5); [lia |].
  assert (Hff : allFF_loop 6 0 [c0; 255; 255; 255; 255; c5] = false).
  { change (allFF_loop 6 0 [c0; 255; 255; 255; 255; c5]) with
      (if negb (255 =? c0) then false
       else allFF_loop 5 1 [c0; 255; 255; 255; 255; c5]).
    destruct (Z.eqb_spec 255 c0); [lia | reflexivity]. }
  rewrite Hff. reflexivity.
Qed.

(** The part of the contract that the code keeps: over 6-byte counters, the
    call fails exactly when the sum would pass ff ff ff ff ff ff, and a
    failed call leaves the counter as it was. *)
Lemma msgcounteradd_fails_iff_overflow (c0 c1 c2 c3 c4 c5 delta : Z) :
  is_u8 c0 -> is_u8 c1 -> is_u8 c2 -> is_u8 c3 -> is_u8 c4 -> is_u8 c5 ->
  is_u8 delta ->
  let c := [c0; c1; c2; c3; c4; c5] in
  ((msgcounteradd c delta).1 = false <-> be_value c + delta > 2 ^ 48 - 1) /\
  ((msgcounteradd c delta).1 = false -> (msgcounteradd c delta).2 = c).
Proof.
  unfold is_u8. intros H0 H1 H2 H3 H4 H5 Hd. cbv zeta.
  rewrite be_value_6. change (2 ^ 48 - 1) with 281474976710655.
  unfold msgcounteradd.
  change (rd [c0; c1; c2; c3; c4; c5] (fullMsgCtrBytes - 1)) with c5.
  destruct (Z.eqb_spec 0 delta) as [Hz | Hnz]; cbn [fst snd].
  { split; [split; [discriminate | lia] | reflexivity]. }
  destruct (Z_lt_ge_dec (c5 + delta) 256) as [Hsmall | Hbig].
  { rewrite wrap8_small by lia.
    destruct (Z.gtb_spec (c5 + delta) c5); [| lia]. cbn [fst snd].
    split; [split; [discriminate | lia] | discriminate]. }
  assert (Hb : wrap8 (c5 + delta) = c5 + delta - 256).
  { unfold wrap8. symmetry. apply Z.mod_unique with (q := 1); lia. }
  rewrite Hb.
  destruct (Z.gtb_spec (c5 + delta - 256) c5); [lia |].
  change (allFF_loop 6 0 [c0; c1; c2; c3; c4; c5]) with
    (if negb (255 =? c0) then false else
     if negb (255 =? c1) then false else
     if negb (255 =? c2) then false else
     if negb (255 =? c3) then false else
     if negb (255 =? c4) then false else true).
  destruct (Z.eqb_spec 255 c0); cbn [negb fst snd];
    [| split; [split; [discriminate | lia] | discriminate]].
  destruct (Z.eqb_spec 255 c1); cbn [negb fst snd];
    [| split; [split; [discriminate | lia] | discriminate]].
  destruct (Z.eqb_spec 255 c2); cbn [negb fst snd];
    [| split; [split; [discriminate | lia] | discriminate]].
  destruct (Z.eqb_spec 255 c3); cbn [negb fst snd];
    [| split; [split; [discriminate | lia] | discriminate]].
  destruct (Z.eqb_spec 255 c4); cbn [negb fst snd];
    [| split; [split; [discriminate | lia] | discriminate]].
  split; [split; [lia | reflexivity] | reflexivity].
Qed.

(** C3 (the code at the failing input).  Adding 1 to the counter
    00 ff ff ff ff ff, whose value is 2^40 - 1, is reported as a success but
    leaves 00 00 00 00 00 00, of value 0, instead of 01 00 00 00 00 00: the
    carry is not propagated into the first byte. *)
Theorem msgcounteradd_loses_carry_into_first_byte :
  msgcounteradd [0; 0xff; 0xff; 0xff; 0xff; 0xff] 1 = (true, [0; 0; 0; 0; 0; 0]) /\
  be_value [0; 0xff; 0xff; 0xff; 0xff; 0xff] + 1 = 2 ^ 40 /\
  be_value (msgcounteradd [0; 0xff; 0xff; 0xff; 0xff; 0xff] 1).2 = 0 /\
  be_value [0; 0xff; 0xff; 0xff; 0xff; 0xff] + 1 <= 2 ^ 48 - 1.
Proof. repeat split; vm_compute; congruence. Qed.

(** The unit test [MsgCount] of [SecureFrameTest.cpp] on this model. *)
Example msgcounteradd_unit_test :
  msgcounteradd [0; 0; 0x83; 0; 0; 0] 0 = (true, [0; 0; 0x83; 0; 0; 0]) /\
  msgcounteradd [0; 0; 0x83; 0; 0; 0] 1 = (true, [0; 0; 0x83; 0; 0; 1]) /\
  msgcounteradd [0; 0; 0x83; 0; 0; 1] 255 = (true, [0; 0; 0x83; 0; 1; 0]) /\
  msgcounteradd (replicate 6 0xff) 1 = (false, replicate 6 0xff) /\
  msgcounteradd (replicate 6 0xff) 42 = (false, replicate 6 0xff) /\
  msgcountercmp [0; 0; 0x83; 0; 0; 0] [0; 0; 0x82; 0x88; 1; 1] > 0 /\
  msgcountercmp [0; 0; 0x82; 0x88; 1; 1] [0; 0; 0x83; 0; 0; 0] < 0.
Proof. repeat split; reflexivity. Qed.

(** ** encode: the long-ID failure path *)

(** C9 (the code on the failing path).  When the ID length asks for more
    than the six ID bytes held in the IV and the provider cannot supply the
    node ID, [encode] returns 255 although nothing was written: the frame
    data and the output buffer are returned untouched. *)
Theorem encode_returns_255_when_getTXID_fails :
  forall (total : Z) (T : Type) (TX : TXBase T) (t t' : T)
         (fd : OTEncodeData_T) (il_ : Z) (e : Enc_fn) (scratch : ScratchSpaceL)
         (key : option (list Z)) (iv : list Z),
    total <= s_bufsize scratch ->
    e_fType fd <> FTS_NONE -> e_fType fd < FTS_INVALID_HIGH ->
    computeIVForTX12B t = (Some iv, t') ->
    6 < il_ ->
    getTXID t' = None ->
    encode total t fd il_ e scratch key = (255, fd, t').
Proof.
  intros total T TX t t' fd il_ e scratch key iv Hs Hn Hh Hiv Hil Hid.
  unfold encode.
  destruct (Z.ltb_spec (s_bufsize scratch) total); [lia |].
  destruct (Z.geb_spec (e_fType fd) FTS_INVALID_HIGH); [lia |].
  destruct (Z.eqb_spec (e_fType fd) FTS_NONE); [contradiction |].
  simpl. rewrite Hiv.
  destruct (Z.gtb_spec il_ 6); [| lia].
  rewrite Hid. reflexivity.
Qed.

Lemma encode_returns_255_when_getTXID_fails_witness :
  encode 300 (mkFixedTX (Some (replicate 12 0)) None) O_frame_data 7
    fixed32BTextSize12BNonce16BTagSimpleEnc_NULL_IMPL (mkScratch false 300)
    (Some (replicate 16 0))
  = (255, O_frame_data, mkFixedTX (Some (replicate 12 0)) None).
Proof.
  apply (encode_returns_255_when_getTXID_fails 300 FixedTX FixedTX_base
           (mkFixedTX (Some (replicate 12 0)) None)
           (mkFixedTX (Some (replicate 12 0)) None)
           O_frame_data 7 _ (mkScratch false 300) _ (replicate 12 0)).
  - simpl. lia.
  - vm_compute. congruence.
  - vm_compute. reflexivity.
  - reflexivity.
  - lia.
  - reflexivity.
Defined.

(** The sibling wrapper refuses the same ID lengths with 0. *)
Lemma encodeValveFrame_long_id_returns_0 :
  (encodeValveFrame 300 (mkFixedTX (Some (replicate 12 0)) None) O_frame_data 7
     0x7f fixed32BTextSize12BNonce16BTagSimpleEnc_NULL_IMPL
     (mkScratch false 300) (Some (replicate 16 0))).1.1 = 0.
Proof. reflexivity. Qed.

(** The unit test [GenericFrameEncodingValidity] on this model, with a
    provider that has its ID. *)
Example encode_unit_test :
  let tx := mkFixedTX (Some (replicate 12 0)) (Some (replicate 8 0x80)) in
  let run fd il := (encode 300 tx fd il
                      fixed32BTextSize12BNonce16BTagSimpleEnc_NULL_IMPL
                      (mkScratch false 300) (Some (replicate 16 0))).1.1 in
  let nobody := mkEnc (e_ptext O_frame_data) 34 0 (e_outbuf O_frame_data) 64
                  FTS_BasicSensorOrValve (e_sfh O_frame_data) in
  run O_frame_data 0 = 59 /\ run O_frame_data 5 = 64 /\ run O_frame_data 6 = 0 /\
  run nobody 5 = 32 /\ run nobody 6 = 33 /\ run nobody 7 = 34 /\
  run nobody 8 = 35 /\ run nobody 9 = 0.
Proof. repeat split; reflexivity. Qed.

(** ** The test vectors of the defining examples *)



(** ** The header codec *)

Ltac bool_to_prop :=
  repeat match goal with
  | H : (_ || _) = false |- _ => apply orb_false_iff in H; destruct H
  | H : (_ && _) = false |- _ => apply andb_false_iff in H
  | H : (_ && _) = true |- _ => apply andb_true_iff in H; destruct H
  | H : negb _ = true |- _ => apply negb_true_iff in H
  | H : negb _ = false |- _ => apply negb_false_iff in H
  | H : (_ =? _) = true |- _ => apply Z.eqb_eq in H
  | H : (_ =? _) = false |- _ => apply Z.eqb_neq in H
  | H : (_ <? _) = true |- _ => apply Z.ltb_lt in H
  | H : (_ <? _) = false |- _ => apply Z.ltb_ge in H
  | H : (_ <=? _) = true |- _ => apply Z.leb_le in H
  | H : (_ <=? _) = false |- _ => apply Z.leb_gt in H
  | H : (_ >? _) = true |- _ => rewrite Z.gtb_ltb in H
  | H : (_ >? _) = false |- _ => rewrite Z.gtb_ltb in H
  | H : (_ >=? _) = true |- _ => rewrite Z.geb_leb in H
  | H : (_ >=? _) = false |- _ => rewrite Z.geb_leb in H
  end.


(** What a call of [encodeHeader] can do: fail with the header left
    invalid, or pass every check and produce the header and the bytes. *)
Lemma encodeHeader_cases h b secure_ fType_ seqNum_ id_ il_ bl_ tl_ r h' b' :
  0 <= il_ -> 0 <= bl_ -> 0 <= tl_ ->
  encodeHeader h b secure_ fType_ seqNum_ id_ il_ bl_ tl_ = (r, h', b') ->
  (r = 0 /\ fl h' = 0) \/
  (r = 4 + il_ /\
   fType_ <> FTS_NONE /\ fType_ < FTS_INVALID_HIGH /\
   il_ <= maxIDLength /\ (0 < il_ -> exists src, id_ = Some src) /\
   4 + il_ <= bufsize b /\ bl_ <= maxSmallFrameSize - (4 + il_) /\
   (if secure_ then 1 <= tl_ <= maxSmallFrameSize + 1 - (4 + il_) - bl_
    else tl_ = 1) /\
   let id' := if 0 <? il_ then memcpy_at (id h) 0 (orempty id_) il_ else id h in
   h' = mkSFH (3 + il_ + bl_ + tl_) (type_byte secure_ fType_)
          (seqIl_byte il_ seqNum_) id' bl_ /\
   b' = match buf b with
        | Some buffer =>
            mkOTBuf (Some (wr (memcpy_at
                                 (wr (wr (wr buffer 0 (3 + il_ + bl_ + tl_))
                                        1 (type_byte secure_ fType_))
                                    2 (seqIl_byte il_ seqNum_))
                                 3 id' il_)
                             (3 + il_) bl_))
              (bufsize b)
        | None => b
        end).
Proof.
  intros Hil Hbl Htl0 Henc. unfold encodeHeader in Henc.
  unfold maxIDLength, maxSmallFrameSize, FTS_NONE, FTS_INVALID_HIGH in *.
  cbv zeta in Henc.
  destruct ((0 =? fType_) || (fType_ >=? 127)) eqn:Hty;
    [injection Henc as <- <- <-; left; auto |].
  destruct (il_ >? 8) eqn:Hil8; [injection Henc as <- <- <-; left; auto |].
  bool_to_prop.
  assert (Hw : wrap8 (4 + il_) = 4 + il_) by (apply wrap8_small; lia).
  rewrite !Hw in Henc.
  fold (type_byte secure_ fType_) in Henc. fold (seqIl_byte il_ seqNum_) in Henc.
  destruct (Z.gtb_spec il_ 0) as [Hpos | Hzero];
    destruct (Z.ltb_spec 0 il_) as [Hpos' | Hzero']; try lia.
  all: [> destruct id_ as [src |]; [| injection Henc as <- <- <-; left; auto] | ].
  all: cbn [set_id set_seqIl set_fType set_fl set_bl id fl fType seqIl bl orempty default] in Henc.
  all: destruct (4 + il_ >? bufsize b) eqn:Hfit; [injection Henc as <- <- <-; left; auto |].
  all: destruct (bl_ >? 63 - (4 + il_)) eqn:Hbody; [injection Henc as <- <- <-; left; auto |].
  all: bool_to_prop.
  all: destruct secure_; cbn [negb] in Henc.
  all: match type of Henc with
       | context [if ?c then _ else _] => destruct c eqn:Htl
       end; [injection Henc as <- <- <-; left; auto |].
  all: bool_to_prop.
  all: assert (Hfl : wrap8 (4 + il_ - 1 + bl_ + tl_) = 3 + il_ + bl_ + tl_)
         by (rewrite wrap8_small by lia; lia).
  all: rewrite Hfl in Henc.
  all: injection Henc as <- <- <-; right.
  all: repeat match goal with |- _ /\ _ => split end; try lia; try congruence; eauto.
  all: try (intros; lia).
  all: try (cbv zeta; split; [reflexivity | destruct (buf b); reflexivity]).
Qed.

Lemma all_below_spec n P :
  all_below n P = true -> forall x, 0 <= x < Z.of_nat n -> P x = true.
Proof.
  induction n as [| k IH]; intros Hall x Hx; [lia |].
  simpl in Hall. apply andb_true_iff in Hall as [Hk Hrest].
  destruct (Z.eq_dec x (Z.of_nat k)) as [-> | Hne]; [assumption |].
  apply IH; [assumption | lia].
Qed.

Lemma type_byte_unpacks secure_ fType_ :
  0 <= fType_ < 128 ->
  Z.land (type_byte secure_ fType_) 0x7f = fType_ /\
  negb (0 =? Z.land 0x80 (type_byte secure_ fType_)) = secure_.
Proof.
  intros Hr.
  assert (Hall : all_below 128 (fun x =>
            (Z.land (type_byte true x) 0x7f =? x) &&
            (Z.land (type_byte false x) 0x7f =? x) &&
            negb (0 =? Z.land 0x80 (type_byte true x)) &&
            (0 =? Z.land 0x80 (type_byte false x))) = true)
    by (vm_compute; reflexivity).
  pose proof (all_below_spec _ _ Hall fType_ ltac:(lia)) as Hx.
  cbv beta in Hx.
  repeat (apply andb_true_iff in Hx as [Hx ?]).
  bool_to_prop.
  destruct secure_; split; try assumption.
  - apply negb_true_iff, Z.eqb_neq. assumption.
  - apply negb_false_iff, Z.eqb_eq. assumption.
Qed.

Lemma seqIl_byte_unpacks il_ seqNum_ :
  0 <= il_ < 16 -> 0 <= seqNum_ < 256 ->
  Z.land (seqIl_byte il_ seqNum_) 0xf = il_ /\
  Z.land (Z.shiftr (seqIl_byte il_ seqNum_) 4) 0xf = Z.land seqNum_ 0xf.
Proof.
  intros Hil Hseq.
  assert (Hall : all_below 16 (fun i => all_below 256 (fun s =>
            (Z.land (seqIl_byte i s) 0xf =? i) &&
            (Z.land (Z.shiftr (seqIl_byte i s) 4) 0xf =? Z.land s 0xf))) = true)
    by (vm_compute; reflexivity).
  pose proof (all_below_spec _ _ Hall il_ ltac:(lia)) as Hi.
  cbv beta in Hi.
  pose proof (all_below_spec _ _ Hi seqNum_ ltac:(lia)) as Hs.
  cbv beta in Hs. apply andb_true_iff in Hs as [H1 H2].
  bool_to_prop. split; assumption.
Qed.

Lemma getIl_range h : 0 <= getIl h < 16.
Proof.
  unfold getIl. change 0xf with (Z.ones 4). rewrite Z.land_ones by lia.
  apply Z.mod_pos_bound. lia.
Qed.

Lemma rd_u8 (b : list Z) i : Forall is_u8 b -> is_u8 (rd b i).
Proof.
  intros Hall. unfold rd.
  destruct (b !! Z.to_nat i) as [x |] eqn:Hlk; simpl.
  - eapply Forall_lookup_1; eassumption.
  - unfold is_u8. lia.
Qed.

(** What a call of [decodeHeader] can do. *)
Lemma decodeHeader_cases h buf buflen r h' :
  decodeHeader h buf buflen = (r, h') ->
  (r = 0 /\ fl h' = 0) \/
  (exists b, buf = Some b /\
   let fl_ := rd b 0 in
   let il_ := Z.land (rd b 2) 0xf in
   let bl_ := rd b (3 + il_) in
   r = 4 + il_ /\ 5 <= buflen /\ 4 <= fl_ <= maxSmallFrameSize /\
   Z.land (rd b 1) 0x7f <> FTS_NONE /\ Z.land (rd b 1) 0x7f < FTS_INVALID_HIGH /\
   il_ <= maxIDLength /\ il_ <= fl_ - 4 /\ 4 + il_ <= buflen /\
   bl_ <= fl_ - (4 + il_) /\
   (fl_ < buflen -> rd b fl_ <> 0x00 /\ rd b fl_ <> 0xff) /\
   (if negb (0 =? Z.land 0x80 (rd b 1))
    then wrap8 (fl_ - 3 - il_ - bl_) <> 0
    else wrap8 (fl_ - 3 - il_ - bl_) = 1) /\
   h' = mkSFH fl_ (rd b 1) (rd b 2)
          (if 0 <? il_ then memcpy_at (id h) 0 (drop 3 b) il_ else id h) bl_).
Proof.
  intros Hdec. unfold decodeHeader in Hdec.
  unfold maxIDLength, maxSmallFrameSize, FTS_NONE, FTS_INVALID_HIGH in *.
  cbv zeta in Hdec.
  destruct buf as [b |]; [| injection Hdec as <- <-; left; auto].
  unfold isSecure, getIl in Hdec.
  cbn [set_id set_seqIl set_fType set_fl set_bl id fl fType seqIl bl] in Hdec.
  pose proof (getIl_range (mkSFH 0 0 (rd b 2) [] 0)) as Hil.
  unfold getIl in Hil. cbn [seqIl] in Hil.
  destruct (buflen <? 5) eqn:H5; [injection Hdec as <- <-; left; auto |].
  destruct (rd b 0 <? 4) eqn:H4; [injection Hdec as <- <-; left; auto |].
  destruct (rd b 0 >? 63) eqn:H63; [injection Hdec as <- <-; left; auto |].
  destruct ((0 =? Z.land (rd b 1) 127) || (Z.land (rd b 1) 127 >=? 127)) eqn:Hty;
    [injection Hdec as <- <-; left; auto |].
  destruct (Z.land (rd b 2) 15 >? 8) eqn:Hil8; [injection Hdec as <- <-; left; auto |].
  destruct (Z.land (rd b 2) 15 >? rd b 0 - 4) eqn:Hilfl;
    [injection Hdec as <- <-; left; auto |].
  bool_to_prop.
  assert (Hw : wrap8 (4 + Z.land (rd b 2) 15) = 4 + Z.land (rd b 2) 15)
    by (apply wrap8_small; lia).
  rewrite !Hw in Hdec.
  replace (4 + Z.land (rd b 2) 15 - 1) with (3 + Z.land (rd b 2) 15) in Hdec by lia.
  destruct (4 + Z.land (rd b 2) 15 >? buflen) eqn:Hfit;
    [injection Hdec as <- <-; left; auto |].
  assert (Hid : (if Z.land (rd b 2) 15 >? 0
                 then set_id (mkSFH 0 (rd b 1) (rd b 2) (id h) (bl h))
                        (memcpy_at (id h) 0 (drop 3 b) (Z.land (rd b 2) 15))
                 else mkSFH 0 (rd b 1) (rd b 2) (id h) (bl h))
                = mkSFH 0 (rd b 1) (rd b 2)
                    (if 0 <? Z.land (rd b 2) 15
                     then memcpy_at (id h) 0 (drop 3 b) (Z.land (rd b 2) 15)
                     else id h) (bl h)).
  { destruct (Z.gtb_spec (Z.land (rd b 2) 15) 0);
      destruct (Z.ltb_spec 0 (Z.land (rd b 2) 15)); try lia; reflexivity. }
  unfold set_seqIl, set_fType, set_fl in Hdec.
  cbn [id fl fType seqIl bl] in Hdec.
  rewrite Hid in Hdec. clear Hid.
  cbn [set_id set_seqIl set_fType set_fl set_bl id fl fType seqIl bl] in Hdec.
  destruct (rd b (3 + Z.land (rd b 2) 15) >? rd b 0 - (4 + Z.land (rd b 2) 15)) eqn:Hbl;
    [injection Hdec as <- <-; left; auto |].
  destruct ((buflen >? rd b 0) && ((0 =? rd b (rd b 0)) || (255 =? rd b (rd b 0)))) eqn:Hlast;
    [injection Hdec as <- <-; left; auto |].
  match type of Hdec with
  | context [if ?c then (0, _) else _] => destruct c eqn:Htl
  end; [injection Hdec as <- <-; left; auto |].
  injection Hdec as <- <-. right. exists b. split; [reflexivity |].
  cbv zeta. bool_to_prop.
  repeat match goal with |- _ /\ _ => split end;
    try lia; try congruence; try reflexivity.
  destruct (negb (0 =? Z.land 128 (rd b 1))); cbn [negb] in Htl;
    bool_to_prop; congruence.
Qed.


Lemma decodeHeader_success_QIC h buf buflen r h' :
  (forall b, buf = Some b -> Forall is_u8 b) ->
  decodeHeader h buf buflen = (r, h') ->
  r <> 0 ->
  r = 4 + getIl h' /\ fl h' <> 0 /\ QIC h'.
Proof.
  intros Hu8 Hdec Hr.
  destruct (decodeHeader_cases _ _ _ _ _ Hdec)
    as [[-> _] | (b & -> & Hcases)]; [contradiction |].
  cbv zeta in Hcases.
  destruct Hcases as (-> & _ & Hfl & Hty0 & Hty1 & Hil8 & Hilfl & _ & Hbl & _ & Htl & ->).
  specialize (Hu8 b eq_refl).
  pose proof (rd_u8 b (3 + Z.land (rd b 2) 15) Hu8) as Hblr. unfold is_u8 in Hblr.
  pose proof (getIl_range (mkSFH 0 0 (rd b 2) [] 0)) as Hilr.
  unfold getIl in Hilr. cbn [seqIl] in Hilr.
  unfold maxIDLength, maxSmallFrameSize, FTS_NONE, FTS_INVALID_HIGH in *.
  rewrite wrap8_small in Htl by lia.
  unfold QIC, isSecure, getIl, maxIDLength, maxSmallFrameSize, FTS_NONE, FTS_INVALID_HIGH.
  cbn [fl fType seqIl bl].
  repeat match goal with |- _ /\ _ => split end; try lia; try assumption.
  destruct (negb (0 =? Z.land 128 (rd b 1))); lia.
Qed.



(** ** The bytes that encodeHeader writes *)

Lemma list_inserts_0_app (k l : list Z) :
  (length k <= length l)%nat -> list_inserts 0 k l = k ++ drop (length k) l.
Proof.
  intros Hlen.
  rewrite <- (take_drop (length k) l) at 1.
  apply list_inserts_0_r. rewrite length_take. lia.
Qed.

Lemma header_bytes_layout (buffer idb : list Z) (n : nat) (a t s v : Z) :
  (4 + n <= length buffer)%nat -> (n <= length idb)%nat ->
  wr (memcpy_at (wr (wr (wr buffer 0 a) 1 t) 2 s) 3 idb (Z.of_nat n))
     (3 + Z.of_nat n) v
  = [a; t; s] ++ take n idb ++ [v] ++ drop (4 + n) buffer.
Proof.
  intros Hbuf Hid.
  destruct buffer as [| b0 [| b1 [| b2 rest]]]; simpl in Hbuf; try lia.
  unfold wr, memcpy_at.
  replace (Z.to_nat (3 + Z.of_nat n)) with (S (S (S n))) by lia.
  rewrite Nat2Z.id.
  change (Z.to_nat 0) with 0%nat. change (Z.to_nat 1) with 1%nat.
  change (Z.to_nat 2) with 2%nat. change (Z.to_nat 3) with 3%nat.
  assert (E1 : <[2%nat:=s]> (<[1%nat:=t]> (<[0%nat:=a]> (b0 :: b1 :: b2 :: rest)))
               = a :: t :: s :: rest) by reflexivity.
  assert (E2 : forall l : list Z,
             <[S (S (S n)):=v]> (a :: t :: s :: l) = a :: t :: s :: <[n:=v]> l)
    by reflexivity.
  rewrite E1, !list_inserts_cons, E2.
  rewrite list_inserts_0_app by (rewrite length_take; lia).
  rewrite length_take, Nat.min_l by lia.
  cbn [app]. do 3 f_equal.
  rewrite insert_app_r_alt by (rewrite length_take; lia).
  rewrite length_take, Nat.min_l by lia. rewrite Nat.sub_diag.
  f_equal.
  change (drop (4 + n) (b0 :: b1 :: b2 :: rest)) with (drop (S n) rest).
  destruct (drop n rest) as [| y tl] eqn:Hd.
  { apply (f_equal length) in Hd. rewrite length_drop in Hd. simpl in Hd. lia. }
  change (<[0%nat:=v]> (y :: tl)) with (v :: tl). f_equal.
  replace (S n) with (n + 1)%nat by lia. rewrite <- drop_drop, Hd. reflexivity.
Qed.

Lemma take_memcpy_at_0 (dst src : list Z) (n : Z) :
  (Z.to_nat n <= length src)%nat -> (Z.to_nat n <= length dst)%nat ->
  take (Z.to_nat n) (memcpy_at dst 0 src n) = take (Z.to_nat n) src.
Proof.
  intros Hsrc Hdst. unfold memcpy_at. change (Z.to_nat 0) with 0%nat.
  rewrite list_inserts_0_app by (rewrite length_take; lia).
  rewrite take_app_le by (rewrite length_take; lia).
  rewrite take_take. f_equal. lia.
Qed.

(** C5 as stated fails on the first test vector: with il = 2, bl = 2 and
    tl = 1 the header is encoded with success and fl = 8, whereas
    (3 + il) + bl + tl - 1 = 7. *)
Lemma encodeHeader_frame_length_counterexample :
  vector1_encodeHeader.1.1 = 6 /\
  fl vector1_encodeHeader.1.2 = 8 /\
  fl vector1_encodeHeader.1.2 <> (3 + 2) + 2 + 1 - 1.
Proof. repeat split; vm_compute; congruence. Qed.

(** C5 (amended).  When [encodeHeader] succeeds it returns the header length
    including the leading length byte, [4 + il]; the frame length it sets in
    the header is [(4 + il) + bl + tl - 1], that is [3 + il + bl + tl]; and
    the destination buffer starts with the frame length, the type byte
    (frame type in the low seven bits, secure flag in the top bit), the
    sequence/ID-length byte (ID length in the low nibble, the four low bits
    of the sequence number above it), the [il] ID bytes and the body length,
    in that order, the rest of the buffer being as it was. *)
Theorem encodeHeader_success_writes_header :
  forall h buffer size secure_ fType_ seqNum_ id_ il_ bl_ tl_ r h' b',
    is_u8 fType_ -> is_u8 seqNum_ -> is_u8 il_ -> is_u8 bl_ -> is_u8 tl_ ->
    length (id h) = 8%nat ->
    (Z.to_nat il_ <= length (orempty id_))%nat ->
    (Z.to_nat size <= length buffer)%nat ->
    encodeHeader h (mkOTBuf (Some buffer) size) secure_ fType_ seqNum_ id_
      il_ bl_ tl_ = (r, h', b') ->
    r <> 0 ->
    let fl_ := (4 + il_) + bl_ + tl_ - 1 in
    r = 4 + il_ /\ fl h' = fl_ /\
    buf b' = Some ([fl_; type_byte secure_ fType_; seqIl_byte il_ seqNum_] ++
                   take (Z.to_nat il_) (orempty id_) ++ [bl_] ++
                   drop (Z.to_nat (4 + il_)) buffer) /\
    Z.land (type_byte secure_ fType_) 0x7f = fType_ /\
    negb (0 =? Z.land 0x80 (type_byte secure_ fType_)) = secure_ /\
    Z.land (seqIl_byte il_ seqNum_) 0xf = il_ /\
    Z.land (Z.shiftr (seqIl_byte il_ seqNum_) 4) 0xf = Z.land seqNum_ 0xf.
Proof.
  intros h buffer size secure_ fType_ seqNum_ id_ il_ bl_ tl_ r h' b'
         HfT Hseq Hil Hbl Htl Hidlen Hsrc Hbuf Henc Hr fl_.
  unfold is_u8 in *.
  destruct (encodeHeader_cases h (mkOTBuf (Some buffer) size) secure_ fType_
              seqNum_ id_ il_ bl_ tl_ r h' b' ltac:(lia) ltac:(lia) ltac:(lia) Henc)
    as [[-> _] | (-> & HfT0 & HfT1 & Hil8 & _ & Hfit & _ & _ & Hh)];
    [contradiction |].
  cbv zeta in Hh. destruct Hh as [-> ->].
  unfold maxIDLength, FTS_NONE, FTS_INVALID_HIGH in *.
  cbn [buf bufsize fl] in *.
  destruct (type_byte_unpacks secure_ fType_ ltac:(lia)) as [Hty Hsec].
  destruct (seqIl_byte_unpacks il_ seqNum_ ltac:(lia) ltac:(lia)) as [Hgil Hgseq].
  repeat match goal with |- _ /\ _ => split end; try assumption; try reflexivity.
  { subst fl_. lia. }
  f_equal.
  replace (3 + il_ + bl_ + tl_) with fl_ by (subst fl_; lia).
  set (idb := if 0 <? il_ then memcpy_at (id h) 0 (orempty id_) il_ else id h).
  assert (Hidb : take (Z.to_nat il_) idb = take (Z.to_nat il_) (orempty id_)).
  { subst idb. destruct (Z.ltb_spec 0 il_).
    - apply take_memcpy_at_0; lia.
    - replace (Z.to_nat il_) with 0%nat by lia. reflexivity. }
  assert (Hidblen : (Z.to_nat il_ <= length idb)%nat).
  { subst idb. destruct (Z.ltb_spec 0 il_); [rewrite length_memcpy_at |]; lia. }
  rewrite <- Hidb.
  replace (Z.to_nat (4 + il_)) with (4 + Z.to_nat il_)%nat by lia.
  rewrite <- (Z2Nat.id il_) at 2 3 by lia.
  apply header_bytes_layout; lia.
Qed.

Lemma encodeHeader_success_writes_header_witness :
  vector1_encodeHeader.1.1 = 6 /\ fl vector1_encodeHeader.1.2 = 8 /\
  buf vector1_encodeHeader.2 =
    Some ([8; 0x4f; 0x02] ++ [0x80; 0x81] ++ [2] ++ replicate 57 0).
Proof.
  pose proof (encodeHeader_success_writes_header
                (SecurableFrameHeader_new junk_header) (replicate 63 0) 63 false
                FTS_BasicSensorOrValve 0 (Some [0x80; 0x81]) 2 2 1
                vector1_encodeHeader.1.1 vector1_encodeHeader.1.2
                vector1_encodeHeader.2
                ltac:(unfold is_u8, FTS_BasicSensorOrValve; lia)
                ltac:(unfold is_u8; lia) ltac:(unfold is_u8; lia)
                ltac:(unfold is_u8; lia) ltac:(unfold is_u8; lia)
                eq_refl ltac:(simpl; lia) ltac:(simpl; lia) eq_refl
                ltac:(vm_compute; congruence)) as (H1 & H2 & H3 & _).
  exact (conj H1 (conj H2 H3)).
Defined.

(** ** Where the header's offsets point *)

Lemma QIC_offsets h :
  QIC h ->
  getBodyOffset h = 3 + getIl h /\
  getTl h = fl h - 3 - getIl h - bl h /\
  getTrailerOffset h = getBodyOffset h + bl h /\
  fl h = getTrailerOffset h + getTl h /\
  1 <= getTl h.
Proof.
  unfold QIC, maxSmallFrameSize, maxIDLength.
  intros (Hfl & _ & _ & Hil & Hilfl & Hbl & Htl).
  assert (Htl1 : 1 <= fl h - 3 - getIl h - bl h) by (destruct (isSecure h); lia).
  unfold getBodyOffset, getTl, getTrailerOffset.
  rewrite !wrap8_small by lia. lia.
Qed.


Lemma computeNonSecureCRC_wr_trailer h (out : list Z) size crc :
  0 <= fl h ->
  computeNonSecureCRC h (wr out (fl h) crc) size = computeNonSecureCRC h out size.
Proof.
  intros Hfl. unfold computeNonSecureCRC.
  rewrite take_wr_ge by lia. reflexivity.
Qed.




Lemma land_15_range x : 0 <= Z.land x 0xf < 16.
Proof.
  change 0xf with (Z.ones 4). rewrite Z.land_ones by lia.
  apply Z.mod_pos_bound. lia.
Qed.




Lemma vector1_frame_u8 : Forall is_u8 vector1_frame.
Proof. repeat constructor; unfold is_u8; lia. Qed.


(** ** decodeRaw *)

(** C4 as stated fails on a secure frame without body: the frame of 29
    bytes authenticates, no plaintext is present or wanted, the plaintext
    length is set to 0, and the result is 29 (frame length + 1), not 1. *)
Lemma decodeRaw_no_body_counterexample :
  let dec := decodeRaw 32 beacon_decode_data
               (fixed32BTextSize12BNonce16BTagSimpleDec_NULL_IMPL (replicate 32 0))
               (mkScratch false 320) (Some (replicate 16 0)) (Some vector3_iv) in
  beacon_frame.1 = 29 /\
  isInvalid (d_sfh beacon_decode_data) = false /\
  bl (d_sfh beacon_decode_data) = 0 /\ d_ptext beacon_decode_data = None /\
  dec.2 = [EvDecrypt vector3_iv true] /\
  d_ptextLen dec.1.2 = 0 /\
  dec.1.1 = fl (d_sfh beacon_decode_data) + 1 /\
  dec.1.1 = 29 /\ dec.1.1 <> 1.
Proof. repeat split; vm_compute; congruence. Qed.

Lemma decodeRaw_cases usage fd d scratch key iv r fd' tr :
  decodeRaw usage fd d scratch key iv = (r, fd', tr) ->
  (r = 0 /\ fd' = fd /\
   (tr = [] \/ exists v, iv = Some v /\ (tr = [EvDecrypt v false] \/
                                          tr = [EvDecrypt v true]))) \/
  (exists buf k v pt,
     d_ctext fd = Some buf /\ key = Some k /\ iv = Some v /\
     usage <= s_bufsize scratch /\
     isInvalid (d_sfh fd) = false /\
     fl (d_sfh fd) < wrap8 (rd buf 0 + 1) /\
     getTl (d_sfh fd) = 23 /\ rd buf (fl (d_sfh fd)) = 0x80 /\
     (bl (d_sfh fd) = 0 \/ bl (d_sfh fd) = 32) /\
     getSeq (d_sfh fd) = Z.land (rd v 11) 0xf /\
     decodeRaw_call usage fd d scratch k v buf = Some pt /\
     tr = [EvDecrypt v true] /\
     r = wrap8 (fl (d_sfh fd) + 1) /\
     d_sfh fd' = d_sfh fd /\ d_ctext fd' = d_ctext fd /\ d_id fd' = d_id fd /\
     ((d_ptext fd = None \/ bl (d_sfh fd) = 0) /\
        d_ptextLen fd' = 0 /\ d_ptext fd' = d_ptext fd
      \/
      (d_ptext fd <> None /\ bl (d_sfh fd) = 32 /\
       unpad32BBuffer pt <= ENC_BODY_SMALL_FIXED_PTEXT_MAX_SIZE /\
       unpad32BBuffer pt <= d_ptextLenMax fd /\
       d_ptextLen fd' = unpad32BBuffer pt /\
       d_ptext fd' = Some (memcpy_at (orempty (d_ptext fd)) 0 pt (unpad32BBuffer pt))))).
Proof.
  intros Hdec. unfold decodeRaw in Hdec. cbv zeta in Hdec.
  destruct (usage >? s_bufsize scratch) eqn:Hscr;
    [injection Hdec as <- <- <-; left; auto |].
  destruct (d_ctext fd) as [buf |] eqn:Hct;
    [| injection Hdec as <- <- <-; left; auto].
  destruct key as [k |]; [| injection Hdec as <- <- <-; left; auto].
  destruct iv as [v |]; [| injection Hdec as <- <- <-; left; auto].
  destruct (isInvalid (d_sfh fd)) eqn:Hinv; [injection Hdec as <- <- <-; left; auto |].
  destruct (fl (d_sfh fd) >=? wrap8 (rd buf 0 + 1)) eqn:Hfl;
    [injection Hdec as <- <- <-; left; auto |].
  destruct (negb (23 =? getTl (d_sfh fd))) eqn:Htl;
    [injection Hdec as <- <- <-; left; auto |].
  destruct (negb (128 =? rd buf (fl (d_sfh fd)))) eqn:H80;
    [injection Hdec as <- <- <-; left; auto |].
  destruct (negb (0 =? bl (d_sfh fd)) && negb (ENC_BODY_SMALL_FIXED_CTEXT_SIZE =? bl (d_sfh fd)))
    eqn:Hbl; [injection Hdec as <- <- <-; left; auto |].
  destruct (negb (getSeq (d_sfh fd) =? Z.land (rd v 11) 15)) eqn:Hseq;
    [injection Hdec as <- <- <-; left; auto |].
  fold (decodeRaw_call usage fd d scratch k v buf) in Hdec.
  destruct (decodeRaw_call usage fd d scratch k v buf) as [pt |] eqn:Hcall;
    [| injection Hdec as <- <- <-; left; split; [reflexivity | split; [reflexivity | right; exists v; auto]]].
  assert (Hbl' : bl (d_sfh fd) = 0 \/ bl (d_sfh fd) = 32).
  { unfold ENC_BODY_SMALL_FIXED_CTEXT_SIZE in Hbl.
    destruct (Z.eqb_spec 0 (bl (d_sfh fd))); [left; congruence |].
    destruct (Z.eqb_spec 32 (bl (d_sfh fd))); [right; congruence |].
    discriminate. }
  bool_to_prop.
  destruct (d_ptext fd) as [ptext |] eqn:Hpt; cbn [andb] in Hdec.
  - destruct (Z.eqb_spec 0 (bl (d_sfh fd))) as [Hb0 | Hb0]; cbn [negb] in Hdec.
    + injection Hdec as <- <- <-. right. exists buf, k, v, pt.
      cbn [d_sfh d_ctext d_id d_ptextLen d_ptext].
      repeat match goal with |- _ /\ _ => split end; auto; try lia.
    + destruct (unpad32BBuffer pt >? ENC_BODY_SMALL_FIXED_PTEXT_MAX_SIZE) eqn:Hup;
        [injection Hdec as <- <- <-; left; split; [reflexivity | split; [reflexivity | right; exists v; auto]] |].
      destruct (unpad32BBuffer pt >? d_ptextLenMax fd) eqn:Hmax;
        [injection Hdec as <- <- <-; left; split; [reflexivity | split; [reflexivity | right; exists v; auto]] |].
      bool_to_prop.
      injection Hdec as <- <- <-. right. exists buf, k, v, pt.
      cbn [d_sfh d_ctext d_id d_ptextLen d_ptext].
      repeat match goal with |- _ /\ _ => split end; auto; try lia.
      right. repeat split; auto; try congruence.
      destruct Hbl'; [congruence | assumption].
  - injection Hdec as <- <- <-. right. exists buf, k, v, pt.
    cbn [d_sfh d_ctext d_id d_ptextLen d_ptext].
    repeat match goal with |- _ /\ _ => split end; auto; try lia.
Qed.

Lemma decodeRaw_accepts usage fd d scratch buf k v pt :
  d_ctext fd = Some buf ->
  usage <= s_bufsize scratch ->
  isInvalid (d_sfh fd) = false ->
  fl (d_sfh fd) < wrap8 (rd buf 0 + 1) ->
  getTl (d_sfh fd) = 23 -> rd buf (fl (d_sfh fd)) = 0x80 ->
  (bl (d_sfh fd) = 0 \/ bl (d_sfh fd) = 32) ->
  getSeq (d_sfh fd) = Z.land (rd v 11) 0xf ->
  decodeRaw_call usage fd d scratch k v buf = Some pt ->
  (d_ptext fd = None \/ bl (d_sfh fd) = 0 \/
   (unpad32BBuffer pt <= ENC_BODY_SMALL_FIXED_PTEXT_MAX_SIZE /\
    unpad32BBuffer pt <= d_ptextLenMax fd)) ->
  (decodeRaw usage fd d scratch (Some k) (Some v)).1.1 = wrap8 (fl (d_sfh fd) + 1).
Proof.
  intros Hct Hscr Hinv Hfl Htl H80 Hbl Hseq Hcall Hbody.
  unfold decodeRaw. cbv zeta.
  rewrite Hct, Hinv.
  fold (decodeRaw_call usage fd d scratch k v buf). rewrite Hcall.
  unfold ENC_BODY_SMALL_FIXED_CTEXT_SIZE.
  repeat match goal with
         | |- context [if ?c then _ else _] => destruct c eqn:?
         | |- context [match ?c with Some _ => _ | None => _ end] => destruct c eqn:?
         end;
    cbn [fst]; try reflexivity; exfalso; bool_to_prop; try lia; try congruence.
  all: destruct Hbody as [Hb | [Hb | [Hb1 Hb2]]]; try congruence; try lia.
  all: rewrite Hb in *; discriminate.
Qed.

(** C4 (amended).  For a call of [decodeRaw]:
    - each of these gives the result 0: null ciphertext, key or IV; an
      invalid header; a trailer length other than 23; a final trailer byte
      other than 0x80; a body length that is neither 0 nor 32; a header
      sequence number different from [iv[11] & 0xf]; a failure of the
      decryption function;
    - a non-zero result is [frameLength + 1], the decryption function has
      then been called once and has succeeded, and when no body was present
      or wanted the plaintext length is set to 0; with a valid header the
      result is then between 27 and 64, so it is [frameLength + 1] in the
      no-body case as well and never 1;
    - when all the checks and the decrypt call succeed (and, where a body is
      wanted and present, its unpadded length fits), the result is
      [frameLength + 1]. *)
Theorem decodeRaw_result_values :
  forall usage fd d scratch key iv r fd' tr,
    decodeRaw usage fd d scratch key iv = (r, fd', tr) ->
    ((d_ctext fd = None \/ key = None \/ iv = None \/
      isInvalid (d_sfh fd) = true \/
      getTl (d_sfh fd) <> 23 \/
      (exists buf, d_ctext fd = Some buf /\ rd buf (fl (d_sfh fd)) <> 0x80) \/
      (bl (d_sfh fd) <> 0 /\ bl (d_sfh fd) <> 32) \/
      (exists v, iv = Some v /\ getSeq (d_sfh fd) <> Z.land (rd v 11) 0xf) \/
      (exists buf k v, d_ctext fd = Some buf /\ key = Some k /\ iv = Some v /\
                       decodeRaw_call usage fd d scratch k v buf = None)) ->
     r = 0) /\
    (r <> 0 ->
     r = wrap8 (fl (d_sfh fd) + 1) /\
     (exists v, iv = Some v /\ tr = [EvDecrypt v true]) /\
     ((d_ptext fd = None \/ bl (d_sfh fd) = 0) -> d_ptextLen fd' = 0) /\
     (QIC (d_sfh fd) -> r = fl (d_sfh fd) + 1 /\ 27 <= r <= 64 /\ r <> 1)) /\
    (forall buf k v pt,
       d_ctext fd = Some buf -> key = Some k -> iv = Some v ->
       usage <= s_bufsize scratch ->
       isInvalid (d_sfh fd) = false ->
       fl (d_sfh fd) < wrap8 (rd buf 0 + 1) ->
       getTl (d_sfh fd) = 23 -> rd buf (fl (d_sfh fd)) = 0x80 ->
       (bl (d_sfh fd) = 0 \/ bl (d_sfh fd) = 32) ->
       getSeq (d_sfh fd) = Z.land (rd v 11) 0xf ->
       decodeRaw_call usage fd d scratch k v buf = Some pt ->
       (d_ptext fd = None \/ bl (d_sfh fd) = 0 \/
        (unpad32BBuffer pt <= ENC_BODY_SMALL_FIXED_PTEXT_MAX_SIZE /\
         unpad32BBuffer pt <= d_ptextLenMax fd)) ->
       r = wrap8 (fl (d_sfh fd) + 1)).
Proof.
  intros usage fd d scratch key iv r fd' tr Hdec.
  pose proof (decodeRaw_cases _ _ _ _ _ _ _ _ _ Hdec) as Hcases.
  split; [| split].
  - intros Hfail.
    destruct Hcases as [(-> & _) | (buf & k & v & pt & Hct & -> & -> & _ & Hinv &
                                    _ & Htl & H80 & Hbl & Hseq & Hcall & _)];
      [reflexivity | exfalso].
    destruct Hfail as [H | [H | [H | [H | [H | [H | [H | [H | H]]]]]]]];
      try congruence.
    + destruct H as (buf' & Hct' & Hne). congruence.
    + destruct H as [H0 H32]. destruct Hbl; contradiction.
    + destruct H as (v' & Hv & Hne). congruence.
    + destruct H as (buf' & k' & v' & Hct' & Hk & Hv & Hnone). congruence.
  - intros Hr.
    destruct Hcases as [(-> & _) | (buf & k & v & pt & Hct & -> & -> & _ & Hinv &
                                    _ & Htl & H80 & Hbl & Hseq & Hcall & -> & -> &
                                    _ & _ & _ & Hbody)];
      [contradiction |].
    split; [reflexivity |]. split; [eauto |]. split.
    + intros Hnobody.
      destruct Hbody as [(_ & Hlen & _) | (Hwanted & Hb32 & _)]; [assumption |].
      destruct Hnobody; [contradiction | lia].
    + intros Hq. destruct (QIC_offsets _ Hq) as (_ & Htl' & _).
      pose proof Hq as ((Hfl4 & Hfl63) & _ & _ & (Hil0 & _) & _ & (Hbl0 & _) & _).
      unfold maxSmallFrameSize in Hfl63.
      rewrite wrap8_small by lia. lia.
  - intros buf k v pt Hct -> -> Hscr Hinv Hfl Htl H80 Hbl Hseq Hcall Hbody.
    pose proof (decodeRaw_accepts usage fd d scratch buf k v pt Hct Hscr Hinv Hfl
                  Htl H80 Hbl Hseq Hcall Hbody) as Hacc.
    rewrite Hdec in Hacc. exact Hacc.
Qed.

Lemma decodeRaw_result_values_witness :
  let d := fixed32BTextSize12BNonce16BTagSimpleDec_NULL_IMPL (replicate 32 0) in
  let run key := decodeRaw 32 beacon_decode_data d (mkScratch false 320) key
                   (Some vector3_iv) in
  (run None).1.1 = 0 /\
  ((run (Some (replicate 16 0))).1.1 = fl (d_sfh beacon_decode_data) + 1 /\
   27 <= (run (Some (replicate 16 0))).1.1 <= 64 /\
   (run (Some (replicate 16 0))).1.1 <> 1) /\
  (run (Some (replicate 16 0))).1.1 = wrap8 (fl (d_sfh beacon_decode_data) + 1).
Proof.
  intros d run. split; [| split].
  - refine (proj1 (decodeRaw_result_values 32 beacon_decode_data d
              (mkScratch false 320) None (Some vector3_iv)
              (run None).1.1 (run None).1.2 (run None).2 eq_refl) _).
    right. left. reflexivity.
  - refine (proj2 (proj2 (proj2 (proj1 (proj2 (decodeRaw_result_values 32
              beacon_decode_data d (mkScratch false 320) (Some (replicate 16 0))
              (Some vector3_iv) (run (Some (replicate 16 0))).1.1
              (run (Some (replicate 16 0))).1.2 (run (Some (replicate 16 0))).2
              eq_refl)) _))) _).
    + vm_compute. congruence.
    + refine (proj2 (proj2 (decodeHeader_success_QIC
                (SecurableFrameHeader_new junk_header) (e_outbuf beacon_frame.2)
                beacon_frame.1
                (decodeHeader (SecurableFrameHeader_new junk_header)
                   (e_outbuf beacon_frame.2) beacon_frame.1).1
                (d_sfh beacon_decode_data) _ eq_refl _))).
      * intros b Hb. vm_compute in Hb. injection Hb as <-.
        repeat constructor; unfold is_u8; lia.
      * vm_compute. congruence.
  - refine (proj2 (proj2 (decodeRaw_result_values 32 beacon_decode_data d
              (mkScratch false 320) (Some (replicate 16 0)) (Some vector3_iv)
              _ _ _ eq_refl))
            (orempty (d_ctext beacon_decode_data)) (replicate 16 0) vector3_iv
            (replicate 32 0) _ _ _ _ _ _ _ _ _ _ _ _);
      try reflexivity; try (vm_compute; congruence).
    + left. reflexivity.
    + left. reflexivity.
Defined.

(** ** decode: the replay guard *)


(** On 6-byte counters the comparison is that of the big-endian values. *)
Lemma msgcountercmp_be_value (a0 a1 a2 a3 a4 a5 b0 b1 b2 b3 b4 b5 : Z) :
  is_u8 a0 -> is_u8 a1 -> is_u8 a2 -> is_u8 a3 -> is_u8 a4 -> is_u8 a5 ->
  is_u8 b0 -> is_u8 b1 -> is_u8 b2 -> is_u8 b3 -> is_u8 b4 -> is_u8 b5 ->
  (msgcountercmp [a0; a1; a2; a3; a4; a5] [b0; b1; b2; b3; b4; b5] > 0 <->
   be_value [a0; a1; a2; a3; a4; a5] > be_value [b0; b1; b2; b3; b4; b5]) /\
  (msgcountercmp [a0; a1; a2; a3; a4; a5] [b0; b1; b2; b3; b4; b5] = 0 <->
   be_value [a0; a1; a2; a3; a4; a5] = be_value [b0; b1; b2; b3; b4; b5]).
Proof.
  unfold is_u8. intros.
  rewrite !be_value_6.
  change (msgcountercmp [a0; a1; a2; a3; a4; a5] [b0; b1; b2; b3; b4; b5]) with
    (if a0 =? b0 then
       if a1 =? b1 then
         if a2 =? b2 then
           if a3 =? b3 then
             if a4 =? b4 then
               if a5 =? b5 then 0 else a5 - b5
             else a4 - b4
           else a3 - b3
         else a2 - b2
       else a1 - b1
     else a0 - b0).
  destruct (Z.eqb_spec a0 b0); [| lia].
  destruct (Z.eqb_spec a1 b1); [| lia].
  destruct (Z.eqb_spec a2 b2); [| lia].
  destruct (Z.eqb_spec a3 b3); [| lia].
  destruct (Z.eqb_spec a4 b4); [| lia].
  destruct (Z.eqb_spec a5 b5); lia.
Qed.




(** *** The table store satisfies the laws *)





Example replay_first_accepted :
  replay_first.1.1.1 = 29 /\
  d_id replay_first.1.1.2 = [0xaa; 0xaa; 0x55; 0x55; 0x55; 0x55; 0x00; 0x01] /\
  exists v c, replay_first.2 =
    [EvValidate [0xaa; 0xaa; 0x55; 0x55; 0x55; 0x55; 0x00; 0x01] c true;
     EvDecrypt v true;
     EvCommit [0xaa; 0xaa; 0x55; 0x55; 0x55; 0x55; 0x00; 0x01] c true].
Proof. split; [reflexivity |]. split; [reflexivity |]. eexists _, _. reflexivity. Qed.


(** * Further properties of the codec *)

(** ** The non-secure round trip of a frame without body *)

(** A buffer whose first bytes pass the Quick Integrity Checks decodes to the
    header those bytes spell, with the header length as result. *)
Lemma decodeHeader_accepts h (b : list Z) buflen :
  let fl_ := rd b 0 in
  let il_ := Z.land (rd b 2) 0xf in
  let bl_ := rd b (3 + il_) in
  5 <= buflen -> 4 <= fl_ <= maxSmallFrameSize ->
  Z.land (rd b 1) 0x7f <> FTS_NONE -> Z.land (rd b 1) 0x7f < FTS_INVALID_HIGH ->
  il_ <= maxIDLength -> il_ <= fl_ - 4 -> 4 + il_ <= buflen ->
  0 <= bl_ <= fl_ - (4 + il_) ->
  (fl_ < buflen -> rd b fl_ <> 0x00 /\ rd b fl_ <> 0xff) ->
  (Z.land 0x80 (rd b 1) = 0 -> fl_ - 3 - il_ - bl_ = 1) ->
  decodeHeader h (Some b) buflen =
    (4 + il_,
     mkSFH fl_ (rd b 1) (rd b 2)
       (if 0 <? il_ then memcpy_at (id h) 0 (drop 3 b) il_ else id h) bl_).
Proof.
  cbv zeta. unfold maxSmallFrameSize, FTS_NONE, FTS_INVALID_HIGH, maxIDLength.
  intros H5 Hfl Hty0 Hty1 Hil8 Hilfl Hfit Hbl Hlast Htl.
  pose proof (land_15_range (rd b 2)) as Hilr.
  unfold decodeHeader. cbv zeta.
  unfold isSecure, getIl, maxSmallFrameSize, FTS_NONE, FTS_INVALID_HIGH, maxIDLength.
  cbn [set_id set_seqIl set_fType set_fl set_bl id fl fType seqIl bl].
  assert (Hw : wrap8 (4 + Z.land (rd b 2) 15) = 4 + Z.land (rd b 2) 15)
    by (apply wrap8_small; lia).
  rewrite !Hw.
  replace (4 + Z.land (rd b 2) 15 - 1) with (3 + Z.land (rd b 2) 15) by lia.
  destruct (buflen <? 5) eqn:E1; [bool_to_prop; lia |].
  destruct (rd b 0 <? 4) eqn:E2; [bool_to_prop; lia |].
  destruct (rd b 0 >? 63) eqn:E3; [bool_to_prop; lia |].
  destruct ((0 =? Z.land (rd b 1) 127) || (Z.land (rd b 1) 127 >=? 127)) eqn:E4.
  { apply orb_true_iff in E4 as [E4 | E4]; bool_to_prop; [congruence | lia]. }
  destruct (Z.land (rd b 2) 15 >? 8) eqn:E5; [bool_to_prop; lia |].
  destruct (Z.land (rd b 2) 15 >? rd b 0 - 4) eqn:E6; [bool_to_prop; lia |].
  destruct (4 + Z.land (rd b 2) 15 >? buflen) eqn:E7; [bool_to_prop; lia |].
  destruct (rd b (3 + Z.land (rd b 2) 15) >? rd b 0 - (4 + Z.land (rd b 2) 15)) eqn:E8;
    [bool_to_prop; lia |].
  destruct ((buflen >? rd b 0) && ((0 =? rd b (rd b 0)) || (255 =? rd b (rd b 0)))) eqn:E9.
  { apply andb_true_iff in E9 as [E9a E9b]. apply orb_true_iff in E9b.
    bool_to_prop. destruct (Hlast E9a).
    destruct E9b; bool_to_prop; congruence. }
  rewrite wrap8_small by lia.
  assert (Htail : (if negb (negb (0 =? Z.land 128 (rd b 1)))
                   then negb (1 =? rd b 0 - 3 - Z.land (rd b 2) 15 - rd b (3 + Z.land (rd b 2) 15))
                   else 0 =? rd b 0 - 3 - Z.land (rd b 2) 15 - rd b (3 + Z.land (rd b 2) 15))
                  = false).
  { destruct (Z.eqb_spec 0 (Z.land 128 (rd b 1))) as [Hns | Hs]; cbn [negb].
    - rewrite Htl by congruence. reflexivity.
    - apply Z.eqb_neq. lia. }
  rewrite Htail. f_equal.
  destruct (Z.gtb_spec (Z.land (rd b 2) 15) 0);
    destruct (Z.ltb_spec 0 (Z.land (rd b 2) 15)); try lia; reflexivity.
Qed.

(** The CRC stays a 7-bit value, so the trailer byte is never 0x00 or 0xff. *)
Lemma crc7_5B_update_range c d : 0 <= crc7_5B_update c d <= 127.
Proof.
  unfold crc7_5B_update. generalize (crc7_5B_bits 8 c d). intros x.
  change (Z.land x 0x7f) with (Z.land x (Z.ones 7)).
  rewrite Z.land_ones by lia. change (2 ^ 7) with 128.
  pose proof (Z.mod_pos_bound x 128 eq_refl). lia.
Qed.

Lemma fold_crc_range (l : list Z) init :
  0 <= init <= 127 -> 0 <= fold_left crc7_5B_update l init <= 127.
Proof.
  revert init. induction l as [| x l IH]; intros init Hinit; simpl; [assumption |].
  apply IH. apply crc7_5B_update_range.
Qed.

Lemma computeNonSecureCRC_range h (b : list Z) buflen :
  isInvalid h = false -> fl h <= buflen ->
  1 <= computeNonSecureCRC h b buflen <= 128.
Proof.
  intros Hinv Hlen. unfold computeNonSecureCRC. rewrite Hinv.
  destruct (Z.ltb_spec buflen (fl h)); [lia |].
  pose proof (fold_crc_range (take (Z.to_nat (fl h)) b) 0x7f ltac:(lia)) as Hr.
  destruct (Z.eqb_spec 0 (fold_left crc7_5B_update (take (Z.to_nat (fl h)) b) 0x7f)); lia.
Qed.

(** The CRC depends on the first [fl] bytes of the buffer only. *)
Lemma computeNonSecureCRC_ext h h' (b b' : list Z) buflen buflen' :
  fl h = fl h' -> fl h <= buflen -> fl h <= buflen' ->
  take (Z.to_nat (fl h)) b = take (Z.to_nat (fl h)) b' ->
  computeNonSecureCRC h b buflen = computeNonSecureCRC h' b' buflen'.
Proof.
  intros Hfl Hlen Hlen' Htake. unfold computeNonSecureCRC, isInvalid.
  rewrite <- Hfl, Htake.
  destruct (Z.ltb_spec buflen (fl h)); [lia |].
  destruct (Z.ltb_spec buflen' (fl h)); [lia |]. reflexivity.
Qed.

(** The buffer and the ID of the header after a successful [encodeHeader]. *)
Lemma encodeHeader_buffer h buffer size secure_ fType_ seqNum_ id_ il_ bl_ tl_ r h' b' :
  is_u8 il_ -> is_u8 bl_ -> is_u8 tl_ ->
  length (id h) = 8%nat ->
  (Z.to_nat il_ <= length (orempty id_))%nat ->
  (Z.to_nat size <= length buffer)%nat ->
  encodeHeader h (mkOTBuf (Some buffer) size) secure_ fType_ seqNum_ id_
    il_ bl_ tl_ = (r, h', b') ->
  r <> 0 ->
  take (Z.to_nat il_) (id h') = take (Z.to_nat il_) (orempty id_) /\
  buf b' = Some ([3 + il_ + bl_ + tl_; type_byte secure_ fType_;
                  seqIl_byte il_ seqNum_] ++
                 take (Z.to_nat il_) (orempty id_) ++ [bl_] ++
                 drop (Z.to_nat (4 + il_)) buffer).
Proof.
  unfold is_u8. intros Hil Hbl Htl Hidlen Hsrc Hbuf Henc Hr.
  destruct (encodeHeader_cases h (mkOTBuf (Some buffer) size) secure_ fType_
              seqNum_ id_ il_ bl_ tl_ r h' b' ltac:(lia) ltac:(lia) ltac:(lia) Henc)
    as [[-> _] | (-> & _ & _ & Hil8 & _ & Hfit & _ & _ & Hh)];
    [contradiction |].
  cbv zeta in Hh. destruct Hh as [-> ->].
  unfold maxIDLength in *. cbn [buf bufsize id] in *.
  set (idb := if 0 <? il_ then memcpy_at (id h) 0 (orempty id_) il_ else id h).
  assert (Hidb : take (Z.to_nat il_) idb = take (Z.to_nat il_) (orempty id_)).
  { subst idb. destruct (Z.ltb_spec 0 il_).
    - apply take_memcpy_at_0; lia.
    - replace (Z.to_nat il_) with 0%nat by lia. reflexivity. }
  assert (Hidblen : (Z.to_nat il_ <= length idb)%nat).
  { subst idb. destruct (Z.ltb_spec 0 il_); [rewrite length_memcpy_at |]; lia. }
  split; [assumption |]. f_equal.
  rewrite <- Hidb.
  replace (Z.to_nat (4 + il_)) with (4 + Z.to_nat il_)%nat by lia.
  pose proof (header_bytes_layout buffer idb (Z.to_nat il_)
                (3 + il_ + bl_ + tl_) (type_byte secure_ fType_)
                (seqIl_byte il_ seqNum_) bl_ ltac:(lia) Hidblen) as HL.
  rewrite Z2Nat.id in HL by lia. exact HL.
Qed.

(** Reading back the bytes of a frame without body. *)
Lemma rd_frame_parts (hdr rest : list Z) (n : nat) (a t s v c : Z) :
  length hdr = n ->
  let F := [a; t; s] ++ hdr ++ [v] ++ c :: rest in
  rd F 0 = a /\ rd F 1 = t /\ rd F 2 = s /\
  rd F (3 + Z.of_nat n) = v /\ rd F (4 + Z.of_nat n) = c /\
  take n (drop 3 F) = hdr.
Proof.
  intros Hn F. subst F. unfold rd.
  replace (Z.to_nat (3 + Z.of_nat n)) with (3 + n)%nat by lia.
  replace (Z.to_nat (4 + Z.of_nat n)) with (3 + (n + 1))%nat by lia.
  repeat split; try reflexivity.
  - rewrite (app_assoc [a; t; s] hdr).
    assert (E : (([a; t; s] ++ hdr) ++ [v] ++ c :: rest) !! (3 + n)%nat = Some v)
      by (apply (list_lookup_middle ([a; t; s] ++ hdr) (c :: rest) v);
          rewrite length_app; simpl; lia).
    now rewrite E.
  - rewrite (app_assoc [a; t; s] hdr), (app_assoc ([a; t; s] ++ hdr) [v]).
    assert (E : ((([a; t; s] ++ hdr) ++ [v]) ++ c :: rest) !! (3 + (n + 1))%nat
                = Some c)
      by (apply (list_lookup_middle (([a; t; s] ++ hdr) ++ [v]) rest c);
          rewrite !length_app; simpl; lia).
    now rewrite E.
  - change 3%nat with (length [a; t; s]). rewrite drop_app_length.
    rewrite take_app_le by lia. apply take_ge. lia.
Qed.

(** Writing the trailer byte after a header whose body length is 0. *)
Lemma wr_frame_trailer (hdr buffer : list Z) (n : nat) (a t s v c : Z) :
  length hdr = n -> (5 + n <= length buffer)%nat ->
  wr ([a; t; s] ++ hdr ++ [v] ++ drop (4 + n) buffer) (4 + Z.of_nat n) c
  = [a; t; s] ++ hdr ++ [v] ++ c :: drop (5 + n) buffer.
Proof.
  intros Hn Hbuf. unfold wr.
  destruct (lookup_lt_is_Some_2 buffer (4 + n) ltac:(lia)) as [x Hx].
  rewrite (drop_S _ _ _ Hx).
  rewrite (app_assoc [a; t; s] hdr), (app_assoc ([a; t; s] ++ hdr) [v]).
  replace (Z.to_nat (4 + Z.of_nat n))
    with (length (([a; t; s] ++ hdr) ++ [v]) + 0)%nat
    by (rewrite !length_app; simpl; lia).
  rewrite insert_app_r. rewrite <- !app_assoc. reflexivity.
Qed.

(** The frame that [encodeNonsecure] writes when there is no body: header,
    body length 0 and the CRC of these bytes. *)
Lemma encodeNonsecure_without_body_frame fd seqNum id_ il out r fd' :
  is_u8 (e_fType fd) -> is_u8 il -> e_ptextbufSize fd = 0 ->
  length (id (e_sfh fd)) = 8%nat ->
  (Z.to_nat il <= length (orempty id_))%nat ->
  e_outbuf fd = Some out -> (Z.to_nat (e_outbufSize fd) <= length out)%nat ->
  encodeNonsecure fd seqNum id_ il = (r, fd') ->
  r <> 0 ->
  exists crc frame,
    frame = [4 + il; type_byte false (e_fType fd); seqIl_byte il seqNum] ++
            take (Z.to_nat il) (orempty id_) ++ [0] ++
            crc :: drop (5 + Z.to_nat il) out /\
    e_outbuf fd' = Some frame /\
    r = 5 + il /\ fl (e_sfh fd') = 4 + il /\
    e_fType fd <> FTS_NONE /\ e_fType fd < FTS_INVALID_HIGH /\ il <= maxIDLength /\
    1 <= crc <= 0x80 /\
    forall h, fl h = 4 + il -> computeNonSecureCRC h frame (4 + il + 1) = crc.
Proof.
  intros HfT Hil Hbl0 Hidlen Hsrc Hout Hlen Henc Hr.
  unfold encodeNonsecure in Henc. rewrite Hout, Hbl0 in Henc.
  destruct (encodeHeader (e_sfh fd) (mkOTBuf (Some out) (e_outbufSize fd)) false
              (e_fType fd) seqNum id_ il 0 1)
    as [[hl sfh] b] eqn:Hhdr.
  destruct (0 =? hl) eqn:Hhl; [injection Henc as <- <-; contradiction |].
  destruct (fl sfh >=? e_outbufSize fd) eqn:Hfits;
    [injection Henc as <- <-; contradiction |].
  bool_to_prop.
  assert (Hhl0 : hl <> 0) by congruence.
  assert (H0 : is_u8 0) by (unfold is_u8; lia).
  assert (H1 : is_u8 1) by (unfold is_u8; lia).
  destruct (encodeHeader_buffer _ _ _ _ _ _ _ _ _ _ _ _ _ Hil H0 H1 Hidlen Hsrc
              Hlen Hhdr Hhl0) as [_ Hb].
  unfold is_u8 in *.
  destruct (encodeHeader_cases (e_sfh fd) (mkOTBuf (Some out) (e_outbufSize fd))
              false (e_fType fd) seqNum id_ il 0 1 hl sfh b
              ltac:(lia) ltac:(lia) ltac:(lia) Hhdr)
    as [[-> _] | (-> & HfT0 & HfT1 & Hil8 & _ & Hfit & _ & _ & Hh)];
    [contradiction |].
  cbv zeta in Hh. destruct Hh as [-> _].
  unfold maxIDLength, FTS_NONE, FTS_INVALID_HIGH in *.
  cbn [buf bufsize fl] in *.
  rewrite Hb in Henc. cbn [orempty default] in Henc.
  change (0 >? 0) with false in Henc. cbv iota in Henc.
  unfold Datatypes.id in Henc.
  replace (3 + il + 0 + 1) with (4 + il) in * by lia.
  rewrite wrap8_small in Henc by lia.
  set (hdr := take (Z.to_nat il) (orempty id_)) in *.
  assert (Hhdrlen : length hdr = Z.to_nat il) by (subst hdr; rewrite length_take; lia).
  set (ty := type_byte false (e_fType fd)) in *.
  set (sq := seqIl_byte il seqNum) in *.
  set (sfh := mkSFH (4 + il) ty sq _ 0) in *.
  set (F := [4 + il; ty; sq] ++ hdr ++ [0] ++ drop (Z.to_nat (4 + il)) out) in *.
  set (crc := computeNonSecureCRC sfh F (e_outbufSize fd)) in *.
  assert (Hcrc : 1 <= crc <= 128).
  { subst crc. apply computeNonSecureCRC_range.
    - unfold isInvalid. subst sfh. cbn [fl]. apply Z.eqb_neq. lia.
    - subst sfh. cbn [fl]. lia. }
  assert (EF : wr F (4 + il) crc
               = [4 + il; ty; sq] ++ hdr ++ [0] ++ crc
                   :: drop (5 + Z.to_nat il) out).
  { subst F. replace (Z.to_nat (4 + il)) with (4 + Z.to_nat il)%nat by lia.
    rewrite <- (Z2Nat.id il) at 3 by lia.
    apply wr_frame_trailer; [assumption | lia]. }
  injection Henc as <- <-. cbn [e_outbuf e_sfh].
  exists crc, (wr F (4 + il) crc).
  repeat match goal with |- _ /\ _ => split end;
    try assumption; try reflexivity; try lia.
  intros h Hflh. subst crc. apply computeNonSecureCRC_ext.
  - rewrite Hflh. reflexivity.
  - lia.
  - rewrite Hflh. lia.
  - rewrite Hflh. apply take_wr_ge. lia.
Qed.

(** X1 (the non-secure round trip of a frame without body).  Where
    [encodeNonsecure] is asked for a frame without body (a beacon, for one)
    and succeeds, [decodeHeader] and [decodeNonsecure] accept the [r] bytes
    written, with the same result [r], and recover the frame type, the
    sequence number and the ID prefix. *)
Theorem nonsecure_roundtrip_without_body :
  forall fd seqNum id_ il out r fd' h0 ptext maxlen len idd,
    is_u8 (e_fType fd) -> is_u8 seqNum -> is_u8 il -> e_ptextbufSize fd = 0 ->
    length (id (e_sfh fd)) = 8%nat ->
    (Z.to_nat il <= length (orempty id_))%nat ->
    e_outbuf fd = Some out -> (Z.to_nat (e_outbufSize fd) <= length out)%nat ->
    encodeNonsecure fd seqNum id_ il = (r, fd') ->
    r <> 0 ->
    length (id h0) = 8%nat ->
    let dh := decodeHeader h0 (e_outbuf fd') r in
    dh.1 = 4 + il /\
    isSecure dh.2 = false /\ Z.land (fType dh.2) 0x7f = e_fType fd /\
    getSeq dh.2 = Z.land seqNum 0xf /\ getIl dh.2 = il /\
    take (Z.to_nat il) (id dh.2) = take (Z.to_nat il) (orempty id_) /\
    bl dh.2 = 0 /\
    decodeNonsecure (mkDec (e_outbuf fd') r ptext maxlen len dh.2 idd) = r.
Proof.
  intros fd seqNum id_ il out r fd' h0 ptext maxlen len idd
         HfT Hseq Hil Hbl0 Hidlen Hsrc Hout Hlen Henc Hr Hid0.
  destruct (encodeNonsecure_without_body_frame fd seqNum id_ il out r fd'
              HfT Hil Hbl0 Hidlen Hsrc Hout Hlen Henc Hr)
    as (crc & F' & EF & -> & -> & _ & HfT0 & HfT1 & Hil8 & Hcrc & Hcrc').
  unfold is_u8, maxIDLength, FTS_NONE, FTS_INVALID_HIGH in *.
  set (hdr := take (Z.to_nat il) (orempty id_)) in *.
  assert (Hhdrlen : length hdr = Z.to_nat il) by (subst hdr; rewrite length_take; lia).
  set (ty := type_byte false (e_fType fd)) in *.
  set (sq := seqIl_byte il seqNum) in *.
  replace (5 + il) with (4 + il + 1) by lia.
  pose proof (rd_frame_parts hdr (drop (5 + Z.to_nat il) out) (Z.to_nat il)
                (4 + il) ty sq 0 crc Hhdrlen) as HP.
  cbv zeta in HP. rewrite <- EF, Z2Nat.id in HP by lia.
  destruct HP as (R0 & R1 & R2 & R3 & R4 & R5).
  destruct (type_byte_unpacks false (e_fType fd) ltac:(lia)) as [Hty Hsec].
  destruct (seqIl_byte_unpacks il seqNum ltac:(lia) ltac:(lia)) as [Hgil Hgseq].
  fold ty in Hty, Hsec. fold sq in Hgil, Hgseq.
  pose proof (decodeHeader_accepts h0 F' (4 + il + 1)) as HD.
  cbv zeta in HD. rewrite R0, R1, R2, Hgil, R3, R4, Hty in HD.
  unfold maxSmallFrameSize, maxIDLength, FTS_NONE, FTS_INVALID_HIGH in HD.
  specialize (HD ltac:(lia) ltac:(lia) ltac:(lia) ltac:(lia) ltac:(lia)
                ltac:(lia) ltac:(lia) ltac:(lia) ltac:(lia) ltac:(lia)).
  cbv zeta. cbn [e_outbuf]. rewrite HD. cbn [fst snd].
  set (dsfh := mkSFH (4 + il) ty sq _ 0).
  assert (Hdil : getIl dsfh = il) by exact Hgil.
  repeat match goal with |- _ /\ _ => split end;
    try reflexivity; try assumption.
  - subst dsfh. cbn [id]. destruct (Z.ltb_spec 0 il).
    + rewrite take_memcpy_at_0; [exact R5 | | lia].
      rewrite <- R5, length_take in Hhdrlen. lia.
    + subst hdr. replace (Z.to_nat il) with 0%nat by lia. reflexivity.
  - unfold decodeNonsecure. cbn [d_ctext d_sfh d_ctextLen].
    assert (Hinv : isInvalid dsfh = false)
      by (unfold isInvalid; subst dsfh; cbn [fl]; apply Z.eqb_neq; lia).
    assert (Htl : getTl dsfh = 1).
    { unfold getTl. rewrite Hdil. subst dsfh. cbn [fl bl].
      rewrite wrap8_small by lia. lia. }
    rewrite Hinv, Htl, (Hcrc' dsfh eq_refl). change (fl dsfh) with (4 + il).
    rewrite R4.
    change (1 =? 1) with true. cbn [negb].
    destruct (Z.eqb_spec 0 crc); [lia |].
    rewrite Z.eqb_refl. cbn [negb].
    apply wrap8_small. lia.
Qed.

Lemma nonsecure_roundtrip_without_body_witness :
  let enc := encodeNonsecure alive_encode_data 4 (Some (replicate 8 0x55)) 8 in
  let dh := decodeHeader (SecurableFrameHeader_new junk_header)
              (e_outbuf enc.2) enc.1 in
  enc.1 = 13 /\
  (dh.1 = 4 + 8 /\
   isSecure dh.2 = false /\ Z.land (fType dh.2) 0x7f = FTS_ALIVE /\
   getSeq dh.2 = Z.land 4 0xf /\ getIl dh.2 = 8 /\
   take (Z.to_nat 8) (id dh.2) = take (Z.to_nat 8) (replicate 8 0x55) /\
   bl dh.2 = 0 /\
   decodeNonsecure (mkDec (e_outbuf enc.2) enc.1 None 0 0 dh.2 (replicate 8 0))
     = enc.1).
Proof.
  split; [reflexivity |].
  apply (nonsecure_roundtrip_without_body alive_encode_data 4
           (Some (replicate 8 0x55)) 8 (replicate 64 0xAA)
           (encodeNonsecure alive_encode_data 4 (Some (replicate 8 0x55)) 8).1
           (encodeNonsecure alive_encode_data 4 (Some (replicate 8 0x55)) 8).2
           (SecurableFrameHeader_new junk_header) None 0 0 (replicate 8 0)).
  all: try (unfold is_u8; vm_compute; split; [discriminate | reflexivity]).
  all: try reflexivity.
  all: try (vm_compute; lia).
  all: try (vm_compute; discriminate).
Defined.

(** ** encodeHeader: which calls succeed *)

Lemma encodeHeader_accepts h b (secure_ : bool) fType_ seqNum_
    (id_ : option (list Z)) il_ bl_ tl_ :
  fType_ <> FTS_NONE -> fType_ < FTS_INVALID_HIGH ->
  0 <= il_ <= maxIDLength -> (0 < il_ -> id_ <> None) ->
  4 + il_ <= bufsize b -> bl_ <= maxSmallFrameSize - (4 + il_) ->
  (if secure_ then 1 <= tl_ <= maxSmallFrameSize + 1 - (4 + il_) - bl_
   else tl_ = 1) ->
  (encodeHeader h b secure_ fType_ seqNum_ id_ il_ bl_ tl_).1.1 = 4 + il_.
Proof.
  unfold maxIDLength, maxSmallFrameSize, FTS_NONE, FTS_INVALID_HIGH.
  intros HfT0 HfT1 Hil Hid Hfit Hbl Htl. unfold encodeHeader.
  unfold maxIDLength, maxSmallFrameSize, FTS_NONE, FTS_INVALID_HIGH.
  cbv zeta.
  destruct (Z.eqb_spec 0 fType_); [lia |].
  destruct (Z.geb_spec fType_ 127); [lia |]. cbn [orb].
  destruct (Z.gtb_spec il_ 8); [lia |].
  rewrite (wrap8_small (4 + il_)) by lia.
  assert (Hrest : forall hh : SecurableFrameHeader,
    (if 4 + il_ >? bufsize b then (0, hh, b)
     else if bl_ >? 63 - (4 + il_) then (0, hh, b)
     else if (if negb secure_ then negb (1 =? tl_)
              else (0 =? tl_) || (tl_ >? 63 + 1 - (4 + il_) - bl_))
          then (0, set_bl hh bl_, b)
          else (4 + il_, set_fl (set_bl hh bl_) (wrap8 (4 + il_ - 1 + bl_ + tl_)),
                match buf b with
                | Some buffer =>
                    mkOTBuf (Some (wr (memcpy_at
                       (wr (wr (wr buffer 0 (wrap8 (4 + il_ - 1 + bl_ + tl_)))
                              1 (fType (set_bl hh bl_))) 2 (seqIl (set_bl hh bl_)))
                       3 (id (set_bl hh bl_)) il_) (3 + il_) bl_)) (bufsize b)
                | None => b
                end)).1.1 = 4 + il_).
  { intros hh.
    destruct (Z.gtb_spec (4 + il_) (bufsize b)); [lia |].
    destruct (Z.gtb_spec bl_ (63 - (4 + il_))); [lia |].
    destruct secure_; cbn [negb].
    - destruct (Z.eqb_spec 0 tl_); [lia |].
      destruct (Z.gtb_spec tl_ (63 + 1 - (4 + il_) - bl_)); [lia |]. reflexivity.
    - destruct (Z.eqb_spec 1 tl_); [| lia]. reflexivity. }
  destruct (Z.gtb_spec il_ 0) as [Hpos | Hzero].
  - destruct id_ as [src |]; [| exfalso; apply Hid; [lia | reflexivity]].
    apply Hrest.
  - apply Hrest.
Qed.

(** X2 (encodeHeader: the calls that succeed).  With 8-bit arguments,
    [encodeHeader] returns a non-zero length exactly when the frame type is
    neither [FTS_NONE] nor [FTS_INVALID_HIGH] or above, the ID length is at
    most 8 with a non-NULL source when it is not 0, the header fits the
    buffer size given, the body leaves room in a small frame and the trailer
    length is 1 for a non-secure frame, at least 1 and within the small frame
    for a secure one.  The length returned is then [4 + il_] and the frame
    length set in the header is [3 + il_ + bl_ + tl_], at most 63. *)
Theorem encodeHeader_succeeds_iff :
  forall h b secure_ fType_ seqNum_ id_ il_ bl_ tl_,
    is_u8 il_ -> is_u8 bl_ -> is_u8 tl_ ->
    let res := encodeHeader h b secure_ fType_ seqNum_ id_ il_ bl_ tl_ in
    (res.1.1 <> 0 <->
       fType_ <> FTS_NONE /\ fType_ < FTS_INVALID_HIGH /\
       il_ <= maxIDLength /\ (0 < il_ -> id_ <> None) /\
       4 + il_ <= bufsize b /\ bl_ <= maxSmallFrameSize - (4 + il_) /\
       (if secure_ then 1 <= tl_ <= maxSmallFrameSize + 1 - (4 + il_) - bl_
        else tl_ = 1)) /\
    (res.1.1 <> 0 ->
       res.1.1 = 4 + il_ /\ fl res.1.2 = 3 + il_ + bl_ + tl_ /\
       fl res.1.2 <= maxSmallFrameSize).
Proof.
  intros h b secure_ fType_ seqNum_ id_ il_ bl_ tl_ Hil Hbl Htl res.
  unfold is_u8 in *.
  destruct res as [[r h'] b'] eqn:Hres. subst res. cbn [fst snd].
  pose proof (encodeHeader_cases h b secure_ fType_ seqNum_ id_ il_ bl_ tl_ r h' b'
                ltac:(lia) ltac:(lia) ltac:(lia) Hres) as Hcases.
  assert (Hfwd : r <> 0 ->
            fType_ <> FTS_NONE /\ fType_ < FTS_INVALID_HIGH /\
            il_ <= maxIDLength /\ (0 < il_ -> id_ <> None) /\
            4 + il_ <= bufsize b /\ bl_ <= maxSmallFrameSize - (4 + il_) /\
            (if secure_ then 1 <= tl_ <= maxSmallFrameSize + 1 - (4 + il_) - bl_
             else tl_ = 1) /\
            r = 4 + il_ /\ fl h' = 3 + il_ + bl_ + tl_).
  { intros Hr.
    destruct Hcases as [[-> _] | (-> & H1 & H2 & H3 & H4 & H5 & H6 & H7 & H8)];
      [contradiction |].
    cbv zeta in H8. destruct H8 as [-> _]. cbn [fl].
    repeat match goal with |- _ /\ _ => split end; try assumption; try reflexivity.
    intros Hpos. destruct (H4 Hpos) as [src ->]. discriminate. }
  split; [split |].
  - intros Hr. destruct (Hfwd Hr) as (? & ? & ? & ? & ? & ? & ? & _).
    repeat match goal with |- _ /\ _ => split end; assumption.
  - intros (H1 & H2 & H3 & H4 & H5 & H6 & H7).
    pose proof (encodeHeader_accepts h b secure_ fType_ seqNum_ id_ il_ bl_ tl_
                  H1 H2 ltac:(lia) H4 H5 H6 H7) as Hacc.
    rewrite Hres in Hacc. cbn [fst] in Hacc. lia.
  - intros Hr. destruct (Hfwd Hr) as (_ & _ & H3 & _ & _ & H6 & H7 & -> & ->).
    unfold maxSmallFrameSize, maxIDLength in *.
    repeat split; try reflexivity.
    destruct secure_; lia.
Qed.

Lemma encodeHeader_succeeds_iff_witness :
  vector1_encodeHeader.1.1 = 4 + 2 /\
  fl vector1_encodeHeader.1.2 = 3 + 2 + 2 + 1 /\
  fl vector1_encodeHeader.1.2 <= maxSmallFrameSize.
Proof.
  apply (proj2 (encodeHeader_succeeds_iff (SecurableFrameHeader_new junk_header)
                  (mkOTBuf (Some (replicate 63 0)) 63) false FTS_BasicSensorOrValve 0
                  (Some [0x80; 0x81]) 2 2 1
                  ltac:(unfold is_u8; lia) ltac:(unfold is_u8; lia)
                  ltac:(unfold is_u8; lia))).
  vm_compute. discriminate.
Defined.

(** X3 (encodeHeader: the buffer is written, never read).  The length
    returned and the header left in the structure are the same whatever the
    buffer holds, and whether it is NULL or not; a call that fails leaves the
    buffer as it was. *)
Theorem encodeHeader_ignores_buffer_content :
  forall h (b1 b2 : option (list Z)) size secure_ fType_ seqNum_ id_ il_ bl_ tl_,
    is_u8 il_ ->
    let res1 := encodeHeader h (mkOTBuf b1 size) secure_ fType_ seqNum_ id_ il_ bl_ tl_ in
    let res2 := encodeHeader h (mkOTBuf b2 size) secure_ fType_ seqNum_ id_ il_ bl_ tl_ in
    res1.1 = res2.1 /\
    (res1.1.1 = 0 -> res1.2 = mkOTBuf b1 size) /\
    (b1 = None -> res1.2 = mkOTBuf None size).
Proof.
  intros h b1 b2 size secure_ fType_ seqNum_ id_ il_ bl_ tl_ Hil.
  unfold is_u8 in Hil.
  unfold encodeHeader. cbv zeta. cbn [bufsize buf].
  assert (Hfail : forall hh : SecurableFrameHeader,
            (0, hh, mkOTBuf b1 size).1 = (0, hh, mkOTBuf b2 size).1 /\
            ((0, hh, mkOTBuf b1 size).1.1 = 0 ->
             (0, hh, mkOTBuf b1 size).2 = mkOTBuf b1 size) /\
            (b1 = None -> (0, hh, mkOTBuf b1 size).2 = mkOTBuf None size)).
  { intros hh. cbn [fst snd]. repeat split. intros ->. reflexivity. }
  destruct ((FTS_NONE =? fType_) || (fType_ >=? FTS_INVALID_HIGH)); [apply Hfail |].
  destruct (Z.gtb_spec il_ maxIDLength) as [| Hil8]; [apply Hfail |].
  unfold maxIDLength in Hil8.
  rewrite (wrap8_small (4 + il_)) by lia.
  destruct (il_ >? 0); [destruct id_ as [src |] |]; try apply Hfail.
  all: destruct (4 + il_ >? size); [apply Hfail |].
  all: destruct (bl_ >? maxSmallFrameSize - (4 + il_)); [apply Hfail |].
  all: match goal with
       | |- context [if ?c then (0, _, _) else _] => destruct c
       end; [apply Hfail |].
  all: cbn [fst snd].
  all: split; [reflexivity |].
  all: split; [intros Hz; lia | intros ->; reflexivity].
Qed.

Lemma encodeHeader_ignores_buffer_content_witness :
  (encodeHeader (SecurableFrameHeader_new junk_header)
     (mkOTBuf (Some (replicate 63 0)) 63) false FTS_BasicSensorOrValve 0
     (Some [0x80; 0x81]) 2 2 1).1 =
  (encodeHeader (SecurableFrameHeader_new junk_header)
     (mkOTBuf None 63) false FTS_BasicSensorOrValve 0
     (Some [0x80; 0x81]) 2 2 1).1.
Proof.
  apply (encodeHeader_ignores_buffer_content (SecurableFrameHeader_new junk_header)
           (Some (replicate 63 0)) None 63 false FTS_BasicSensorOrValve 0
           (Some [0x80; 0x81]) 2 2 1).
  unfold is_u8. lia.
Defined.

(** ** The header round trip *)

Lemma rd_header_parts (hdr rest : list Z) (n : nat) (a t s v : Z) :
  length hdr = n ->
  let F := [a; t; s] ++ hdr ++ [v] ++ rest in
  rd F 0 = a /\ rd F 1 = t /\ rd F 2 = s /\
  rd F (3 + Z.of_nat n) = v /\
  take n (drop 3 F) = hdr.
Proof.
  intros Hn F. subst F. unfold rd.
  replace (Z.to_nat (3 + Z.of_nat n)) with (3 + n)%nat by lia.
  repeat split; try reflexivity.
  - rewrite (app_assoc [a; t; s] hdr).
    assert (E : (([a; t; s] ++ hdr) ++ [v] ++ rest) !! (3 + n)%nat = Some v)
      by (apply (list_lookup_middle ([a; t; s] ++ hdr) rest v);
          rewrite length_app; simpl; lia).
    now rewrite E.
  - change 3%nat with (length [a; t; s]). rewrite drop_app_length.
    rewrite take_app_le by lia. apply take_ge. lia.
Qed.


(** X4 (the header round trip).  Where [encodeHeader] succeeds on a non-NULL
    buffer, [decodeHeader] on the bytes written returns the same header
    length and recovers the frame length, the type byte, the sequence/ID
    length byte, the body length and the ID bytes, for every buffer length
    from the header length (and at least 5) on; once the buffer length
    exceeds the frame length this needs the byte at the frame's end not to be
    0x00 or 0xff. *)
Theorem decodeHeader_inverts_encodeHeader :
  forall h h0 buffer size secure_ fType_ seqNum_ id_ il_ bl_ tl_ r h' b' buflen,
    is_u8 fType_ -> is_u8 seqNum_ -> is_u8 il_ -> is_u8 bl_ -> is_u8 tl_ ->
    length (id h) = 8%nat ->
    (Z.to_nat il_ <= length (orempty id_))%nat ->
    (Z.to_nat size <= length buffer)%nat ->
    encodeHeader h (mkOTBuf (Some buffer) size) secure_ fType_ seqNum_ id_
      il_ bl_ tl_ = (r, h', b') ->
    r <> 0 ->
    5 <= buflen -> r <= buflen ->
    (fl h' < buflen ->
       rd (orempty (buf b')) (fl h') <> 0x00 /\ rd (orempty (buf b')) (fl h') <> 0xff) ->
    let dec := decodeHeader h0 (buf b') buflen in
    dec.1 = r /\
    fl dec.2 = fl h' /\ fType dec.2 = fType h' /\ seqIl dec.2 = seqIl h' /\
    bl dec.2 = bl h' /\
    (length (id h0) = 8%nat ->
     take (Z.to_nat il_) (id dec.2) = take (Z.to_nat il_) (id h')).
Proof.
  intros h h0 buffer size secure_ fType_ seqNum_ id_ il_ bl_ tl_ r h' b' buflen
         HfT Hseq Hil Hbl Htl Hidlen Hsrc Hbuf Henc Hr H5 Hrlen Hlast.
  destruct (encodeHeader_buffer _ _ _ _ _ _ _ _ _ _ _ _ _ Hil Hbl Htl Hidlen Hsrc
              Hbuf Henc Hr) as [Hid Hb].
  unfold is_u8 in *.
  destruct (encodeHeader_cases h (mkOTBuf (Some buffer) size) secure_ fType_
              seqNum_ id_ il_ bl_ tl_ r h' b' ltac:(lia) ltac:(lia) ltac:(lia) Henc)
    as [[-> _] | (-> & HfT0 & HfT1 & Hil8 & _ & Hfit & Hbl63 & Htlok & Hh)];
    [contradiction |].
  cbv zeta in Hh. destruct Hh as [Hh' _].
  unfold maxIDLength, maxSmallFrameSize, FTS_NONE, FTS_INVALID_HIGH in *.
  cbn [bufsize] in *.
  assert (Hfl : fl h' = 3 + il_ + bl_ + tl_) by (rewrite Hh'; reflexivity).
  assert (HfTy : fType h' = type_byte secure_ fType_) by (rewrite Hh'; reflexivity).
  assert (Hsq : seqIl h' = seqIl_byte il_ seqNum_) by (rewrite Hh'; reflexivity).
  assert (Hblh : bl h' = bl_) by (rewrite Hh'; reflexivity).
  assert (Htl1 : 1 <= tl_ <= 60 - il_ - bl_) by (destruct secure_; lia).
  rewrite Hb in *. cbn [orempty default] in Hlast.
  unfold Datatypes.id in Hlast.
  set (hdr := take (Z.to_nat il_) (orempty id_)) in *.
  assert (Hhdrlen : length hdr = Z.to_nat il_)
    by (subst hdr; rewrite length_take; lia).
  set (F := [3 + il_ + bl_ + tl_; type_byte secure_ fType_; seqIl_byte il_ seqNum_]
            ++ hdr ++ [bl_] ++ drop (Z.to_nat (4 + il_)) buffer) in *.
  pose proof (rd_header_parts hdr (drop (Z.to_nat (4 + il_)) buffer)
                (Z.to_nat il_) (3 + il_ + bl_ + tl_) (type_byte secure_ fType_)
                (seqIl_byte il_ seqNum_) bl_ Hhdrlen) as HP.
  cbv zeta in HP. fold F in HP. rewrite Z2Nat.id in HP by lia.
  destruct HP as (R0 & R1 & R2 & R3 & R5).
  destruct (type_byte_unpacks secure_ fType_ ltac:(lia)) as [Hty Hsec].
  destruct (seqIl_byte_unpacks il_ seqNum_ ltac:(lia) ltac:(lia)) as [Hgil _].
  pose proof (decodeHeader_accepts h0 F buflen) as HD.
  cbv zeta in HD. rewrite R0, R1, R2, Hgil, R3, Hty in HD.
  unfold maxSmallFrameSize, maxIDLength, FTS_NONE, FTS_INVALID_HIGH in HD.
  assert (Hlast' : 3 + il_ + bl_ + tl_ < buflen ->
            rd F (3 + il_ + bl_ + tl_) <> 0 /\ rd F (3 + il_ + bl_ + tl_) <> 255)
    by (intros Hlt; rewrite <- Hfl; apply Hlast; lia).
  assert (Hns : Z.land 128 (type_byte secure_ fType_) = 0 ->
            3 + il_ + bl_ + tl_ - 3 - il_ - bl_ = 1).
  { intros Hz. destruct secure_; [| lia].
    rewrite Hz in Hsec. discriminate. }
  specialize (HD ltac:(lia) ltac:(lia) ltac:(lia) ltac:(lia) ltac:(lia)
                ltac:(lia) ltac:(lia) ltac:(lia) Hlast' Hns).
  cbv zeta. rewrite HD. cbn [fst snd fl fType seqIl bl id].
  rewrite Hfl, HfTy, Hsq, Hblh.
  repeat match goal with |- _ /\ _ => split end; try reflexivity.
  intros Hid0. rewrite Hid.
  destruct (Z.ltb_spec 0 il_).
  - rewrite take_memcpy_at_0; [exact R5 | | lia].
    rewrite <- R5, length_take in Hhdrlen. lia.
  - subst hdr. replace (Z.to_nat il_) with 0%nat by lia. reflexivity.
Qed.

Lemma decodeHeader_inverts_encodeHeader_witness :
  let dec := decodeHeader (SecurableFrameHeader_new junk_header)
               (buf vector1_encodeHeader.2) 6 in
  dec.1 = vector1_encodeHeader.1.1 /\
  fl dec.2 = fl vector1_encodeHeader.1.2 /\
  fType dec.2 = fType vector1_encodeHeader.1.2 /\
  seqIl dec.2 = seqIl vector1_encodeHeader.1.2 /\
  bl dec.2 = bl vector1_encodeHeader.1.2 /\
  (length (id (SecurableFrameHeader_new junk_header)) = 8%nat ->
   take (Z.to_nat 2) (id dec.2) = take (Z.to_nat 2) (id vector1_encodeHeader.1.2)).
Proof.
  apply (decodeHeader_inverts_encodeHeader (SecurableFrameHeader_new junk_header)
           (SecurableFrameHeader_new junk_header) (replicate 63 0) 63 false
           FTS_BasicSensorOrValve 0 (Some [0x80; 0x81]) 2 2 1
           vector1_encodeHeader.1.1 vector1_encodeHeader.1.2 vector1_encodeHeader.2 6).
  all: try (unfold is_u8, FTS_BasicSensorOrValve; lia).
  all: try reflexivity.
  all: try (vm_compute; lia).
  all: try (vm_compute; discriminate).
Defined.

(** ** decodeHeader: the buffers that are accepted *)

(** X5 (decodeHeader: the buffers that are accepted).  On a buffer of bytes,
    [decodeHeader] returns a non-zero length exactly when the buffer length is
    at least 5 and covers the header, the frame length byte is in 4..63, the
    type is neither 0 nor 0x7f once the secure bit is masked, the ID length is
    at most 8 and at most [fl - 4], the body length is at most
    [fl - 4 - il], the last byte of the frame, when the buffer reaches it, is
    neither 0x00 nor 0xff, and a non-secure frame has a trailer of exactly one
    byte.  The length returned is then [4 + il]. *)
Theorem decodeHeader_accepts_iff :
  forall h (b : list Z) buflen,
    Forall is_u8 b ->
    let fl_ := rd b 0 in
    let il_ := Z.land (rd b 2) 0xf in
    let bl_ := rd b (3 + il_) in
    let res := decodeHeader h (Some b) buflen in
    (res.1 <> 0 <->
       5 <= buflen /\ 4 <= fl_ <= maxSmallFrameSize /\
       Z.land (rd b 1) 0x7f <> FTS_NONE /\ Z.land (rd b 1) 0x7f < FTS_INVALID_HIGH /\
       il_ <= maxIDLength /\ il_ <= fl_ - 4 /\ 4 + il_ <= buflen /\
       bl_ <= fl_ - 4 - il_ /\
       (fl_ < buflen -> rd b fl_ <> 0x00 /\ rd b fl_ <> 0xff) /\
       (Z.land 0x80 (rd b 1) = 0 -> fl_ - 3 - il_ - bl_ = 1)) /\
    (res.1 = 0 \/ res.1 = 4 + il_).
Proof.
  intros h b buflen Hu8 fl_ il_ bl_ res.
  destruct res as [r h'] eqn:Hres. subst res. cbn [fst].
  pose proof (decodeHeader_cases h (Some b) buflen r h' Hres) as Hcases.
  assert (Hbl0 : 0 <= bl_) by (pose proof (rd_u8 b (3 + il_) Hu8) as Hx;
                                unfold is_u8 in Hx; subst bl_; lia).
  assert (Hil0 : 0 <= il_) by (subst il_; apply land_15_range).
  split; [split |].
  - intros Hr.
    destruct Hcases as [[-> _] | (b0 & Hb0 & Hc)]; [contradiction |].
    injection Hb0 as <-. cbv zeta in Hc. fold fl_ il_ bl_ in Hc.
    destruct Hc as (-> & H5 & Hfl & Ht0 & Ht1 & Hil8 & Hilfl & Hfit & Hbl & Hlast
                    & Htl & _).
    unfold maxSmallFrameSize, maxIDLength in *.
    repeat match goal with |- _ /\ _ => split end; try assumption; try lia.
    intros Hns. rewrite Hns in Htl. cbn [Z.eqb negb] in Htl.
    rewrite wrap8_small in Htl by lia. exact Htl.
  - intros (H5 & Hfl & Ht0 & Ht1 & Hil8 & Hilfl & Hfit & Hbl & Hlast & Htl).
    pose proof (decodeHeader_accepts h b buflen) as HD. cbv zeta in HD.
    fold fl_ il_ bl_ in HD.
    specialize (HD H5 Hfl Ht0 Ht1 Hil8 Hilfl Hfit ltac:(lia) Hlast Htl).
    rewrite Hres in HD. injection HD as -> _. lia.
  - destruct Hcases as [[-> _] | (b0 & Hb0 & Hc)]; [left; reflexivity |].
    injection Hb0 as <-. cbv zeta in Hc. fold il_ in Hc.
    right. apply Hc.
Qed.

Lemma decodeHeader_accepts_iff_witness :
  (decodeHeader (SecurableFrameHeader_new junk_header) (Some vector1_frame) 9).1 <> 0.
Proof.
  apply (proj1 (decodeHeader_accepts_iff (SecurableFrameHeader_new junk_header)
                  vector1_frame 9 vector1_frame_u8)).
  vm_compute. repeat split; try discriminate; intros _; try reflexivity;
    split; discriminate.
Defined.

(** ** computeNonSecureCRC *)

(** X6 (computeNonSecureCRC: the error value and the range).  The result is
    0 exactly when the header is invalid or the buffer length is below the
    frame length; otherwise it lies in 1..0x80, so that the trailer byte of a
    non-secure frame is never 0x00 or 0xff; and it depends on the first [fl]
    bytes of the buffer only, not on the trailer or on what follows. *)
Theorem computeNonSecureCRC_zero_iff_error :
  forall h (b : list Z) buflen,
    (computeNonSecureCRC h b buflen = 0 <-> isInvalid h = true \/ buflen < fl h) /\
    0 <= computeNonSecureCRC h b buflen <= 0x80 /\
    (forall (b' : list Z) buflen',
       fl h <= buflen -> fl h <= buflen' ->
       take (Z.to_nat (fl h)) b' = take (Z.to_nat (fl h)) b ->
       computeNonSecureCRC h b' buflen' = computeNonSecureCRC h b buflen).
Proof.
  intros h b buflen.
  destruct (isInvalid h) eqn:Hinv.
  - unfold computeNonSecureCRC. rewrite Hinv.
    split; [split; auto |]. split; [lia | reflexivity].
  - destruct (Z.ltb_spec buflen (fl h)) as [Hlt | Hge].
    + assert (E : computeNonSecureCRC h b buflen = 0).
      { unfold computeNonSecureCRC. rewrite Hinv.
        destruct (Z.ltb_spec buflen (fl h)); [reflexivity | lia]. }
      rewrite E. split; [split; auto |]. split; [lia |].
      intros b' buflen' Hc. lia.
    + pose proof (computeNonSecureCRC_range h b buflen Hinv Hge) as Hr.
      split; [split |].
      * intros Hz. lia.
      * intros [Hc | Hc]; [discriminate | lia].
      * split; [lia |]. intros b' buflen' _ Hge' Htake.
        apply computeNonSecureCRC_ext; auto.
Qed.

(** ** encodeNonsecure and generateNonsecureBeacon: which calls succeed *)

Lemma encodeNonsecure_result fd seqNum id_ il :
  is_u8 il -> is_u8 (e_ptextbufSize fd) ->
  let res := encodeNonsecure fd seqNum id_ il in
  (encodeNonsecure_ok fd id_ il /\ res.1 = 5 + il + e_ptextbufSize fd /\
   fl (e_sfh res.2) = 4 + il + e_ptextbufSize fd) \/
  (~ encodeNonsecure_ok fd id_ il /\ res.1 = 0).
Proof.
  intros Hil Hbl res. subst res. unfold encodeNonsecure_ok, is_u8 in *.
  unfold encodeNonsecure.
  destruct (encodeHeader (e_sfh fd) (mkOTBuf (e_outbuf fd) (e_outbufSize fd)) false
              (e_fType fd) seqNum id_ il (e_ptextbufSize fd) 1)
    as [[hl sfh] b] eqn:Hhdr.
  pose proof (encodeHeader_cases (e_sfh fd)
                (mkOTBuf (e_outbuf fd) (e_outbufSize fd)) false (e_fType fd) seqNum
                id_ il (e_ptextbufSize fd) 1 hl sfh b
                ltac:(lia) ltac:(lia) ltac:(lia) Hhdr) as Hcases.
  pose proof (encodeHeader_accepts (e_sfh fd) (mkOTBuf (e_outbuf fd) (e_outbufSize fd))
                false (e_fType fd) seqNum id_ il (e_ptextbufSize fd) 1) as Hacc.
  rewrite Hhdr in Hacc. cbn [fst bufsize] in Hacc.
  unfold maxIDLength, maxSmallFrameSize, FTS_NONE, FTS_INVALID_HIGH in *.
  destruct Hcases as [[-> _] | (-> & H1 & H2 & H3 & H4 & H5 & H6 & _ & H8)].
  - cbn [Z.eqb fst]. right. split; [| reflexivity].
    intros (K1 & K2 & K3 & K4 & K5 & K6).
    specialize (Hacc K1 K2 ltac:(lia) K4 ltac:(lia) K5 eq_refl). lia.
  - cbv zeta in H8. destruct H8 as [-> _]. cbn [fl bufsize] in *.
    destruct (Z.eqb_spec 0 (4 + il)); [lia |].
    destruct (Z.geb_spec (3 + il + e_ptextbufSize fd + 1) (e_outbufSize fd)).
    + cbn [fst]. right. split; [| reflexivity]. intros (_ & _ & _ & _ & _ & K6). lia.
    + cbn [fst snd e_sfh fl]. left.
      rewrite wrap8_small by lia.
      repeat match goal with |- _ /\ _ => split end; try assumption; try lia.
      intros Hpos. destruct (H4 Hpos) as [src ->]. discriminate.
Qed.

(** X7 (encodeNonsecure: the calls that succeed, and the size).  On a
    non-NULL output buffer, [encodeNonsecure] returns a non-zero value exactly
    when the frame type is valid, the ID length is at most 8 with a non-NULL
    source when it is not 0, the body leaves room in a small frame and the
    output buffer size exceeds the frame length; the value is then
    [5 + il + bodylen], at most 64, one more than the frame length set in the
    header. *)
Theorem encodeNonsecure_succeeds_iff :
  forall fd seqNum id_ il out,
    is_u8 il -> is_u8 (e_ptextbufSize fd) ->
    e_outbuf fd = Some out -> (Z.to_nat (e_outbufSize fd) <= length out)%nat ->
    let res := encodeNonsecure fd seqNum id_ il in
    (res.1 <> 0 <->
       e_fType fd <> FTS_NONE /\ e_fType fd < FTS_INVALID_HIGH /\
       il <= maxIDLength /\ (0 < il -> id_ <> None) /\
       e_ptextbufSize fd <= maxSmallFrameSize - (4 + il) /\
       5 + il + e_ptextbufSize fd <= e_outbufSize fd) /\
    (res.1 <> 0 ->
       res.1 = 5 + il + e_ptextbufSize fd /\ res.1 <= 64 /\
       fl (e_sfh res.2) = res.1 - 1).
Proof.
  intros fd seqNum id_ il out Hil Hbl _ _ res.
  destruct (encodeNonsecure_result fd seqNum id_ il Hil Hbl)
    as [(Hok & Hr & Hfl) | (Hno & Hr)]; fold res in Hr; try fold res in Hfl.
  - unfold encodeNonsecure_ok, is_u8, maxSmallFrameSize in *.
    split; [split; [intros _; exact Hok | intros _; lia] |].
    intros _. rewrite Hr, Hfl. repeat split; lia.
  - split; [split; [intros Hne; contradiction | intros Hok; contradiction] |].
    intros Hne. contradiction.
Qed.

Lemma encodeNonsecure_succeeds_iff_witness :
  (encodeNonsecure vector1_encode_data 0 (Some [0x80; 0x81]) 2).1 = 5 + 2 + 2.
Proof.
  apply (proj2 (encodeNonsecure_succeeds_iff vector1_encode_data 0
                  (Some [0x80; 0x81]) 2 (replicate 63 0xAA)
                  ltac:(unfold is_u8; lia)
                  ltac:(unfold is_u8; vm_compute; split; [discriminate | reflexivity])
                  eq_refl ltac:(vm_compute; lia))).
  vm_compute. discriminate.
Defined.

(** X8 (generateNonsecureBeacon: result and bytes).  On a non-NULL buffer
    [generateNonsecureBeacon] returns [5 + il] when the ID length is at most
    8, the ID is given (or has length 0) and the buffer size is at least
    [5 + il], and 0 otherwise; on success the frame is the length byte
    [4 + il], the type byte 0x21 ('!', not secure), the sequence/ID length
    byte, the ID bytes, the body length 0 and a CRC byte in 1..0x80 that
    [computeNonSecureCRC] recomputes from those bytes; the rest of the buffer
    is left as it was. *)
Theorem generateNonsecureBeacon_result :
  forall (b : OTBuf_t) raw seqNum id_ il out,
    is_u8 il -> length (id raw) = 8%nat ->
    (Z.to_nat il <= length (orempty id_))%nat ->
    buf b = Some out -> (Z.to_nat (bufsize b) <= length out)%nat ->
    let res := generateNonsecureBeacon b raw seqNum id_ il in
    (res.1 <> 0 <->
       il <= maxIDLength /\ (0 < il -> id_ <> None) /\ 5 + il <= bufsize b) /\
    (res.1 <> 0 ->
       res.1 = 5 + il /\
       exists crc frame,
         frame = [4 + il; 0x21; seqIl_byte il seqNum] ++
                 take (Z.to_nat il) (orempty id_) ++ [0] ++
                 crc :: drop (5 + Z.to_nat il) out /\
         e_outbuf res.2 = Some frame /\
         1 <= crc <= 0x80 /\
         computeNonSecureCRC (e_sfh res.2) frame res.1 = crc).
Proof.
  intros b raw seqNum id_ il out Hil Hraw Hsrc Hbuf Hlen res.
  subst res. unfold generateNonsecureBeacon.
  set (fd := mkEnc None 0 0 (buf b) (bufsize b) FTS_ALIVE
               (SecurableFrameHeader_new raw)).
  assert (H0 : is_u8 (e_ptextbufSize fd)) by (unfold is_u8; cbn; lia).
  assert (HfT : is_u8 (e_fType fd))
    by (unfold is_u8; subst fd; cbn [e_fType]; unfold FTS_ALIVE; lia).
  split.
  - destruct (encodeNonsecure_result fd seqNum id_ il Hil H0)
      as [(Hok & Hr & _) | (Hno & Hr)].
    + unfold encodeNonsecure_ok, is_u8 in *. cbn [e_ptextbufSize e_outbufSize fd] in *.
      split; [intros _ | intros _; lia].
      destruct Hok as (_ & _ & K3 & K4 & _ & K6).
      repeat split; try assumption; lia.
    + split; [intros Hne; contradiction |].
      intros (K3 & K4 & K6). exfalso. apply Hno.
      unfold encodeNonsecure_ok, maxIDLength, maxSmallFrameSize, FTS_NONE,
        FTS_INVALID_HIGH in *.
      cbn [e_ptextbufSize e_outbufSize e_fType fd]. unfold FTS_ALIVE.
      repeat split; try assumption; try lia.
  - intros Hne.
    destruct (encodeNonsecure fd seqNum id_ il) as [r fd'] eqn:Henc.
    cbn [fst snd] in *.
    assert (Hidlen : length (id (e_sfh fd)) = 8%nat).
    { cbn [e_sfh fd]. unfold SecurableFrameHeader_new, set_id, set_fl. cbn [id].
      rewrite length_wr. exact Hraw. }
    destruct (encodeNonsecure_without_body_frame fd seqNum id_ il out r fd'
                HfT Hil eq_refl Hidlen Hsrc Hbuf Hlen Henc Hne)
      as (crc & frame & EF & Hout & -> & Hfl & _ & _ & _ & Hcrc & Hcrc').
    split; [reflexivity |].
    exists crc, frame. repeat split; try assumption; try lia.
    replace (5 + il) with (4 + il + 1) by lia. apply Hcrc'. exact Hfl.
Qed.

Lemma generateNonsecureBeacon_result_witness :
  (generateNonsecureBeacon (mkOTBuf (Some (replicate 64 0xAA)) 64) junk_header 4
     (Some (replicate 8 0)) 8).1 = 5 + 8.
Proof.
  apply (proj2 (generateNonsecureBeacon_result
                  (mkOTBuf (Some (replicate 64 0xAA)) 64) junk_header 4
                  (Some (replicate 8 0)) 8 (replicate 64 0xAA)
                  ltac:(unfold is_u8; lia) eq_refl ltac:(vm_compute; lia) eq_refl
                  ltac:(vm_compute; lia))).
  vm_compute. discriminate.
Defined.

(** ** Buffers: stores in the middle of a list *)

Lemma list_inserts_middle (k l : list Z) (i : nat) :
  (i + length k <= length l)%nat ->
  list_inserts i k l = take i l ++ k ++ drop (i + length k) l.
Proof.
  intros Hlen.
  rewrite <- (take_drop i l) at 1.
  replace i with (length (take i l) + 0)%nat at 1 by (rewrite length_take; lia).
  rewrite list_inserts_app_r. f_equal.
  rewrite <- (take_drop (length k) (drop i l)) at 1.
  rewrite list_inserts_0_r by (rewrite length_take, length_drop; lia).
  f_equal. rewrite drop_drop. reflexivity.
Qed.

Lemma memcpy_at_middle (b src : list Z) (i n : Z) :
  0 <= i -> 0 <= n -> (Z.to_nat n <= length src)%nat ->
  (Z.to_nat i + Z.to_nat n <= length b)%nat ->
  memcpy_at b i src n =
    take (Z.to_nat i) b ++ take (Z.to_nat n) src ++ drop (Z.to_nat i + Z.to_nat n) b.
Proof.
  intros Hi Hn Hsrc Hb. unfold memcpy_at.
  rewrite list_inserts_middle by (rewrite length_take; lia).
  rewrite length_take. do 3 f_equal. lia.
Qed.

Lemma memset_at_middle (b : list Z) (i v n : Z) :
  0 <= i -> 0 <= n -> (Z.to_nat i + Z.to_nat n <= length b)%nat ->
  memset_at b i v n =
    take (Z.to_nat i) b ++ replicate (Z.to_nat n) v ++ drop (Z.to_nat i + Z.to_nat n) b.
Proof.
  intros Hi Hn Hb. unfold memset_at.
  rewrite list_inserts_middle by (rewrite length_replicate; lia).
  rewrite length_replicate. reflexivity.
Qed.

Lemma wr_middle (b : list Z) (i v : Z) :
  0 <= i -> (Z.to_nat i < length b)%nat ->
  wr b i v = take (Z.to_nat i) b ++ [v] ++ drop (S (Z.to_nat i)) b.
Proof.
  intros Hi Hb. unfold wr. apply insert_take_drop. exact Hb.
Qed.

(** ** pad32BBuffer and unpad32BBuffer *)

Lemma pad32BBuffer_padded (b : list Z) datalen :
  (32 <= length b)%nat -> 0 <= datalen <= 31 ->
  let padded := take (Z.to_nat datalen) b ++
                replicate (Z.to_nat (31 - datalen)) 0 ++
                [31 - datalen] ++ drop 32 b in
  pad32BBuffer (Some b) datalen = (32, Some padded) /\
  length padded = length b /\ rd padded 31 = 31 - datalen.
Proof.
  intros Hlen Hd padded.
  assert (Hpad : pad32BBuffer (Some b) datalen = (32, Some padded)).
  { unfold pad32BBuffer, ENC_BODY_SMALL_FIXED_PTEXT_MAX_SIZE,
      ENC_BODY_SMALL_FIXED_CTEXT_SIZE.
    destruct (Z.gtb_spec datalen 31); [lia |].
    change (32 - 1) with 31. rewrite wrap8_small by lia.
    do 2 f_equal.
    rewrite (wr_middle b 31) by (try change (Z.to_nat 31) with 31%nat; lia).
    change (Z.to_nat 31) with 31%nat.
    rewrite memset_at_middle
      by (rewrite ?length_app, ?length_take, ?length_drop; cbn [length]; lia).
    subst padded.
    rewrite take_app_le by (rewrite length_take; lia).
    rewrite take_take. replace (Z.to_nat datalen `min` 31)%nat
      with (Z.to_nat datalen) by lia.
    do 2 f_equal.
    replace (Z.to_nat datalen + Z.to_nat (31 - datalen))%nat
      with (length (take 31 b) + 0)%nat by (rewrite length_take; lia).
    rewrite drop_app_add'; [reflexivity | reflexivity]. }
  assert (Hplen : length padded = length b).
  { subst padded. rewrite !length_app, length_take, length_replicate, length_drop.
    cbn [length]. lia. }
  split; [exact Hpad |]. split; [exact Hplen |].
  subst padded. unfold rd. change (Z.to_nat 31) with 31%nat.
  rewrite app_assoc.
  assert (E : ((take (Z.to_nat datalen) b ++ replicate (Z.to_nat (31 - datalen)) 0)
               ++ [31 - datalen] ++ drop 32 b) !! 31%nat = Some (31 - datalen))
    by (apply list_lookup_middle;
        rewrite length_app, length_take, length_replicate; lia).
  now rewrite E.
Qed.

(** X9 (padding round trip).  On a buffer of at least 32 bytes and a data
    length of at most 31, [pad32BBuffer] returns 32 and leaves the data
    bytes, then zeros up to byte 30, then the count of these zeros in byte
    31, the bytes after the 32nd as they were; [unpad32BBuffer] of the result
    is the data length.  With a NULL buffer or a data length above 31 it
    returns 0 and changes nothing. *)
Theorem unpad32BBuffer_inverts_pad32BBuffer :
  (forall (b : list Z) datalen,
     (32 <= length b)%nat -> 0 <= datalen <= 31 ->
     let padded := take (Z.to_nat datalen) b ++
                   replicate (Z.to_nat (31 - datalen)) 0 ++
                   [31 - datalen] ++ drop 32 b in
     pad32BBuffer (Some b) datalen = (32, Some padded) /\
     length padded = length b /\
     unpad32BBuffer padded = datalen) /\
  (forall (b : option (list Z)) datalen,
     b = None \/ 31 < datalen -> pad32BBuffer b datalen = (0, b)).
Proof.
  split.
  - intros b datalen Hlen Hd padded.
    destruct (pad32BBuffer_padded b datalen Hlen Hd) as (Hpad & Hplen & Hlast).
    fold padded in Hpad, Hplen, Hlast.
    split; [exact Hpad |]. split; [exact Hplen |].
    rewrite unpad32BBuffer_by_final_byte by (rewrite Hlast; lia).
    rewrite Hlast. destruct (Z.leb_spec (31 - datalen) 31); lia.
  - intros b datalen [-> | Hbig]; [reflexivity |].
    unfold pad32BBuffer, ENC_BODY_SMALL_FIXED_PTEXT_MAX_SIZE.
    destruct b as [b0 |]; [| reflexivity].
    destruct (Z.gtb_spec datalen 31); [reflexivity | lia].
Qed.

Lemma unpad32BBuffer_inverts_pad32BBuffer_witness :
  pad32BBuffer (Some (vector3_body ++ replicate 24 0xAA)) 8 =
    (32, Some (vector3_body ++ replicate 23 0 ++ [23])) /\
  unpad32BBuffer (vector3_body ++ replicate 23 0 ++ [23]) = 8.
Proof.
  destruct (proj1 unpad32BBuffer_inverts_pad32BBuffer
              (vector3_body ++ replicate 24 0xAA) 8
              ltac:(vm_compute; lia) ltac:(lia)) as (Hpad & _ & Hunpad).
  split; [exact Hpad | exact Hunpad].
Defined.

(** ** The NULL encryption pair *)

(** X10 (the NULL pair).  What [fixed32BTextSize12BNonce16BTagSimpleEnc_NULL_IMPL]
    produces from an IV of 12 bytes is a 16-byte tag and, for a plaintext,
    its first 32 bytes; [fixed32BTextSize12BNonce16BTagSimpleDec_NULL_IMPL]
    accepts it under the same IV, whatever the key and the authenticated
    text, and gives the 32 bytes back (or leaves the output as it was when
    there is no ciphertext); it refuses it under an IV whose first byte
    differs. *)
Theorem NULL_IMPL_decrypts_what_it_encrypts :
  forall ws ws' key key' (iv : list Z) authtext authtext' plaintext ct tag old,
    (12 <= length iv)%nat -> s_isnull ws' = false ->
    fixed32BTextSize12BNonce16BTagSimpleEnc_NULL_IMPL ws key iv authtext plaintext
      = Some (ct, tag) ->
    length tag = 16%nat /\
    ct = match plaintext with Some p => take 32 p | None => [] end /\
    fixed32BTextSize12BNonce16BTagSimpleDec_NULL_IMPL old ws' key' iv authtext'
      (option_map (fun _ => ct) plaintext) tag
      = Some (match plaintext with Some p => take 32 p | None => old end) /\
    (forall iv' ciphertext, rd iv' 0 <> rd iv 0 ->
       fixed32BTextSize12BNonce16BTagSimpleDec_NULL_IMPL old ws' key' iv' authtext'
         ciphertext tag = None).
Proof.
  intros ws ws' key key' iv authtext authtext' plaintext ct tag old Hiv Hws' Henc.
  unfold fixed32BTextSize12BNonce16BTagSimpleEnc_NULL_IMPL in Henc.
  destruct (s_isnull ws); [discriminate |].
  injection Henc as <- <-.
  assert (Hl : length (take 12 iv) = 12%nat) by (rewrite length_take; lia).
  destruct iv as [| i0 iv]; [discriminate Hl |].
  assert (Htag0 : rd (take 12 (i0 :: iv) ++ [0; 0; 0; 0]) 0 = i0) by reflexivity.
  assert (Htag15 : rd (take 12 (i0 :: iv) ++ [0; 0; 0; 0]) 15 = 0).
  { unfold rd. change (Z.to_nat 15) with 15%nat.
    rewrite lookup_app_r by (rewrite Hl; lia).
    rewrite Hl. reflexivity. }
  split; [rewrite length_app, Hl; reflexivity |].
  split; [reflexivity |].
  unfold fixed32BTextSize12BNonce16BTagSimpleDec_NULL_IMPL. rewrite Hws'.
  split.
  - rewrite Htag0, Htag15.
    change (rd (i0 :: iv) 0) with i0. rewrite Z.eqb_refl. cbn [negb orb Z.eqb].
    destruct plaintext as [p |]; cbn [option_map]; [| reflexivity].
    rewrite take_take. reflexivity.
  - intros iv' ciphertext Hne. rewrite Htag0.
    change (rd (i0 :: iv) 0) with i0 in Hne.
    destruct (Z.eqb_spec i0 (rd iv' 0)); [congruence | reflexivity].
Qed.

Lemma NULL_IMPL_decrypts_what_it_encrypts_witness :
  fixed32BTextSize12BNonce16BTagSimpleDec_NULL_IMPL (replicate 32 0)
    (mkScratch false 0) (replicate 16 1) vector3_iv []
    (option_map (fun _ => take 32 (vector3_body ++ replicate 24 0))
       (Some (vector3_body ++ replicate 24 0)))
    (take 12 vector3_iv ++ replicate 4 0)
  = Some (take 32 (vector3_body ++ replicate 24 0)).
Proof.
  apply (NULL_IMPL_decrypts_what_it_encrypts (mkScratch false 0) (mkScratch false 0)
           (replicate 16 0) (replicate 16 1) vector3_iv [] []
           (Some (vector3_body ++ replicate 24 0))
           (take 32 (vector3_body ++ replicate 24 0))
           (take 12 vector3_iv ++ replicate 4 0) (replicate 32 0)
           ltac:(vm_compute; lia) eq_refl eq_refl).
Defined.

(** ** msgcounteradd: the value after a successful call *)

(** X11 (msgcounteradd: when it fails).  On a 6-byte counter and a byte
    increment, [msgcounteradd] returns false exactly when the counter's
    big-endian value plus the increment would pass 2^48 - 1, and a call that
    returns false leaves every byte of the counter as it was. *)
Theorem msgcounteradd_fails_exactly_on_overflow :
  forall (c : list Z) (delta : Z),
    length c = 6%nat -> Forall is_u8 c -> is_u8 delta ->
    ((msgcounteradd c delta).1 = false <-> 2 ^ 48 <= be_value c + delta) /\
    ((msgcounteradd c delta).1 = false -> (msgcounteradd c delta).2 = c).
Proof.
  intros c delta Hlen Hu8 Hd.
  do 6 (destruct c as [| ? c]; [discriminate |]).
  destruct c; [| discriminate].
  repeat match goal with
         | H : Forall _ (_ :: _) |- _ => apply Forall_cons_1 in H; destruct H
         end.
  match goal with
  | |- context [msgcounteradd [?c0; ?c1; ?c2; ?c3; ?c4; ?c5] _] =>
      destruct (msgcounteradd_fails_iff_overflow c0 c1 c2 c3 c4 c5 delta)
        as [Hiff Hkeep]; try assumption
  end.
  cbv zeta in Hiff, Hkeep.
  split; [| exact Hkeep].
  rewrite Hiff. lia.
Qed.

Lemma msgcounteradd_fails_exactly_on_overflow_witness :
  (msgcounteradd (replicate 6 0xff) 1).1 = false /\
  (msgcounteradd (replicate 6 0xff) 1).2 = replicate 6 0xff.
Proof.
  destruct (msgcounteradd_fails_exactly_on_overflow (replicate 6 0xff) 1
              eq_refl
              ltac:(repeat constructor; unfold is_u8; lia)
              ltac:(unfold is_u8; lia)) as [Hiff Hkeep].
  assert (Hf : (msgcounteradd (replicate 6 0xff) 1).1 = false)
    by (apply Hiff; vm_compute; discriminate).
  split; [exact Hf | exact (Hkeep Hf)].
Defined.

(** X12 (msgcounteradd: the value after a successful call).  On a 6-byte
    counter, a call that reports success leaves six bytes whose big-endian
    value is the old value plus [delta], except when the carry out of the
    last byte has to pass bytes 4 to 1 (all 0xff): the first byte is never
    written, and the value is then the sum less 2^40. *)
Theorem msgcounteradd_value_after_success :
  forall c0 c1 c2 c3 c4 c5 delta,
    is_u8 c0 -> is_u8 c1 -> is_u8 c2 -> is_u8 c3 -> is_u8 c4 -> is_u8 c5 ->
    is_u8 delta ->
    let c := [c0; c1; c2; c3; c4; c5] in
    let res := msgcounteradd c delta in
    res.1 = true ->
    Forall is_u8 res.2 /\ length res.2 = 6%nat /\ rd res.2 0 = c0 /\
    be_value res.2 =
      be_value c + delta -
      (if (256 <=? c5 + delta) && (c1 =? 255) && (c2 =? 255) && (c3 =? 255)
          && (c4 =? 255)
       then 2 ^ 40 else 0).
Proof.
  unfold is_u8. intros c0 c1 c2 c3 c4 c5 delta H0 H1 H2 H3 H4 H5 Hd.
  cbv zeta. change (2 ^ 40) with 1099511627776.
  unfold msgcounteradd.
  change (rd [c0; c1; c2; c3; c4; c5] (fullMsgCtrBytes - 1)) with c5.
  assert (Hu8 : forall a b c d e f : Z,
            0 <= a < 256 -> 0 <= b < 256 -> 0 <= c < 256 -> 0 <= d < 256 ->
            0 <= e < 256 -> 0 <= f < 256 -> Forall is_u8 [a; b; c; d; e; f]).
  { intros. repeat constructor; unfold is_u8; lia. }
  destruct (Z.eqb_spec 0 delta) as [Hz | Hnz]; cbn [fst snd].
  { intros _. rewrite be_value_6.
    destruct (Z.leb_spec 256 (c5 + delta)); [lia |]. cbn [andb].
    repeat split; try lia. apply Hu8; assumption. }
  destruct (Z_lt_ge_dec (c5 + delta) 256) as [Hsmall | Hbig].
  { rewrite wrap8_small by lia.
    destruct (Z.gtb_spec (c5 + delta) c5); [| lia]. cbn [fst snd].
    intros _.
    change (wr [c0; c1; c2; c3; c4; c5] (fullMsgCtrBytes - 1) (c5 + delta))
      with [c0; c1; c2; c3; c4; c5 + delta].
    rewrite !be_value_6.
    destruct (Z.leb_spec 256 (c5 + delta)); [lia |]. cbn [andb].
    repeat split; try lia. apply Hu8; try assumption; lia. }
  assert (Hb : wrap8 (c5 + delta) = c5 + delta - 256).
  { unfold wrap8. symmetry. apply Z.mod_unique with (q := 1); lia. }
  rewrite Hb.
  destruct (Z.gtb_spec (c5 + delta - 256) c5); [lia |].
  destruct (Z.leb_spec 256 (c5 + delta)); [| lia]. cbn [andb].
  change (allFF_loop 6 0 [c0; c1; c2; c3; c4; c5]) with
    (if negb (255 =? c0) then false else
     if negb (255 =? c1) then false else
     if negb (255 =? c2) then false else
     if negb (255 =? c3) then false else
     if negb (255 =? c4) then false else true).
  set (b := c5 + delta - 256).
  change (ripple_loop 6 (fullMsgCtrBytes - 1)
            (wr [c0; c1; c2; c3; c4; c5] (fullMsgCtrBytes - 1) b)) with
    (if negb (0 =? wrap8 (c4 + 1)) then [c0; c1; c2; c3; wrap8 (c4 + 1); b] else
     if negb (0 =? wrap8 (c3 + 1))
     then [c0; c1; c2; wrap8 (c3 + 1); wrap8 (c4 + 1); b] else
     if negb (0 =? wrap8 (c2 + 1))
     then [c0; c1; wrap8 (c2 + 1); wrap8 (c3 + 1); wrap8 (c4 + 1); b] else
     if negb (0 =? wrap8 (c1 + 1))
     then [c0; wrap8 (c1 + 1); wrap8 (c2 + 1); wrap8 (c3 + 1); wrap8 (c4 + 1); b]
     else [c0; wrap8 (c1 + 1); wrap8 (c2 + 1); wrap8 (c3 + 1); wrap8 (c4 + 1); b]).
  assert (Hw : forall x, 0 <= x < 256 ->
            wrap8 (x + 1) = if x =? 255 then 0 else x + 1).
  { intros x Hx. destruct (Z.eqb_spec x 255) as [-> | Hne]; [reflexivity |].
    apply wrap8_small. lia. }
  rewrite (Hw c1 H1), (Hw c2 H2), (Hw c3 H3), (Hw c4 H4).
  assert (Hbr : 0 <= b < 256) by (subst b; lia).
  destruct (Z.eqb_spec c4 255) as [E4 | E4];
    [destruct (Z.eqb_spec c3 255) as [E3 | E3];
     [destruct (Z.eqb_spec c2 255) as [E2 | E2];
      [destruct (Z.eqb_spec c1 255) as [E1 | E1] | ] | ] | ].
  all: repeat match goal with
       | |- context [0 =? ?x + 1] => destruct (Z.eqb_spec 0 (x + 1)); [lia |]
       | |- context [255 =? ?x] => destruct (Z.eqb_spec 255 x); try lia
       end.
  all: repeat match goal with
       | |- context [?x =? 255] => destruct (Z.eqb_spec x 255)
       end.
  all: cbn [negb andb Z.eqb fst snd].
  all: try discriminate.
  all: intros _; rewrite !be_value_6; subst b.
  all: repeat split; try lia; try reflexivity.
  all: apply Hu8; lia.
Qed.

Lemma msgcounteradd_value_after_success_witness :
  be_value (msgcounteradd [0; 0; 0x83; 0; 0; 1] 255).2 =
    be_value [0; 0; 0x83; 0; 0; 1] + 255 - 0.
Proof.
  apply (msgcounteradd_value_after_success 0 0 0x83 0 0 1 255
           ltac:(unfold is_u8; lia) ltac:(unfold is_u8; lia) ltac:(unfold is_u8; lia)
           ltac:(unfold is_u8; lia) ltac:(unfold is_u8; lia) ltac:(unfold is_u8; lia)
           ltac:(unfold is_u8; lia) eq_refl).
Defined.

(** ** encodeRaw: the secure frame on the wire *)

Lemma memcpy_at_app_r (A rest src : list Z) (j n : Z) :
  0 <= j ->
  memcpy_at (A ++ rest) (Z.of_nat (length A) + j) src n = A ++ memcpy_at rest j src n.
Proof.
  intros Hj. unfold memcpy_at.
  replace (Z.to_nat (Z.of_nat (length A) + j)) with (length A + Z.to_nat j)%nat by lia.
  apply list_inserts_app_r.
Qed.

Lemma wr_app_r (A rest : list Z) (j v : Z) :
  0 <= j -> wr (A ++ rest) (Z.of_nat (length A) + j) v = A ++ wr rest j v.
Proof.
  intros Hj. unfold wr.
  replace (Z.to_nat (Z.of_nat (length A) + j)) with (length A + Z.to_nat j)%nat by lia.
  apply insert_app_r.
Qed.

Lemma memcpy_at_0 (b src : list Z) (n : Z) :
  0 <= n -> (Z.to_nat n <= length src)%nat -> (Z.to_nat n <= length b)%nat ->
  memcpy_at b 0 src n = take (Z.to_nat n) src ++ drop (Z.to_nat n) b.
Proof.
  intros Hn Hsrc Hb.
  rewrite memcpy_at_middle by (try change (Z.to_nat 0) with 0%nat; lia).
  reflexivity.
Qed.

(** The three stores that complete a secure frame after the body: the tag,
    the six counter bytes before it and the final 0x80. *)
Lemma secure_trailer_writes (P rest ctr tag : list Z) (fl_ : Z) :
  fl_ = Z.of_nat (length P) + 22 ->
  (6 <= length ctr)%nat -> (16 <= length tag)%nat -> (23 <= length rest)%nat ->
  wr (memcpy_at (memcpy_at (P ++ rest) (fl_ - 16) tag 16) (fl_ - 22) ctr 6) fl_ 0x80
  = P ++ take 6 ctr ++ take 16 tag ++ [0x80] ++ drop 23 rest.
Proof.
  intros -> Hctr Htag Hrest.
  replace (Z.of_nat (length P) + 22 - 16) with (Z.of_nat (length P) + 6) by lia.
  replace (Z.of_nat (length P) + 22 - 22) with (Z.of_nat (length P) + 0) by lia.
  rewrite !memcpy_at_app_r, wr_app_r by lia. f_equal.
  rewrite (memcpy_at_middle rest tag 6 16)
    by (try change (Z.to_nat 6) with 6%nat; try change (Z.to_nat 16) with 16%nat; lia).
  change (Z.to_nat 6) with 6%nat. change (Z.to_nat 16) with 16%nat.
  change (6 + 16)%nat with 22%nat.
  rewrite memcpy_at_0
    by (try change (Z.to_nat 6) with 6%nat;
        rewrite ?length_app, ?length_take, ?length_drop; lia).
  change (Z.to_nat 6) with 6%nat.
  replace (drop 6 (take 6 rest ++ take 16 tag ++ drop 22 rest))
    with (take 16 tag ++ drop 22 rest).
  2:{ replace 6%nat with (length (take 6 rest)) at 3 by (rewrite length_take; lia).
      rewrite drop_app_length. reflexivity. }
  rewrite (app_assoc (take 6 ctr)).
  replace 22 with (Z.of_nat (length (take 6 ctr ++ take 16 tag)) + 0)
    by (rewrite length_app, !length_take; lia).
  rewrite wr_app_r by lia. rewrite <- app_assoc. do 2 f_equal.
  rewrite (wr_middle (drop 22 rest) 0)
    by (try change (Z.to_nat 0) with 0%nat; rewrite ?length_drop; lia).
  change (Z.to_nat 0) with 0%nat. rewrite take_0, drop_drop. reflexivity.
Qed.

Lemma encodeRaw_inv fd id_ il_ iv e scratch key r fd' :
  encodeRaw fd id_ il_ iv e scratch key = (r, fd') ->
  r <> 0 ->
  let bodylen := e_ptextLen fd in
  let ebl := if 0 =? bodylen then 0 else 32 in
  let padded := if negb (0 =? bodylen) then pad32BBuffer (e_ptext fd) bodylen
                else (32, e_ptext fd) in
  exists k hl sfh b ct tag,
    key = Some k /\ bodylen <= 31 /\
    encodeHeader (e_sfh fd) (mkOTBuf (e_outbuf fd) (e_outbufSize fd)) true
      (e_fType fd) (Z.land (rd iv 11) 0xf) id_ il_ ebl 23 = (hl, sfh, b) /\
    hl <> 0 /\ fl sfh < e_outbufSize fd /\ padded.1 <> 0 /\
    e scratch k iv (take (Z.to_nat hl) (orempty (buf b)))
      (if 0 =? bodylen then None else padded.2) = Some (ct, tag) /\
    r = wrap8 (fl sfh + 1) /\
    fd' = mkEnc padded.2 (e_ptextbufSize fd) (e_ptextLen fd)
            (Some (wr (memcpy_at
                         (memcpy_at
                            (memcpy_at (orempty (buf b)) hl ct (Z.of_nat (length ct)))
                            (fl sfh - 16) tag 16)
                         (fl sfh - 22) (drop 6 iv) 6)
                     (fl sfh) 0x80))
            (e_outbufSize fd) (e_fType fd) sfh.
Proof.
  intros Henc Hr. cbv zeta. unfold encodeRaw in Henc.
  destruct key as [k |]; [| injection Henc as <- <-; contradiction].
  unfold ENC_BODY_SMALL_FIXED_PTEXT_MAX_SIZE, ENC_BODY_SMALL_FIXED_CTEXT_SIZE in *.
  destruct (e_ptextLen fd >? 31) eqn:Hlen31; [injection Henc as <- <-; contradiction |].
  destruct (encodeHeader (e_sfh fd) (mkOTBuf (e_outbuf fd) (e_outbufSize fd)) true
              (e_fType fd) (Z.land (rd iv 11) 15) id_ il_
              (if 0 =? e_ptextLen fd then 0 else 32) 23)
    as [[hl sfh] b] eqn:Hhdr.
  destruct (0 =? hl) eqn:Hhl; [injection Henc as <- <-; contradiction |].
  destruct (fl sfh >=? e_outbufSize fd) eqn:Hfits;
    [injection Henc as <- <-; contradiction |].
  match type of Henc with
  | context [if 0 =? ?p.1 then _ else _] => destruct (0 =? p.1) eqn:Hpad
  end; [injection Henc as <- <-; contradiction |].
  match type of Henc with
  | context [match ?c with Some _ => _ | None => _ end] =>
      destruct c as [[ct tag] |] eqn:He
  end; [| injection Henc as <- <-; contradiction].
  injection Henc as <- <-.
  bool_to_prop.
  exists k, hl, sfh, b, ct, tag.
  repeat match goal with |- _ /\ _ => split end;
    try reflexivity; try assumption; try lia; try congruence.
Qed.

(** What [encodeRaw] does when it succeeds, with the header encoder's part
    made explicit. *)
Lemma encodeRaw_success_parts fd id_ il_ iv e scratch key out r fd' :
  is_u8 (e_fType fd) -> is_u8 il_ ->
  length (id (e_sfh fd)) = 8%nat ->
  (Z.to_nat il_ <= length (orempty id_))%nat ->
  e_outbuf fd = Some out -> (Z.to_nat (e_outbufSize fd) <= length out)%nat ->
  encodeRaw fd id_ il_ iv e scratch key = (r, fd') ->
  r <> 0 ->
  let bodylen := e_ptextLen fd in
  let ebl := if 0 =? bodylen then 0 else 32 in
  let padded := if negb (0 =? bodylen) then pad32BBuffer (e_ptext fd) bodylen
                else (32, e_ptext fd) in
  let hdr := [26 + il_ + ebl; type_byte true (e_fType fd);
              seqIl_byte il_ (Z.land (rd iv 11) 0xf)] ++
             take (Z.to_nat il_) (orempty id_) ++ [ebl] in
  exists k ct tag,
    key = Some k /\ bodylen <= 31 /\ padded.1 <> 0 /\
    il_ <= 8 /\ il_ <= 37 - ebl /\ 27 + il_ + ebl <= e_outbufSize fd /\
    e_fType fd <> FTS_NONE /\ e_fType fd < FTS_INVALID_HIGH /\
    length hdr = Z.to_nat (4 + il_) /\
    e scratch k iv hdr (if 0 =? bodylen then None else padded.2) = Some (ct, tag) /\
    r = 27 + il_ + ebl /\
    e_ptext fd' = padded.2 /\
    fl (e_sfh fd') = 26 + il_ + ebl /\
    e_outbuf fd' =
      Some (wr (memcpy_at
                  (memcpy_at
                     (memcpy_at (hdr ++ drop (Z.to_nat (4 + il_)) out) (4 + il_) ct
                        (Z.of_nat (length ct)))
                     (26 + il_ + ebl - 16) tag 16)
                  (26 + il_ + ebl - 22) (drop 6 iv) 6)
              (26 + il_ + ebl) 0x80).
Proof.
  intros HfT Hil Hidlen Hsrc Hout Hlen Henc Hr.
  destruct (encodeRaw_inv fd id_ il_ iv e scratch key r fd' Henc Hr)
    as (k & hl & sfh & b & ct & tag & -> & Hlen31 & Hhdr & Hhl & Hfits & Hpad & He
        & -> & ->).
  cbv zeta. rewrite Hout in Hhdr.
  set (ebl := if 0 =? e_ptextLen fd then 0 else 32) in *.
  assert (Hebl : is_u8 ebl)
    by (subst ebl; unfold is_u8; destruct (0 =? e_ptextLen fd); lia).
  assert (Hebl' : ebl = 0 \/ ebl = 32)
    by (subst ebl; destruct (0 =? e_ptextLen fd); auto).
  assert (H23 : is_u8 23) by (unfold is_u8; lia).
  destruct (encodeHeader_buffer _ _ _ _ _ _ _ _ _ _ _ _ _ Hil Hebl H23 Hidlen Hsrc
              Hlen Hhdr Hhl) as [_ Hb].
  unfold is_u8 in *.
  destruct (encodeHeader_cases (e_sfh fd) (mkOTBuf (Some out) (e_outbufSize fd))
              true (e_fType fd) (Z.land (rd iv 11) 15) id_ il_ ebl 23 hl sfh b
              ltac:(lia) ltac:(lia) ltac:(lia) Hhdr)
    as [[-> _] | (-> & HfT0 & HfT1 & Hil8 & _ & Hfit & Hbl & Htl & Hh)];
    [contradiction |].
  cbv zeta in Hh. destruct Hh as [Hsfh _].
  assert (Hfl : fl sfh = 26 + il_ + ebl) by (rewrite Hsfh; cbn [fl]; lia).
  unfold maxIDLength, maxSmallFrameSize in *. cbn [bufsize] in *.
  rewrite Hfl in *. rewrite Hb in *. cbn [orempty default Datatypes.id] in *.
  replace (3 + il_ + ebl + 23) with (26 + il_ + ebl) in * by lia.
  set (hdr := [26 + il_ + ebl; type_byte true (e_fType fd);
               seqIl_byte il_ (Z.land (rd iv 11) 15)] ++
              take (Z.to_nat il_) (orempty id_) ++ [ebl]).
  assert (Hhdrlen : length hdr = Z.to_nat (4 + il_)).
  { subst hdr. rewrite !length_app, length_take. cbn [length]. lia. }
  assert (Hbuf : [26 + il_ + ebl; type_byte true (e_fType fd);
                  seqIl_byte il_ (Z.land (rd iv 11) 15)] ++
                 take (Z.to_nat il_) (orempty id_) ++ [ebl] ++
                 drop (Z.to_nat (4 + il_)) out
                 = hdr ++ drop (Z.to_nat (4 + il_)) out).
  { subst hdr. rewrite <- !app_assoc. reflexivity. }
  unfold Datatypes.id in He. rewrite Hbuf in *.
  assert (Htake : take (Z.to_nat (4 + il_)) (hdr ++ drop (Z.to_nat (4 + il_)) out) = hdr).
  { rewrite <- Hhdrlen. apply take_app_length. }
  rewrite Htake in He.
  exists k, ct, tag.
  rewrite wrap8_small by lia.
  repeat match goal with |- _ /\ _ => split end;
    try reflexivity; try assumption; try lia.
Qed.

(** The stores of [encodeRaw] after the header, put together. *)
Lemma secure_frame_writes (hdr out ct tag iv : list Z) (il_ ebl : Z) :
  0 <= il_ -> 0 <= ebl ->
  length hdr = Z.to_nat (4 + il_) ->
  length ct = Z.to_nat ebl -> (16 <= length tag)%nat -> (12 <= length iv)%nat ->
  (Z.to_nat (27 + il_ + ebl) <= length out)%nat ->
  wr (memcpy_at
        (memcpy_at
           (memcpy_at (hdr ++ drop (Z.to_nat (4 + il_)) out) (4 + il_) ct
              (Z.of_nat (length ct)))
           (26 + il_ + ebl - 16) tag 16)
        (26 + il_ + ebl - 22) (drop 6 iv) 6)
     (26 + il_ + ebl) 0x80
  = hdr ++ ct ++ take 6 (drop 6 iv) ++ take 16 tag ++ [0x80] ++
    drop (Z.to_nat (27 + il_ + ebl)) out.
Proof.
  intros Hil Hebl Hhdrlen Hct Htag Hiv Hout.
  set (R0 := drop (Z.to_nat (4 + il_)) out).
  assert (HR0 : (23 + Z.to_nat ebl <= length R0)%nat)
    by (subst R0; rewrite length_drop; lia).
  assert (E1 : memcpy_at (hdr ++ R0) (4 + il_) ct (Z.of_nat (length ct))
               = (hdr ++ ct) ++ drop (length ct) R0).
  { replace (4 + il_) with (Z.of_nat (length hdr) + 0) by lia.
    rewrite memcpy_at_app_r by lia.
    rewrite memcpy_at_0 by lia.
    rewrite Nat2Z.id, firstn_all. apply app_assoc. }
  rewrite E1.
  rewrite secure_trailer_writes;
    [ | rewrite length_app; lia | rewrite length_drop; lia | lia
      | rewrite length_drop; lia ].
  rewrite <- !app_assoc. do 5 f_equal.
  subst R0. rewrite !drop_drop. f_equal. lia.
Qed.

(** X13 (encodeRaw: the secure frame on the wire).  Where [encodeRaw]
    succeeds, the encryption function was given the header bytes as written
    (frame length [26 + il + bl], type byte with the secure bit, sequence/ID
    length byte with the 4 low bits of IV byte 11, ID bytes, body length
    [bl] = 0 or 32) as the authenticated text; and once it has produced [bl]
    bytes of ciphertext and a tag of 16 bytes, the frame is: header,
    ciphertext, bytes 6 to 11 of the IV, the tag and a final 0x80, that is
    [27 + il + bl] bytes, the rest of the buffer being left as it was. *)
Theorem encodeRaw_frame_layout :
  forall fd id_ il_ iv e scratch key out r fd',
    is_u8 (e_fType fd) -> is_u8 il_ -> (12 <= length iv)%nat ->
    length (id (e_sfh fd)) = 8%nat ->
    (Z.to_nat il_ <= length (orempty id_))%nat ->
    e_outbuf fd = Some out -> (Z.to_nat (e_outbufSize fd) <= length out)%nat ->
    encodeRaw fd id_ il_ iv e scratch key = (r, fd') ->
    r <> 0 ->
    let ebl := if 0 =? e_ptextLen fd then 0 else 32 in
    let hdr := [26 + il_ + ebl; type_byte true (e_fType fd);
                seqIl_byte il_ (Z.land (rd iv 11) 0xf)] ++
               take (Z.to_nat il_) (orempty id_) ++ [ebl] in
    exists k ct tag,
      key = Some k /\
      e scratch k iv hdr (if 0 =? e_ptextLen fd then None else e_ptext fd')
        = Some (ct, tag) /\
      r = 27 + il_ + ebl /\ fl (e_sfh fd') = 26 + il_ + ebl /\
      (length ct = Z.to_nat ebl -> (16 <= length tag)%nat ->
       e_outbuf fd' =
         Some (hdr ++ ct ++ take 6 (drop 6 iv) ++ take 16 tag ++ [0x80] ++
               drop (Z.to_nat (27 + il_ + ebl)) out)).
Proof.
  intros fd id_ il_ iv e scratch key out r fd' HfT Hil Hiv Hidlen Hsrc Hout Hlen
         Henc Hr ebl hdr.
  destruct (encodeRaw_success_parts fd id_ il_ iv e scratch key out r fd'
              HfT Hil Hidlen Hsrc Hout Hlen Henc Hr)
    as (k & ct & tag & -> & Hlen31 & Hpad & _ & Hilmax & Hsize & _ & _ & Hhdrlen
        & He & -> & Hpt & Hfl & Hbuf).
  cbv zeta in *. fold ebl in Hilmax, Hsize, Hhdrlen, He, Hfl, Hbuf |- *.
  fold hdr in Hhdrlen, He, Hbuf.
  assert (Hebl' : ebl = 0 \/ ebl = 32)
    by (subst ebl; destruct (0 =? e_ptextLen fd); auto).
  unfold is_u8 in *.
  exists k, ct, tag. rewrite Hpt.
  split; [reflexivity |]. split; [exact He |].
  split; [reflexivity |]. split; [exact Hfl |].
  intros Hct Htag. rewrite Hbuf. f_equal.
  apply secure_frame_writes; try assumption; lia.
Qed.

Lemma encodeRaw_frame_layout_witness :
  let enc := encodeRaw vector3_encode_data (Some [0xaa; 0xaa; 0xaa; 0xaa]) 4
               vector3_iv fixed32BTextSize12BNonce16BTagSimpleEnc_NULL_IMPL
               (mkScratch false 272) (Some (replicate 16 0)) in
  enc.1 = 27 + 4 + 32 /\
  e_outbuf enc.2 =
    Some (([0x3e; 0xcf; 0x94] ++ [0xaa; 0xaa; 0xaa; 0xaa] ++ [0x20]) ++
          (vector3_body ++ replicate 23 0 ++ [23]) ++
          [0x00; 0x00; 0x2a; 0x00; 0x03; 0x19] ++
          (take 12 vector3_iv ++ replicate 4 0) ++ [0x80]).
Proof.
  destruct (encodeRaw_frame_layout vector3_encode_data (Some [0xaa; 0xaa; 0xaa; 0xaa])
              4 vector3_iv fixed32BTextSize12BNonce16BTagSimpleEnc_NULL_IMPL
              (mkScratch false 272) (Some (replicate 16 0)) (replicate 63 0)
              (encodeRaw vector3_encode_data (Some [0xaa; 0xaa; 0xaa; 0xaa]) 4
                 vector3_iv fixed32BTextSize12BNonce16BTagSimpleEnc_NULL_IMPL
                 (mkScratch false 272) (Some (replicate 16 0))).1
              (encodeRaw vector3_encode_data (Some [0xaa; 0xaa; 0xaa; 0xaa]) 4
                 vector3_iv fixed32BTextSize12BNonce16BTagSimpleEnc_NULL_IMPL
                 (mkScratch false 272) (Some (replicate 16 0))).2
              ltac:(unfold is_u8; vm_compute; split; [discriminate | reflexivity])
              ltac:(unfold is_u8; lia) ltac:(vm_compute; lia) eq_refl
              ltac:(vm_compute; lia) eq_refl ltac:(vm_compute; lia) eq_refl
              ltac:(vm_compute; discriminate))
    as (k & ct & tag & _ & He & Hr & _ & Hout).
  vm_compute in He. injection He as <- <-.
  split; [exact Hr |].
  rewrite (Hout eq_refl ltac:(vm_compute; lia)). reflexivity.
Defined.

(** X14 (encodeRaw: sizes and the ID limit).  A call of [encodeRaw] that
    succeeds had a key, a body of at most 31 bytes (and a non-NULL plaintext
    buffer when the body is not empty) and an output buffer size of at least
    the value returned, which is [27 + il] for a frame without body, with
    [il] up to 8, and [59 + il] for a frame with a body, with [il] up to 5
    only: the value returned is never above 64. *)
Theorem encodeRaw_size_and_id_limit :
  forall fd id_ il_ iv e scratch key out r fd',
    is_u8 (e_fType fd) -> is_u8 il_ ->
    length (id (e_sfh fd)) = 8%nat ->
    (Z.to_nat il_ <= length (orempty id_))%nat ->
    e_outbuf fd = Some out -> (Z.to_nat (e_outbufSize fd) <= length out)%nat ->
    encodeRaw fd id_ il_ iv e scratch key = (r, fd') ->
    r <> 0 ->
    key <> None /\ e_ptextLen fd <= 31 /\ r <= e_outbufSize fd /\ r <= 64 /\
    (e_ptextLen fd = 0 -> r = 27 + il_ /\ il_ <= 8) /\
    (e_ptextLen fd <> 0 -> r = 59 + il_ /\ il_ <= 5 /\ e_ptext fd <> None).
Proof.
  intros fd id_ il_ iv e scratch key out r fd' HfT Hil Hidlen Hsrc Hout Hlen Henc Hr.
  destruct (encodeRaw_success_parts fd id_ il_ iv e scratch key out r fd'
              HfT Hil Hidlen Hsrc Hout Hlen Henc Hr)
    as (k & ct & tag & -> & Hlen31 & Hpad & Hil8 & Hilmax & Hsize & _ & _ & _ & _
        & -> & _).
  cbv zeta in *. unfold is_u8 in *.
  destruct (Z.eqb_spec 0 (e_ptextLen fd)) as [Hz | Hnz]; cbn [negb] in *.
  - split; [discriminate |]. do 3 (split; [lia |]).
    split; [intros _; lia | intros Hne; lia].
  - split; [discriminate |]. do 3 (split; [lia |]).
    split; [intros Hz; lia |]. intros _. do 2 (split; [lia |]).
    intros Hnone. rewrite Hnone in Hpad. apply Hpad. reflexivity.
Qed.

Lemma encodeRaw_size_and_id_limit_witness :
  beacon_frame.1 <= 64 /\ (0 = 0 -> beacon_frame.1 = 27 + 2 /\ 2 <= 8).
Proof.
  destruct (encodeRaw_size_and_id_limit beacon_encode_data (Some [0xaa; 0xaa]) 2
              vector3_iv fixed32BTextSize12BNonce16BTagSimpleEnc_NULL_IMPL
              (mkScratch false 272) (Some (replicate 16 0)) (replicate 64 0)
              beacon_frame.1 beacon_frame.2
              ltac:(unfold is_u8; vm_compute; split; [discriminate | reflexivity])
              ltac:(unfold is_u8; lia) eq_refl ltac:(vm_compute; lia) eq_refl
              ltac:(vm_compute; lia) eq_refl ltac:(vm_compute; discriminate))
    as (_ & _ & _ & H64 & Hnobody & _).
  split; [exact H64 | exact Hnobody].
Defined.

(** X15 (encodeRaw pads the plaintext in place).  Where [encodeRaw] succeeds
    on a body of [n] > 0 bytes held in a buffer of at least 32 bytes, the
    caller's plaintext buffer afterwards holds the [n] data bytes, zeros up
    to byte 30 and the count [31 - n] in byte 31, from which
    [unpad32BBuffer] gives back [n]; with an empty body the plaintext buffer
    is left as it was. *)
Theorem encodeRaw_pads_plaintext_in_place :
  forall fd id_ il_ iv e scratch key r fd',
    encodeRaw fd id_ il_ iv e scratch key = (r, fd') ->
    r <> 0 ->
    (e_ptextLen fd = 0 -> e_ptext fd' = e_ptext fd) /\
    (forall p, 0 < e_ptextLen fd -> e_ptext fd = Some p -> (32 <= length p)%nat ->
       let padded := take (Z.to_nat (e_ptextLen fd)) p ++
                     replicate (Z.to_nat (31 - e_ptextLen fd)) 0 ++
                     [31 - e_ptextLen fd] ++ drop 32 p in
       e_ptext fd' = Some padded /\ unpad32BBuffer padded = e_ptextLen fd).
Proof.
  intros fd id_ il_ iv e scratch key r fd' Henc Hr.
  destruct (encodeRaw_inv fd id_ il_ iv e scratch key r fd' Henc Hr)
    as (k & hl & sfh & b & ct & tag & _ & Hlen31 & _ & _ & _ & _ & _ & _ & ->).
  cbn [e_ptext]. split.
  - intros ->. reflexivity.
  - intros p Hpos Hp Hlen.
    destruct (Z.eqb_spec 0 (e_ptextLen fd)); [lia |]. cbn [negb].
    destruct (pad32BBuffer_padded p (e_ptextLen fd) Hlen ltac:(lia))
      as (Hpad & _ & Hlast).
    cbv zeta in Hpad, Hlast. rewrite Hp, Hpad. cbn [snd].
    split; [reflexivity |].
    rewrite unpad32BBuffer_by_final_byte by (rewrite Hlast; lia).
    rewrite Hlast. destruct (Z.leb_spec (31 - e_ptextLen fd) 31); lia.
Qed.

Lemma encodeRaw_pads_plaintext_in_place_witness :
  let enc := encodeRaw vector3_encode_data (Some [0xaa; 0xaa; 0xaa; 0xaa]) 4
               vector3_iv fixed32BTextSize12BNonce16BTagSimpleEnc_NULL_IMPL
               (mkScratch false 272) (Some (replicate 16 0)) in
  e_ptext enc.2 = Some (vector3_body ++ replicate 23 0 ++ [23]) /\
  unpad32BBuffer (vector3_body ++ replicate 23 0 ++ [23]) = 8.
Proof.
  apply (proj2 (encodeRaw_pads_plaintext_in_place vector3_encode_data
                  (Some [0xaa; 0xaa; 0xaa; 0xaa]) 4 vector3_iv
                  fixed32BTextSize12BNonce16BTagSimpleEnc_NULL_IMPL
                  (mkScratch false 272) (Some (replicate 16 0))
                  (encodeRaw vector3_encode_data (Some [0xaa; 0xaa; 0xaa; 0xaa]) 4
                     vector3_iv fixed32BTextSize12BNonce16BTagSimpleEnc_NULL_IMPL
                     (mkScratch false 272) (Some (replicate 16 0))).1
                  (encodeRaw vector3_encode_data (Some [0xaa; 0xaa; 0xaa; 0xaa]) 4
                     vector3_iv fixed32BTextSize12BNonce16BTagSimpleEnc_NULL_IMPL
                     (mkScratch false 272) (Some (replicate 16 0))).2
                  eq_refl ltac:(vm_compute; discriminate))
               (vector3_body ++ replicate 24 0) eq_refl eq_refl
               ltac:(vm_compute; lia)).
Defined.

(** ** The secure round trip of a frame without body *)

Lemma land_15_idem x : Z.land (Z.land x 0xf) 0xf = Z.land x 0xf.
Proof.
  change 0xf with (Z.ones 4). rewrite <- Z.land_assoc.
  change (Z.land (Z.ones 4) (Z.ones 4)) with (Z.ones 4). reflexivity.
Qed.

(** X16 (the secure round trip of a frame without body).  Take an encryption
    function that, for an empty body, produces no ciphertext and a 16-byte
    tag, and a decryption function that accepts this tag under the same key,
    IV and authenticated text.  Where [encodeRaw] succeeds on an empty body,
    [decodeHeader] accepts the [r] bytes written and recovers the frame type
    (secure), the ID prefix and the sequence number, and [decodeRaw] with the
    same key and IV returns the same [r] and a body length of 0. *)
Theorem secure_roundtrip_without_body :
  forall usage fd id_ il_ iv (e : Enc_fn) (d : Dec_fn) scratchTX scratchRX key out
         r fd' h0 ptext maxlen len idd,
    is_u8 (e_fType fd) -> is_u8 il_ -> (12 <= length iv)%nat ->
    length (id (e_sfh fd)) = 8%nat -> length (id h0) = 8%nat ->
    (Z.to_nat il_ <= length (orempty id_))%nat ->
    e_outbuf fd = Some out -> (Z.to_nat (e_outbufSize fd) <= length out)%nat ->
    e_ptextLen fd = 0 ->
    usage <= s_bufsize scratchRX ->
    (forall k auth ct tag,
       key = Some k -> e scratchTX k iv auth None = Some (ct, tag) ->
       ct = [] /\ length tag = 16%nat /\
       d (subScratchSpace scratchRX usage) k iv auth None tag <> None) ->
    encodeRaw fd id_ il_ iv e scratchTX key = (r, fd') ->
    r <> 0 ->
    let dh := decodeHeader h0 (e_outbuf fd') r in
    let dec := decodeRaw usage (mkDec (e_outbuf fd') r ptext maxlen len dh.2 idd)
                 d scratchRX key (Some iv) in
    dh.1 = 4 + il_ /\
    isSecure dh.2 = true /\ Z.land (fType dh.2) 0x7f = e_fType fd /\
    getSeq dh.2 = Z.land (rd iv 11) 0xf /\ getIl dh.2 = il_ /\
    take (Z.to_nat il_) (id dh.2) = take (Z.to_nat il_) (orempty id_) /\
    bl dh.2 = 0 /\
    dec.1.1 = r /\ d_ptextLen dec.1.2 = 0.
Proof.
  intros usage fd id_ il_ iv e d scratchTX scratchRX key out r fd' h0 ptext maxlen
         len idd HfT Hil Hiv Hidlen Hid0 Hsrc Hout Hlen Hbody Husage Hpair Henc Hr.
  destruct (encodeRaw_success_parts fd id_ il_ iv e scratchTX key out r fd'
              HfT Hil Hidlen Hsrc Hout Hlen Henc Hr)
    as (k & ct & tag & -> & _ & _ & Hil8 & _ & Hsize & HfT0 & HfT1 & Hhdrlen & He
        & -> & _ & Hfl & Hbuf).
  cbv zeta in *. rewrite Hbody in *. cbn [Z.eqb] in *.
  unfold is_u8, FTS_NONE, FTS_INVALID_HIGH in *.
  destruct (Hpair k _ ct tag eq_refl He) as (-> & Htag & Hd).
  assert (Hout27 : (Z.to_nat (27 + il_ + 0) <= length out)%nat) by lia.
  assert (Htag16 : (16 <= length tag)%nat) by lia.
  assert (Hil0 : 0 <= il_) by lia.
  pose proof (secure_frame_writes _ out [] tag iv il_ 0 Hil0 (Z.le_refl 0)
                Hhdrlen eq_refl Htag16 Hiv Hout27) as HW.
  rewrite HW in Hbuf. clear HW.
  cbn [app] in Hbuf. rewrite (take_ge tag 16) in Hbuf by lia.
  replace (26 + il_ + 0) with (26 + il_) in * by lia.
  replace (27 + il_ + 0) with (27 + il_) in * by lia.
  set (ty := type_byte true (e_fType fd)) in *.
  set (sq := seqIl_byte il_ (Z.land (rd iv 11) 15)) in *.
  set (ids := take (Z.to_nat il_) (orempty id_)) in *.
  assert (Hidslen : length ids = Z.to_nat il_)
    by (subst ids; rewrite length_take; lia).
  set (hdr := [26 + il_; ty; sq] ++ ids ++ [0]) in *.
  set (ctr := take 6 (drop 6 iv)) in *.
  assert (Hctrlen : length ctr = 6%nat)
    by (subst ctr; rewrite length_take, length_drop; lia).
  set (rest := drop (Z.to_nat (27 + il_)) out) in *.
  assert (HF : e_outbuf fd' = Some (hdr ++ ctr ++ tag ++ [0x80] ++ rest)).
  { rewrite Hbuf. subst hdr. rewrite <- !app_assoc. reflexivity. }
  rewrite HF. clear Hbuf.
  set (F := hdr ++ ctr ++ tag ++ [0x80] ++ rest) in *.
  (* The bytes that the decoder reads. *)
  pose proof (rd_header_parts ids (ctr ++ tag ++ [0x80] ++ rest) (Z.to_nat il_)
                (26 + il_) ty sq 0 Hidslen) as HP.
  cbv zeta in HP. rewrite Z2Nat.id in HP by lia.
  assert (EFh : [26 + il_; ty; sq] ++ ids ++ [0] ++ ctr ++ tag ++ [128] ++ rest = F).
  { subst F hdr. rewrite <- !app_assoc. reflexivity. }
  rewrite EFh in HP. destruct HP as (R0 & R1 & R2 & R3 & R5).
  assert (Rlast : rd F (26 + il_) = 0x80).
  { subst F. unfold rd. rewrite !app_assoc. rewrite <- (app_assoc _ [128] rest).
    assert (E : (((hdr ++ ctr) ++ tag) ++ [128] ++ rest) !! Z.to_nat (26 + il_)
                = Some 128)
      by (apply list_lookup_middle; rewrite !length_app; lia).
    now rewrite E. }
  assert (Rhdr : take (Z.to_nat (4 + il_)) F = hdr).
  { subst F. rewrite <- Hhdrlen. apply take_app_length. }
  assert (Rtag : take 16 (drop (Z.to_nat (26 + il_ - 16)) F) = tag).
  { subst F. rewrite (app_assoc hdr ctr).
    replace (Z.to_nat (26 + il_ - 16)) with (length (hdr ++ ctr))
      by (rewrite length_app; lia).
    rewrite drop_app_length. rewrite <- Htag. apply take_app_length. }
  destruct (type_byte_unpacks true (e_fType fd) ltac:(lia)) as [Hty Hsec].
  destruct (seqIl_byte_unpacks il_ (Z.land (rd iv 11) 15) ltac:(lia)
              ltac:(pose proof (land_15_range (rd iv 11)); lia)) as [Hgil Hgseq].
  fold ty in Hty, Hsec. fold sq in Hgil, Hgseq. rewrite land_15_idem in Hgseq.
  (* decodeHeader *)
  pose proof (decodeHeader_accepts h0 F (27 + il_)) as HD.
  cbv zeta in HD. rewrite R0, R1, R2, Hgil, R3, Rlast, Hty in HD.
  unfold maxSmallFrameSize, maxIDLength, FTS_NONE, FTS_INVALID_HIGH in HD.
  assert (Hns : Z.land 128 ty = 0 -> 26 + il_ - 3 - il_ - 0 = 1)
    by (intros Hz; rewrite Hz in Hsec; discriminate).
  specialize (HD ltac:(lia) ltac:(lia) ltac:(lia) ltac:(lia) ltac:(lia)
                ltac:(lia) ltac:(lia) ltac:(lia) ltac:(lia) Hns).
  rewrite HD. cbn [fst snd].
  set (dsfh := mkSFH (26 + il_) ty sq _ 0).
  assert (Hdil : getIl dsfh = il_) by exact Hgil.
  assert (Hdseq : getSeq dsfh = Z.land (rd iv 11) 15) by exact Hgseq.
  assert (Hinv : isInvalid dsfh = false)
    by (unfold isInvalid; subst dsfh; cbn [fl]; apply Z.eqb_neq; lia).
  assert (Htl : getTl dsfh = 23).
  { unfold getTl. rewrite Hdil. subst dsfh. cbn [fl bl].
    rewrite wrap8_small by lia. lia. }
  (* decodeRaw *)
  set (fdRX := mkDec (Some F) (27 + il_) ptext maxlen len dsfh idd).
  destruct (d (subScratchSpace scratchRX usage) k iv hdr None tag) as [pt |] eqn:Hdpt;
    [| contradiction].
  assert (Hcall : decodeRaw_call usage fdRX d scratchRX k iv F = Some pt).
  { unfold decodeRaw_call, getHl. cbn [d_sfh fdRX]. rewrite Hdil.
    rewrite wrap8_small by lia. rewrite Rhdr.
    change (fl dsfh) with (26 + il_). change (bl dsfh) with 0. cbn [Z.eqb].
    rewrite Rtag. exact Hdpt. }
  pose proof (decodeRaw_accepts usage fdRX d scratchRX F k iv pt eq_refl Husage Hinv)
    as Hacc.
  cbn [d_sfh fdRX] in Hacc. change (fl dsfh) with (26 + il_) in Hacc.
  rewrite R0 in Hacc. rewrite (wrap8_small (26 + il_ + 1)) in Hacc by lia.
  specialize (Hacc ltac:(lia) Htl Rlast (or_introl eq_refl) Hdseq Hcall
                (or_intror (or_introl eq_refl))).
  repeat match goal with |- _ /\ _ => split end;
    try reflexivity; try assumption.
  - subst dsfh. cbn [id]. destruct (Z.ltb_spec 0 il_).
    + rewrite take_memcpy_at_0; [exact R5 | | lia].
      rewrite <- R5, length_take in Hidslen. lia.
    + subst ids. replace (Z.to_nat il_) with 0%nat by lia. reflexivity.
  - rewrite Hacc. lia.
  - destruct (decodeRaw usage fdRX d scratchRX (Some k) (Some iv))
      as [[r2 fd2] tr2] eqn:Hdec.
    cbn [fst snd] in *.
    destruct (decodeRaw_cases _ _ _ _ _ _ _ _ _ Hdec)
      as [(Hr0 & _) | (b0 & k0 & v0 & pt0 & _ & _ & _ & _ & _ & _ & _ & _ & _ & _
                       & _ & _ & _ & _ & _ & _ & Hpt)].
    + lia.
    + destruct Hpt as [(_ & Hz & _) | (_ & Hbl32 & _)]; [exact Hz |].
      cbn [d_sfh fdRX bl dsfh] in Hbl32. discriminate.
Qed.

Lemma secure_roundtrip_without_body_witness :
  let d := fixed32BTextSize12BNonce16BTagSimpleDec_NULL_IMPL (replicate 32 0) in
  let dh := decodeHeader (SecurableFrameHeader_new junk_header)
              (e_outbuf beacon_frame.2) beacon_frame.1 in
  let dec := decodeRaw 32
               (mkDec (e_outbuf beacon_frame.2) beacon_frame.1 None 31 7 dh.2
                  (replicate 8 0))
               d (mkScratch false 320) (Some (replicate 16 0)) (Some vector3_iv) in
  dh.1 = 4 + 2 /\
  isSecure dh.2 = true /\ Z.land (fType dh.2) 0x7f = FTS_ALIVE /\
  getSeq dh.2 = Z.land (rd vector3_iv 11) 0xf /\ getIl dh.2 = 2 /\
  take (Z.to_nat 2) (id dh.2) = take (Z.to_nat 2) [0xaa; 0xaa] /\
  bl dh.2 = 0 /\
  dec.1.1 = beacon_frame.1 /\ d_ptextLen dec.1.2 = 0.
Proof.
  apply (secure_roundtrip_without_body 32 beacon_encode_data (Some [0xaa; 0xaa]) 2
           vector3_iv fixed32BTextSize12BNonce16BTagSimpleEnc_NULL_IMPL
           (fixed32BTextSize12BNonce16BTagSimpleDec_NULL_IMPL (replicate 32 0))
           (mkScratch false 272) (mkScratch false 320) (Some (replicate 16 0))
           (replicate 64 0) beacon_frame.1 beacon_frame.2
           (SecurableFrameHeader_new junk_header) None 31 7 (replicate 8 0)).
  - unfold is_u8. vm_compute. split; [discriminate | reflexivity].
  - unfold is_u8. lia.
  - vm_compute. lia.
  - reflexivity.
  - reflexivity.
  - vm_compute. lia.
  - reflexivity.
  - vm_compute. lia.
  - reflexivity.
  - vm_compute. discriminate.
  - intros k auth ct tag _ He. vm_compute in He. injection He as <- <-.
    split; [reflexivity |]. split; [reflexivity |].
    vm_compute. discriminate.
  - reflexivity.
  - vm_compute. discriminate.
Defined.

(** ** The transmit wrappers *)

Lemma strlen_from_nonneg (b : list Z) : 0 <= strlen_from b.
Proof.
  induction b as [| c r IH]; simpl; [lia |].
  destruct (c =? 0); lia.
Qed.

Lemma strlen_at_open_brace (p : list Z) :
  rd p 2 = 0x7b -> 1 <= strlen_at p 2.
Proof.
  intros Hb. unfold strlen_at, rd in *. change (Z.to_nat 2) with 2%nat in *.
  destruct p as [| p0 [| p1 [| p2 r]]]; try discriminate Hb.
  cbn in Hb. subst p2. cbn [drop strlen_from].
  change (123 =? 0) with false. cbv iota.
  pose proof (strlen_from_nonneg r). lia.
Qed.

(** X17 (encodeValveFrame: the ID prefix is at most 5 bytes).  The valve
    frame always has a body (the valve byte and the flags byte at least), so
    a call of [encodeValveFrame] that succeeds has an ID length of at most 5,
    although the wrapper itself only refuses lengths above 6; it returns
    [59 + il], at most 64, and the frame type is 'O'. *)
Theorem encodeValveFrame_needs_short_id :
  forall total (T : Type) (TX : TXBase T) (t : T) fd il_ valvePC e scratch key
         out p,
    is_u8 il_ ->
    length (id (e_sfh fd)) = 8%nat ->
    e_ptext fd = Some p -> (32 <= length p)%nat ->
    e_outbuf fd = Some out -> (Z.to_nat (e_outbufSize fd) <= length out)%nat ->
    (forall iv, (computeIVForTX12B t).1 = Some iv -> length iv = 12%nat) ->
    let res := encodeValveFrame total t fd il_ valvePC e scratch key in
    res.1.1 <> 0 ->
    il_ <= 5 /\ res.1.1 = 59 + il_ /\ res.1.1 <= 64 /\
    e_fType res.1.2 = FTS_BasicSensorOrValve /\
    2 <= e_ptextLen res.1.2 <= 31.
Proof.
  intros total T TX t fd il_ valvePC e scratch key out p Hil Hidlen Hp Hplen Hout
         Hlen Hivlen res Hr.
  subst res. unfold encodeValveFrame in *.
  destruct (s_bufsize scratch <? total); [contradiction Hr; reflexivity |].
  destruct (computeIVForTX12B t) as [[iv |] t'] eqn:Hiv;
    [| contradiction Hr; reflexivity].
  specialize (Hivlen iv eq_refl).
  rewrite Hp in *. cbn [orempty default option_map] in *.
  unfold ENC_BODY_SMALL_FIXED_PTEXT_MAX_SIZE in *.
  set (hasStats := 0x7b =? rd p 2) in *.
  set (slp1 := if hasStats then strlen_at (Datatypes.id p) 2 else 1) in *.
  assert (Hslp1 : 1 <= slp1).
  { subst slp1 hasStats. destruct (Z.eqb_spec 0x7b (rd p 2)) as [Hb |]; [| lia].
    apply strlen_at_open_brace. unfold Datatypes.id. congruence. }
  destruct (Z.gtb_spec slp1 (31 - 1)); [contradiction Hr; reflexivity |].
  destruct (Z.gtb_spec il_ 6); [contradiction Hr; reflexivity |].
  cbn [e_ptextbufSize e_outbuf e_outbufSize e_sfh] in *.
  set (len := if hasStats then wrap8 (2 + wrap8 (slp1 - 1)) else 2) in *.
  assert (Hlenr : 2 <= len <= 31).
  { subst len. destruct hasStats; [| lia].
    rewrite (wrap8_small (slp1 - 1)) by lia. rewrite wrap8_small by lia. lia. }
  set (fd1 := mkEnc (Some (wr (wr p 0 (if valvePC <=? 100 then valvePC else 127)) 1
                                (if hasStats then 16 else 0)))
                (e_ptextbufSize fd) len (e_outbuf fd) (e_outbufSize fd)
                FTS_BasicSensorOrValve (e_sfh fd)) in *.
  destruct (encodeRaw fd1 (Some iv) il_ iv e
              (subScratchSpace scratch encodeValveFrame_scratch_usage) key)
    as [r fd'] eqn:Henc.
  cbn [fst snd] in *.
  assert (HfT : is_u8 (e_fType fd1)) by (change (is_u8 79); unfold is_u8; lia).
  assert (Hsrc : (Z.to_nat il_ <= length (orempty (Some iv)))%nat)
    by (unfold is_u8 in Hil; cbn [orempty default]; unfold Datatypes.id; lia).
  destruct (encodeRaw_success_parts fd1 (Some iv) il_ iv e _ key out r fd'
              HfT Hil Hidlen Hsrc Hout Hlen Henc Hr)
    as (k & ct & tag & _ & _ & _ & _ & Hilmax & _ & _ & _ & _ & _ & Hr27 & _ & _ & _).
  destruct (encodeRaw_inv fd1 (Some iv) il_ iv e _ key r fd' Henc Hr)
    as (k' & hl & sfh & b & ct' & tag' & _ & _ & _ & _ & _ & _ & _ & _ & ->).
  cbv zeta in *. cbn [e_ptextLen fd1 e_fType] in *.
  unfold is_u8 in Hil.
  destruct (Z.eqb_spec 0 len); [lia |].
  repeat split; try lia; reflexivity.
Qed.

Lemma encodeValveFrame_needs_short_id_witness :
  let res := encodeValveFrame 300 (mkFixedTX (Some (replicate 12 0)) None)
               O_frame_data 4 0x7f fixed32BTextSize12BNonce16BTagSimpleEnc_NULL_IMPL
               (mkScratch false 300) (Some (replicate 16 0)) in
  4 <= 5 /\ res.1.1 = 59 + 4 /\ res.1.1 <= 64 /\
  e_fType res.1.2 = FTS_BasicSensorOrValve /\
  2 <= e_ptextLen res.1.2 <= 31.
Proof.
  apply (encodeValveFrame_needs_short_id 300 FixedTX FixedTX_base
           (mkFixedTX (Some (replicate 12 0)) None) O_frame_data 4 0x7f
           fixed32BTextSize12BNonce16BTagSimpleEnc_NULL_IMPL (mkScratch false 300)
           (Some (replicate 16 0)) (replicate 64 0) (0x7f :: replicate 33 0)).
  - unfold is_u8. lia.
  - reflexivity.
  - reflexivity.
  - vm_compute. lia.
  - reflexivity.
  - vm_compute. lia.
  - intros iv Hiv. cbn in Hiv. injection Hiv as <-. reflexivity.
  - vm_compute. discriminate.
Defined.

Lemma take_memcpy_at_ge (b src : list Z) (i k : Z) (n : nat) :
  (n <= Z.to_nat i)%nat -> take n (memcpy_at b i src k) = take n b.
Proof.
  intros Hn. unfold memcpy_at. apply list_eq. intros j.
  destruct (Nat.lt_ge_cases j n) as [Hj | Hj].
  - rewrite !lookup_take_lt by lia. apply list_lookup_inserts_lt. lia.
  - rewrite !lookup_take_ge by lia. reflexivity.
Qed.

Lemma encodeRaw_success_il fd id_ il_ iv e scratch key r fd' :
  is_u8 il_ -> encodeRaw fd id_ il_ iv e scratch key = (r, fd') -> r <> 0 ->
  il_ <= 8.
Proof.
  unfold is_u8. intros Hil Henc Hr.
  destruct (encodeRaw_inv fd id_ il_ iv e scratch key r fd' Henc Hr)
    as (k & hl & sfh & b & ct & tag & _ & _ & Hhdr & Hhl & _).
  cbv zeta in Hhdr.
  assert (Hebl : 0 <= (if 0 =? e_ptextLen fd then 0 else 32))
    by (destruct (0 =? e_ptextLen fd); lia).
  destruct (encodeHeader_cases _ _ _ _ _ _ _ _ _ _ _ _ (proj1 Hil) Hebl
              (Z.le_trans 0 1 23 Z.le_0_1 ltac:(lia)) Hhdr)
    as [[-> _] | (_ & _ & _ & Hil8 & _)]; [contradiction | exact Hil8].
Qed.

(** The stores after the header leave the header bytes as they are. *)
Lemma encodeRaw_header_bytes fd id_ il_ iv e scratch key out r fd' :
  is_u8 (e_fType fd) -> is_u8 il_ ->
  length (id (e_sfh fd)) = 8%nat ->
  (Z.to_nat il_ <= length (orempty id_))%nat ->
  e_outbuf fd = Some out -> (Z.to_nat (e_outbufSize fd) <= length out)%nat ->
  encodeRaw fd id_ il_ iv e scratch key = (r, fd') ->
  r <> 0 ->
  let ebl := if 0 =? e_ptextLen fd then 0 else 32 in
  r = 27 + il_ + ebl /\
  take (Z.to_nat (4 + il_)) (orempty (e_outbuf fd')) =
    [26 + il_ + ebl; type_byte true (e_fType fd);
     seqIl_byte il_ (Z.land (rd iv 11) 0xf)] ++
    take (Z.to_nat il_) (orempty id_) ++ [ebl].
Proof.
  intros HfT Hil Hidlen Hsrc Hout Hlen Henc Hr.
  destruct (encodeRaw_success_parts fd id_ il_ iv e scratch key out r fd'
              HfT Hil Hidlen Hsrc Hout Hlen Henc Hr)
    as (k & ct & tag & _ & _ & _ & Hil8 & _ & _ & _ & _ & Hhdrlen & _ & Hr27 & _
        & Hfl & Hbuf).
  cbv zeta in *. split; [exact Hr27 |].
  set (ebl := if 0 =? e_ptextLen fd then 0 else 32) in *.
  assert (Hebl : 0 <= ebl) by (subst ebl; destruct (0 =? e_ptextLen fd); lia).
  unfold is_u8 in Hil.
  rewrite Hbuf. cbn [orempty default]. unfold Datatypes.id.
  rewrite take_wr_ge by lia.
  rewrite !take_memcpy_at_ge by lia.
  rewrite <- Hhdrlen. apply take_app_length.
Qed.

(** X18 (encode: what is refused at once, and the ID in the header).  With
    too little scratch space or an invalid frame type, [encode] returns 0
    without asking the provider for an IV, so that no message counter is
    used up.  Where it returns a frame (neither 0 nor the 255 of a failed
    ID fetch), the header in the output buffer carries, as ID, the first
    [il] bytes of the IV for an ID length of at most 6 and the first [il]
    bytes of [getTXID] otherwise, and as sequence number the 4 low bits of
    IV byte 11. *)
Theorem encode_header_id_bytes :
  forall total (T : Type) (TX : TXBase T) (t : T) fd il_ e scratch key,
    (s_bufsize scratch < total \/ FTS_INVALID_HIGH <= e_fType fd \/
     e_fType fd = FTS_NONE ->
     encode total t fd il_ e scratch key = (0, fd, t)) /\
    (forall out r fd' t',
       is_u8 (e_fType fd) -> is_u8 il_ -> length (id (e_sfh fd)) = 8%nat ->
       e_outbuf fd = Some out -> (Z.to_nat (e_outbufSize fd) <= length out)%nat ->
       (forall iv, (computeIVForTX12B t).1 = Some iv -> length iv = 12%nat) ->
       (forall txid, getTXID (computeIVForTX12B t).2 = Some txid ->
                     length txid = 8%nat) ->
       encode total t fd il_ e scratch key = (r, fd', t') ->
       r <> 0 -> r <> 255 ->
       exists iv idsrc,
         computeIVForTX12B t = (Some iv, t') /\
         (if il_ >? 6 then getTXID t' = Some idsrc else idsrc = iv) /\
         let ebl := if 0 =? e_ptextLen fd then 0 else 32 in
         r = 27 + il_ + ebl /\
         take (Z.to_nat (4 + il_)) (orempty (e_outbuf fd')) =
           [26 + il_ + ebl; type_byte true (e_fType fd);
            seqIl_byte il_ (Z.land (rd iv 11) 0xf)] ++
           take (Z.to_nat il_) idsrc ++ [ebl]).
Proof.
  intros total T TX t fd il_ e scratch key. split.
  - intros Hbad. unfold encode.
    destruct (Z.ltb_spec (s_bufsize scratch) total); [reflexivity |].
    destruct Hbad as [Hs | [Hh | Hn]]; [lia | |].
    + destruct (Z.geb_spec (e_fType fd) FTS_INVALID_HIGH); [reflexivity | lia].
    + rewrite Hn. rewrite Z.eqb_refl, orb_true_r. reflexivity.
  - intros out r fd' t' HfTu8 Hil Hidlen Hout Hlen Hivlen Hidsrc Henc Hr H255.
    unfold encode in Henc.
    destruct (s_bufsize scratch <? total); [injection Henc as <- _ _; contradiction |].
    destruct ((e_fType fd >=? FTS_INVALID_HIGH) || (e_fType fd =? FTS_NONE)) eqn:HfT;
      [injection Henc as <- _ _; contradiction |].
    bool_to_prop. unfold FTS_INVALID_HIGH, FTS_NONE in *.
    destruct (computeIVForTX12B t) as [[iv |] t1] eqn:Hiv;
      [| injection Henc as <- _ _; contradiction].
    specialize (Hivlen iv eq_refl). cbn [snd] in Hidsrc.
    destruct (Z.gtb_spec il_ 6) as [Hlong | Hshort].
    + destruct (getTXID t1) as [txid |] eqn:Htx; cbn [andb] in Henc;
        [| injection Henc as <- _ _; contradiction].
      specialize (Hidsrc txid eq_refl).
      cbn [orempty default] in Henc. unfold Datatypes.id in Henc.
      destruct (encodeRaw fd (Some txid) il_ iv e
                  (subScratchSpace scratch encode_scratch_usage) key)
        as [r0 fd0] eqn:Hraw.
      injection Henc as -> -> ->.
      pose proof (encodeRaw_success_il _ _ _ _ _ _ _ _ _ Hil Hraw Hr) as Hil8.
      assert (Hsrc : (Z.to_nat il_ <= length (orempty (Some txid)))%nat)
        by (cbn [orempty default]; unfold Datatypes.id; lia).
      destruct (encodeRaw_header_bytes fd (Some txid) il_ iv e _ key out r fd'
                  HfTu8 Hil Hidlen Hsrc Hout Hlen Hraw Hr) as [Hr27 Hhdr].
      exists iv, txid. repeat split; assumption.
    + cbn [andb] in Henc.
      destruct (encodeRaw fd (Some iv) il_ iv e
                  (subScratchSpace scratch encode_scratch_usage) key)
        as [r0 fd0] eqn:Hraw.
      injection Henc as -> -> ->.
      assert (Hsrc : (Z.to_nat il_ <= length (orempty (Some iv)))%nat)
        by (cbn [orempty default]; unfold Datatypes.id; lia).
      destruct (encodeRaw_header_bytes fd (Some iv) il_ iv e _ key out r fd'
                  HfTu8 Hil Hidlen Hsrc Hout Hlen Hraw Hr) as [Hr27 Hhdr].
      exists iv, iv. repeat split; assumption.
Qed.

Lemma encode_header_id_bytes_witness :
  let tx := mkFixedTX (Some (replicate 12 0)) (Some (replicate 8 0x80)) in
  let res := encode 300 tx O_frame_data 4
               fixed32BTextSize12BNonce16BTagSimpleEnc_NULL_IMPL
               (mkScratch false 300) (Some (replicate 16 0)) in
  exists iv idsrc,
    computeIVForTX12B tx = (Some iv, res.2) /\
    (if 4 >? 6 then getTXID res.2 = Some idsrc else idsrc = iv) /\
    let ebl := if 0 =? e_ptextLen O_frame_data then 0 else 32 in
    res.1.1 = 27 + 4 + ebl /\
    take (Z.to_nat (4 + 4)) (orempty (e_outbuf res.1.2)) =
      [26 + 4 + ebl; type_byte true (e_fType O_frame_data);
       seqIl_byte 4 (Z.land (rd iv 11) 0xf)] ++
      take (Z.to_nat 4) idsrc ++ [ebl].
Proof.
  apply (proj2 (encode_header_id_bytes 300 FixedTX FixedTX_base
                  (mkFixedTX (Some (replicate 12 0)) (Some (replicate 8 0x80)))
                  O_frame_data 4 fixed32BTextSize12BNonce16BTagSimpleEnc_NULL_IMPL
                  (mkScratch false 300) (Some (replicate 16 0)))
               (replicate 64 0)).
  - unfold is_u8. vm_compute. split; [discriminate | reflexivity].
  - unfold is_u8. lia.
  - reflexivity.
  - reflexivity.
  - vm_compute. lia.
  - intros iv Hiv. cbn in Hiv. injection Hiv as <-. reflexivity.
  - intros txid Htx. cbn in Htx. injection Htx as <-. reflexivity.
  - reflexivity.
  - vm_compute. discriminate.
  - vm_compute. discriminate.
Defined.

(** ** The receive path *)

Lemma drop_memcpy_at_0 (b src : list Z) (n : Z) :
  0 <= n -> drop (Z.to_nat n) (memcpy_at b 0 src n) = drop (Z.to_nat n) b.
Proof.
  intros Hn. unfold memcpy_at. change (Z.to_nat 0) with 0%nat.
  apply list_eq. intros j. rewrite !lookup_drop.
  apply list_lookup_inserts_ge. rewrite length_take. lia.
Qed.

Lemma unpad32BBuffer_nonneg (b : list Z) : 0 <= unpad32BBuffer b.
Proof.
  unfold unpad32BBuffer. cbv zeta.
  destruct (rd b (ENC_BODY_SMALL_FIXED_CTEXT_SIZE - 1) >? 31); [lia |].
  apply wrap8_range.
Qed.

(** X19 (decodeRaw: what a call may change).  A call of [decodeRaw] that
    fails leaves the frame data as they were, the plaintext buffer included,
    even when the decryption function has run.  A call that succeeds leaves
    the frame, the header and the ID alone; the body length it reports is at
    most 31 and, when it is not 0, at most [ptextLenMax]; and the plaintext
    buffer keeps its length and its bytes from the body length on. *)
Theorem decodeRaw_writes_within_bounds :
  forall usage fd d scratch key iv r fd' tr,
    is_u8 (fl (d_sfh fd)) ->
    decodeRaw usage fd d scratch key iv = (r, fd', tr) ->
    (r = 0 -> fd' = fd) /\
    (r <> 0 ->
       d_ctext fd' = d_ctext fd /\ d_sfh fd' = d_sfh fd /\ d_id fd' = d_id fd /\
       0 <= d_ptextLen fd' <= ENC_BODY_SMALL_FIXED_PTEXT_MAX_SIZE /\
       (d_ptextLen fd' = 0 \/ d_ptextLen fd' <= d_ptextLenMax fd) /\
       (d_ptext fd = None -> d_ptext fd' = None) /\
       length (orempty (d_ptext fd')) = length (orempty (d_ptext fd)) /\
       drop (Z.to_nat (d_ptextLen fd')) (orempty (d_ptext fd')) =
         drop (Z.to_nat (d_ptextLen fd')) (orempty (d_ptext fd))).
Proof.
  intros usage fd d scratch key iv r fd' tr Hfl Hdec.
  unfold is_u8, ENC_BODY_SMALL_FIXED_PTEXT_MAX_SIZE in *.
  destruct (decodeRaw_cases _ _ _ _ _ _ _ _ _ Hdec)
    as [(-> & -> & _) | (b0 & k0 & v0 & pt & _ & _ & _ & _ & _ & Hlt & _ & _ & _ & _
                         & _ & _ & -> & Hsfh & Hct & Hid & Hpt)].
  - split; [reflexivity | intros Hne; contradiction].
  - pose proof (wrap8_range (rd b0 0 + 1)) as Hw.
    rewrite wrap8_small by lia.
    split; [intros Hz; lia | intros _].
    do 3 (split; [assumption |]).
    destruct Hpt as [(_ & Hz & Hsame) | (Hsome & _ & H31 & Hmax & Hn & Hnew)].
    + rewrite Hz, Hsame. repeat split; try lia; auto.
    + pose proof (unpad32BBuffer_nonneg pt) as Hn0.
      unfold ENC_BODY_SMALL_FIXED_PTEXT_MAX_SIZE in H31.
      rewrite Hn, Hnew. cbn [orempty default]. unfold Datatypes.id.
      split; [lia |]. split; [right; exact Hmax |].
      split; [intros Hnone; contradiction |].
      split; [apply length_memcpy_at | apply drop_memcpy_at_0; exact Hn0].
Qed.

Lemma decodeRaw_writes_within_bounds_witness :
  let dec := decodeRaw 32 beacon_decode_data
               (fixed32BTextSize12BNonce16BTagSimpleDec_NULL_IMPL (replicate 32 0))
               (mkScratch false 320) (Some (replicate 16 0)) (Some vector3_iv) in
  dec.1.1 <> 0 /\ d_ctext dec.1.2 = d_ctext beacon_decode_data /\
  d_ptextLen dec.1.2 = 0.
Proof.
  pose proof (decodeRaw_writes_within_bounds 32 beacon_decode_data
                (fixed32BTextSize12BNonce16BTagSimpleDec_NULL_IMPL (replicate 32 0))
                (mkScratch false 320) (Some (replicate 16 0)) (Some vector3_iv)
                _ _ _ ltac:(unfold is_u8; vm_compute; split; [discriminate | reflexivity])
                eq_refl) as [_ Hok].
  split; [vm_compute; discriminate |].
  destruct (Hok ltac:(vm_compute; discriminate)) as (Hct & _).
  split; [exact Hct | reflexivity].
Defined.



(** X21 (decode: what a failed call leaves behind).  The sender's full ID
    is copied to the frame data only when [decode] succeeds, and it is then
    the ID that the store resolved the header to.  A call that fails on a
    header whose frame length is a byte leaves the frame data as they were,
    except when the frame had already passed [decodeRaw] and the store then
    refused the counter. *)
Theorem decode_reports_sender_only_on_success :
  forall (u1 u2 u3 : Z) (S : Type) (St : RXStore S) (s : S) fd d scratch key
         r fd' s' tr,
    is_u8 (fl (d_sfh fd)) ->
    decode u1 u2 u3 s fd d scratch key = (r, fd', s', tr) ->
    let found := _getNextMatchingNodeID s 0 (d_sfh fd) in
    (r <> 0 ->
       0 <= found.1 /\
       d_id fd' = memcpy_at (d_id fd) 0 found.2 OpenTRV_Node_ID_Bytes /\
       d_sfh fd' = d_sfh fd /\ d_ctext fd' = d_ctext fd) /\
    (r = 0 ->
       d_id fd' = d_id fd /\
       (fd' = fd \/ exists n c v,
          tr = [EvValidate n c true; EvDecrypt v true; EvCommit n c false])).
Proof.
  intros u1 u2 u3 S St s fd d scratch key r fd' s' tr Hfl Hdec found.
  unfold decode in Hdec. cbv zeta in Hdec.
  match goal with
  | |- ?G => assert (Hfail : forall trx, (0, fd, s, trx) = (r, fd', s', tr) -> G)
  end.
  { intros trx Heq. injection Heq as <- <- <- <-.
    split; [intros Hne; contradiction | intros _; auto]. }
  destruct (u3 >? s_bufsize scratch); [eapply Hfail; eassumption |].
  destruct (d_ctext fd) as [ctext |] eqn:Hct; [| eapply Hfail; eassumption].
  destruct (isInvalid (d_sfh fd)) eqn:Hinv; [eapply Hfail; eassumption |].
  destruct (negb (23 =? getTl (d_sfh fd))) eqn:Htl; [eapply Hfail; eassumption |].
  subst found.
  destruct (_getNextMatchingNodeID s 0 (d_sfh fd)) as [index nodeID] eqn:Hlookup.
  cbn [fst snd].
  destruct (Z.ltb_spec index 0) as [Hidx | Hidx]; [eapply Hfail; eassumption |].
  set (c := take (Z.to_nat fullMsgCtrBytes)
              (drop (Z.to_nat (getTrailerOffset (d_sfh fd))) ctext)) in *.
  destruct (validateRXMsgCtr s nodeID (Some c)); cbn [negb] in Hdec;
    [| eapply Hfail; eassumption].
  clear Hfail.
  destruct (_decodeFromID u1 u2 fd d (mkOTBuf (Some nodeID) OpenTRV_Node_ID_Bytes)
              (subScratchSpace scratch u3) key) as [[decodeResult fdd] trd] eqn:Hraw.
  (* what _decodeFromID returned *)
  assert (Hfdd : (decodeResult = 0 /\ fdd = fd) \/
                 (decodeResult <> 0 /\ d_sfh fdd = d_sfh fd /\ d_ctext fdd = d_ctext fd
                  /\ d_id fdd = d_id fd /\ exists v, trd = [EvDecrypt v true])).
  { unfold _decodeFromID in Hraw. cbv zeta in Hraw.
    repeat match type of Hraw with
           | (if ?c then _ else _) = _ =>
               destruct c; [injection Hraw as <- <- <-; left; auto |]
           end.
    destruct (decodeRaw_cases _ _ _ _ _ _ _ _ _ Hraw)
      as [(-> & -> & _) |
          (b0 & k0 & v & pt & _ & _ & _ & _ & _ & Hlt & _ & _ & _ & _ & _ & -> & ->
           & Hsfh & Hctx & Hid & _)]; [left; auto |].
    right. unfold is_u8 in Hfl.
    pose proof (wrap8_range (rd b0 0 + 1)) as Hw.
    rewrite wrap8_small by lia.
    repeat split; try assumption; try lia; eauto. }
  destruct (Z.eqb_spec 0 decodeResult) as [Hz | Hnz].
  { injection Hdec as <- <- <- <-.
    destruct Hfdd as [(_ & ->) | (Hne & _)]; [| congruence].
    split; [intros Hne; contradiction | intros _; auto]. }
  destruct Hfdd as [(Hz & _) | (_ & Hsfh & Hctx & Hid & v & ->)]; [congruence |].
  destruct (authAndUpdateRXMsgCtr s nodeID c) as [ok s''] eqn:Hupd.
  destruct ok; cbn [negb] in Hdec; injection Hdec as <- <- <- <-.
  - split; [intros _ | intros Hz; congruence].
    cbn [d_id d_sfh d_ctext]. rewrite Hid, Hctx, Hct.
    repeat split; try assumption; lia.
  - split; [intros Hne; contradiction | intros _].
    split; [exact Hid |]. right. exists nodeID, c, v. reflexivity.
Qed.

Lemma decode_reports_sender_only_on_success_witness :
  let found := _getNextMatchingNodeID replay_table 0 (d_sfh replay_decode_data) in
  0 <= found.1 /\
  d_id replay_first.1.1.2 =
    memcpy_at (d_id replay_decode_data) 0 found.2 OpenTRV_Node_ID_Bytes /\
  d_sfh replay_first.1.1.2 = d_sfh replay_decode_data /\
  d_ctext replay_first.1.1.2 = d_ctext replay_decode_data.
Proof.
  apply (proj1 (decode_reports_sender_only_on_success 32 12 14 AssocTable
                  AssocTable_store replay_table replay_decode_data
                  (fixed32BTextSize12BNonce16BTagSimpleDec_NULL_IMPL (replicate 32 0))
                  (mkScratch false 400) (Some (replicate 16 0))
                  replay_first.1.1.1 replay_first.1.1.2 replay_first.1.2
                  replay_first.2
                  ltac:(unfold is_u8; vm_compute; split; [discriminate | reflexivity])
                  eq_refl)).
  vm_compute. discriminate.
Defined.

(** X22 (a non-secure frame never passes the secure decoders).  Whatever
    [decodeHeader] leaves in the header for a buffer whose type byte has the
    secure bit clear, [decodeRaw] returns 0 on it without calling the
    decryption function, and [decode] returns 0 without consulting or
    changing the store. *)
Theorem secure_decoders_refuse_nonsecure_header :
  forall h (b : list Z) buflen fd,
    Forall is_u8 b ->
    Z.land 0x80 (rd b 1) = 0 ->
    d_sfh fd = (decodeHeader h (Some b) buflen).2 ->
    (forall usage d scratch key iv,
       decodeRaw usage fd d scratch key iv = (0, fd, [])) /\
    (forall u1 u2 u3 (S : Type) (St : RXStore S) (s : S) d scratch key,
       decode u1 u2 u3 s fd d scratch key = (0, fd, s, [])).
Proof.
  intros h b buflen fd Hu8 Hns Hsfh.
  assert (Hbad : isInvalid (d_sfh fd) = true \/ getTl (d_sfh fd) = 1).
  { destruct (decodeHeader h (Some b) buflen) as [r h'] eqn:Hdec.
    cbn [snd] in Hsfh. rewrite Hsfh.
    destruct (decodeHeader_cases h (Some b) buflen r h' Hdec)
      as [[_ Hfl0] | (b0 & Hb0 & Hc)].
    - left. unfold isInvalid. rewrite Hfl0. reflexivity.
    - right. injection Hb0 as <-. cbv zeta in Hc.
      destruct Hc as (_ & _ & _ & _ & _ & _ & _ & _ & _ & _ & Htl & ->).
      rewrite Hns in Htl. cbn [Z.eqb negb] in Htl.
      unfold getTl, getIl. cbn [fl seqIl bl]. exact Htl. }
  split.
  - intros usage d scratch key iv. unfold decodeRaw. cbv zeta.
    destruct (usage >? s_bufsize scratch); [reflexivity |].
    destruct (d_ctext fd); [| reflexivity].
    destruct key; [| reflexivity]. destruct iv; [| reflexivity].
    destruct Hbad as [-> | Htl]; [reflexivity |].
    destruct (isInvalid (d_sfh fd)); [reflexivity |].
    match goal with |- context [if ?c then _ else _] => destruct c end;
      [reflexivity |].
    rewrite Htl. reflexivity.
  - intros u1 u2 u3 S St s d scratch key. unfold decode. cbv zeta.
    destruct (u3 >? s_bufsize scratch); [reflexivity |].
    destruct (d_ctext fd); [| reflexivity].
    destruct Hbad as [-> | Htl]; [reflexivity |].
    destruct (isInvalid (d_sfh fd)); [reflexivity |].
    rewrite Htl. reflexivity.
Qed.

Lemma secure_decoders_refuse_nonsecure_header_witness :
  decodeRaw 32 (decode_data_for (Some vector1_frame) 9)
    (fixed32BTextSize12BNonce16BTagSimpleDec_NULL_IMPL (replicate 32 0))
    (mkScratch false 320) (Some (replicate 16 0)) (Some vector3_iv)
  = (0, decode_data_for (Some vector1_frame) 9, []).
Proof.
  apply (proj1 (secure_decoders_refuse_nonsecure_header
                  (SecurableFrameHeader_new junk_header) vector1_frame 9
                  (decode_data_for (Some vector1_frame) 9)
                  vector1_frame_u8 eq_refl eq_refl)).
Defined.

(** ** decodeNonsecure *)

(** X23 (decodeNonsecure: the frames that are accepted).  On a non-NULL
    frame and a header whose frame length is a byte below 255,
    [decodeNonsecure] returns a non-zero value, the frame length plus one,
    exactly when the header is valid, its trailer length is 1, the buffer
    length covers the frame length and the byte at the frame's end is the CRC
    of the bytes before it.  A frame whose trailer byte has been replaced by
    any other value is refused. *)
Theorem decodeNonsecure_accepts_iff :
  forall fd (ctext : list Z),
    d_ctext fd = Some ctext -> 0 <= fl (d_sfh fd) < 255 ->
    (decodeNonsecure fd <> 0 <->
       isInvalid (d_sfh fd) = false /\ getTl (d_sfh fd) = 1 /\
       fl (d_sfh fd) <= d_ctextLen fd /\
       rd ctext (fl (d_sfh fd)) =
         computeNonSecureCRC (d_sfh fd) ctext (d_ctextLen fd)) /\
    (decodeNonsecure fd <> 0 -> decodeNonsecure fd = fl (d_sfh fd) + 1) /\
    (forall v,
       (Z.to_nat (fl (d_sfh fd)) < length ctext)%nat ->
       v <> computeNonSecureCRC (d_sfh fd) ctext (d_ctextLen fd) ->
       decodeNonsecure
         (mkDec (Some (wr ctext (fl (d_sfh fd)) v)) (d_ctextLen fd) (d_ptext fd)
            (d_ptextLenMax fd) (d_ptextLen fd) (d_sfh fd) (d_id fd)) = 0).
Proof.
  intros fd ctext Hct Hfl.
  assert (Hexp : forall fdx cx, d_ctext fdx = Some cx -> d_sfh fdx = d_sfh fd ->
            d_ctextLen fdx = d_ctextLen fd ->
            decodeNonsecure fdx =
              if isInvalid (d_sfh fd) then 0 else
              if negb (1 =? getTl (d_sfh fd)) then 0 else
              if 0 =? computeNonSecureCRC (d_sfh fd) cx (d_ctextLen fd) then 0 else
              if negb (rd cx (fl (d_sfh fd)) =?
                       computeNonSecureCRC (d_sfh fd) cx (d_ctextLen fd))
              then 0 else fl (d_sfh fd) + 1).
  { intros fdx cx Hcx Hsx Hlx. unfold decodeNonsecure. rewrite Hcx, Hsx, Hlx.
    cbv zeta. rewrite (wrap8_small (fl (d_sfh fd) + 1)) by lia. reflexivity. }
  rewrite (Hexp fd ctext Hct eq_refl eq_refl).
  pose proof (computeNonSecureCRC_range (d_sfh fd) ctext (d_ctextLen fd)) as Hrange.
  destruct (isInvalid (d_sfh fd)) eqn:Hinv.
  { split; [split; [intros Hne; contradiction | intros (Hc & _); discriminate] |].
    split; [intros Hne; contradiction |].
    intros v Hlen Hv. rewrite (Hexp (mkDec (Some (wr ctext (fl (d_sfh fd)) v)) (d_ctextLen fd) (d_ptext fd)
                 (d_ptextLenMax fd) (d_ptextLen fd) (d_sfh fd) (d_id fd))
              (wr ctext (fl (d_sfh fd)) v) eq_refl eq_refl eq_refl).
    reflexivity. }
  specialize (Hrange eq_refl).
  destruct (Z.eqb_spec 1 (getTl (d_sfh fd))) as [Htl | Htl]; cbn [negb].
  2:{ split; [split; [intros Hne; contradiction | intros (_ & Hc & _); congruence] |].
      split; [intros Hne; contradiction |].
      intros v Hlen Hv.
      rewrite (Hexp (mkDec (Some (wr ctext (fl (d_sfh fd)) v)) (d_ctextLen fd) (d_ptext fd)
                 (d_ptextLenMax fd) (d_ptextLen fd) (d_sfh fd) (d_id fd))
              (wr ctext (fl (d_sfh fd)) v) eq_refl eq_refl eq_refl).
      destruct (Z.eqb_spec 1 (getTl (d_sfh fd))); [congruence | reflexivity]. }
  assert (Htamper : forall v,
            (Z.to_nat (fl (d_sfh fd)) < length ctext)%nat ->
            v <> computeNonSecureCRC (d_sfh fd) ctext (d_ctextLen fd) ->
            decodeNonsecure
              (mkDec (Some (wr ctext (fl (d_sfh fd)) v)) (d_ctextLen fd) (d_ptext fd)
                 (d_ptextLenMax fd) (d_ptextLen fd) (d_sfh fd) (d_id fd)) = 0).
  { intros v Hlen Hv.
    rewrite (Hexp (mkDec (Some (wr ctext (fl (d_sfh fd)) v)) (d_ctextLen fd) (d_ptext fd)
                 (d_ptextLenMax fd) (d_ptextLen fd) (d_sfh fd) (d_id fd))
              (wr ctext (fl (d_sfh fd)) v) eq_refl eq_refl eq_refl).
    destruct (Z.eqb_spec 1 (getTl (d_sfh fd))); [| congruence]. cbn [negb].
    rewrite computeNonSecureCRC_wr_trailer by lia.
    rewrite rd_wr_eq by lia.
    destruct (0 =? computeNonSecureCRC (d_sfh fd) ctext (d_ctextLen fd));
      [reflexivity |].
    destruct (Z.eqb_spec v (computeNonSecureCRC (d_sfh fd) ctext (d_ctextLen fd)));
      [congruence | reflexivity]. }
  destruct (Z.le_gt_cases (fl (d_sfh fd)) (d_ctextLen fd)) as [Hle | Hgt].
  - specialize (Hrange Hle).
    destruct (Z.eqb_spec 0 (computeNonSecureCRC (d_sfh fd) ctext (d_ctextLen fd)));
      [lia |].
    destruct (Z.eqb_spec (rd ctext (fl (d_sfh fd)))
                (computeNonSecureCRC (d_sfh fd) ctext (d_ctextLen fd)))
      as [Hcrc | Hcrc]; cbn [negb].
    + split; [split; [intros _; auto | intros _; lia] |].
      split; [intros _; reflexivity | exact Htamper].
    + split; [split; [intros Hne; contradiction | intros (_ & _ & _ & Hc); congruence] |].
      split; [intros Hne; contradiction | exact Htamper].
  - assert (Hz : computeNonSecureCRC (d_sfh fd) ctext (d_ctextLen fd) = 0).
    { unfold computeNonSecureCRC. rewrite Hinv.
      destruct (Z.ltb_spec (d_ctextLen fd) (fl (d_sfh fd))); [reflexivity | lia]. }
    rewrite Hz. cbn [Z.eqb].
    split; [split; [intros Hne; contradiction | intros (_ & _ & Hc & _); lia] |].
    split; [intros Hne; contradiction |].
    rewrite Hz in Htamper. exact Htamper.
Qed.

Lemma decodeNonsecure_accepts_iff_witness :
  decodeNonsecure (mkDec (Some vector1_frame) 9 None 0 0
                     (decodeHeader (SecurableFrameHeader_new junk_header)
                        (Some vector1_frame) 9).2 (replicate 8 0)) = 8 + 1 /\
  decodeNonsecure (mkDec (Some (wr vector1_frame 8 0x24)) 9 None 0 0
                     (decodeHeader (SecurableFrameHeader_new junk_header)
                        (Some vector1_frame) 9).2 (replicate 8 0)) = 0.
Proof.
  destruct (decodeNonsecure_accepts_iff
              (mkDec (Some vector1_frame) 9 None 0 0
                 (decodeHeader (SecurableFrameHeader_new junk_header)
                    (Some vector1_frame) 9).2 (replicate 8 0))
              vector1_frame eq_refl ltac:(vm_compute; split; [discriminate | reflexivity]))
    as (_ & Hval & Htamper).
  split.
  - apply Hval. vm_compute. discriminate.
  - apply (Htamper 0x24); [vm_compute; lia | vm_compute; discriminate].
Defined.
